(** * QR code generator: record encoders and history store

    A shallow embedding of the TypeScript sources

      - [src/lib/mecard-encoder.ts]  (MeCard wire format),
      - [src/lib/vcard-encoder.ts]   (vCard 3.0 wire format),
      - [src/lib/qr-generator.ts]    (payload formatter and validator),
      - [src/lib/local-storage.ts]   (bounded history store),
      - the forms of [src/components/qr-generator/forms], the history
        gallery and the auto-save of the page component (what they hand
        to the validator and to the store),

    followed by the properties of the specification that concern them
    and by further properties of the code.

    Conventions.  A JavaScript string is modelled by the sequence of its
    UTF-8 bytes ([string] of the standard library), so that [byteLength] is
    the size [new Blob([s]).size] reports; every character the sources
    treat specially is ASCII, and an ASCII byte never occurs inside a
    multi-byte sequence.  An optional property [p?: string] is an
    [option string].  A call that may throw yields an [Outcome]. *)

From Stdlib Require Import Bool Ascii String List ZArith NArith QArith Lia.
From Stdlib Require Import DecimalString Sorted Permutation.
From Stdlib Require DecimalZ DecimalFacts.
Import ListNotations.

Local Open Scope list_scope.
Local Open Scope string_scope.

(* ================================================================== *)
(** ** JavaScript values and built-ins used by the sources *)
(* ================================================================== *)

(** Result of evaluating a call: a value, or an exception that unwinds to
    the nearest enclosing [try]. *)
Inductive JsError : Type :=
| Error (message : string).

Inductive Outcome (A : Type) : Type :=
| Returned (value : A)
| Thrown (e : JsError).

Arguments Returned {A} value.
Arguments Thrown {A} e.

Definition bind {A B : Type} (m : Outcome A) (k : A -> Outcome B) : Outcome B :=
  match m with
  | Returned a => k a
  | Thrown e => Thrown e
  end.

Notation "x <- m ;; k" := (bind m (fun x => k))
  (at level 61, m at next level, right associativity).

(** [try { body } catch { handler }] *)
Definition tryCatch {A : Type} (body : Outcome A) (handler : JsError -> A) : A :=
  match body with
  | Returned a => a
  | Thrown e => handler e
  end.

Definition dquote : ascii := "034"%char.
Definition backslash : ascii := "\"%char.
Definition CR : ascii := "013"%char.
Definition LF : ascii := "010"%char.
Definition CRLF : string := String CR (String LF "").

(** Truthiness of a string: every string but the empty one. *)
Definition truthy (s : string) : bool :=
  match s with
  | EmptyString => false
  | String _ _ => true
  end.

(** Truthiness of an optional string property: [undefined] and [''] are
    falsy. *)
Definition truthyOpt (o : option string) : bool :=
  match o with
  | Some s => truthy s
  | None => false
  end.

(** [o || ''] *)
Definition orEmpty (o : option string) : string :=
  match o with
  | Some s => if truthy s then s else ""
  | None => ""
  end.

(** [s.replace(/c/g, r)] for a one-character pattern [c] and a replacement
    [r] without [$] patterns. *)
Fixpoint replaceAll (c : ascii) (r : string) (s : string) : string :=
  match s with
  | EmptyString => EmptyString
  | String a rest =>
      if Ascii.eqb a c then r ++ replaceAll c r rest
      else String a (replaceAll c r rest)
  end.

(** [xs.push(x)] *)
Definition push {A : Type} (xs : list A) (x : A) : list A := app xs [x].

(** [parts.join(sep)] *)
Fixpoint join (sep : string) (parts : list string) : string :=
  match parts with
  | [] => ""
  | [p] => p
  | p :: rest => p ++ sep ++ join sep rest
  end.

(** [new Blob([s]).size] *)
Fixpoint byteLength (s : string) : N :=
  match s with
  | EmptyString => 0%N
  | String _ rest => N.succ (byteLength rest)
  end.

(** [s.split(sep)] for a one-character separator. *)
Fixpoint split (sep : ascii) (s : string) : list string :=
  match s with
  | EmptyString => [""]
  | String a rest =>
      if Ascii.eqb a sep then "" :: split sep rest
      else match split sep rest with
           | [] => [String a ""]
           | p :: ps => String a p :: ps
           end
  end.

(** A line terminator of the regular-expression grammar, which [.] does not
    match: LF, CR, U+2028 and U+2029 (the latter two as their UTF-8
    bytes E2 80 A8 and E2 80 A9). *)
Definition startsWithSeparatorChar (s : string) : bool :=
  match s with
  | String a (String b (String c _)) =>
      Ascii.eqb a "226"%char && Ascii.eqb b "128"%char
      && (Ascii.eqb c "168"%char || Ascii.eqb c "169"%char)
  | _ => false
  end.

Fixpoint hasLineTerminator (s : string) : bool :=
  match s with
  | EmptyString => false
  | String a rest =>
      Ascii.eqb a LF || Ascii.eqb a CR || startsWithSeparatorChar s
      || hasLineTerminator rest
  end.

(** [s] with the prefix [p] removed, when it starts with [p]. *)
Fixpoint stripPrefix (p s : string) : option string :=
  match p, s with
  | EmptyString, _ => Some s
  | String a p', String b s' => if Ascii.eqb a b then stripPrefix p' s' else None
  | String _ _, EmptyString => None
  end.

Definition startsWith (p s : string) : bool :=
  match stripPrefix p s with Some _ => true | None => false end.

(** [s] with the suffix [q] removed, when it ends with [q]. *)
Fixpoint stripSuffix (q s : string) : option string :=
  if String.eqb s q then Some ""
  else match s with
       | EmptyString => None
       | String a rest =>
           match stripSuffix q rest with
           | Some t => Some (String a t)
           | None => None
           end
       end.

Definition endsWith (q s : string) : bool :=
  match stripSuffix q s with Some _ => true | None => false end.

(* ================================================================== *)
(** ** [src/lib/mecard-encoder.ts] *)
(* ================================================================== *)

Module MeCardData.
Record t : Type := mk {
  name : string;
  phone : option string;
  email : option string;
  url : option string;
  address : option string;
  note : option string
}.
End MeCardData.

(** Backslash first, then colon, semicolon, comma and double quote. *)
Definition escapeMeCardValue (value : string) : string :=
  replaceAll dquote (String backslash (String dquote ""))
    (replaceAll "," "\,"
       (replaceAll ";" "\;"
          (replaceAll ":" "\:"
             (replaceAll backslash "\\" value)))).

(** [if (v) { fields.push(`KEY:${escapeMeCardValue(v)}`) }] *)
Definition pushField (key : string) (v : option string) (fields : list string)
  : list string :=
  if truthyOpt v then push fields (key ++ ":" ++ escapeMeCardValue (orEmpty v))
  else fields.

Definition encodeMeCard (data : MeCardData.t) : string :=
  let fields := [] in
  let fields := pushField "N" (Some (MeCardData.name data)) fields in
  let fields := pushField "TEL" (MeCardData.phone data) fields in
  let fields := pushField "EMAIL" (MeCardData.email data) fields in
  let fields := pushField "URL" (MeCardData.url data) fields in
  let fields := pushField "ADR" (MeCardData.address data) fields in
  let fields := pushField "NOTE" (MeCardData.note data) fields in
  "MECARD:" ++ join ";" fields ++ ";;".

(** [validateMeCard]: a name that is not blank and at least one more
    field.  [trim] is the built-in [String.prototype.trim]. *)
Definition validateMeCard (trim : string -> string) (data : MeCardData.t) : bool :=
  if negb (truthy (MeCardData.name data))
     || negb (truthy (trim (MeCardData.name data)))
  then false
  else
    let hasAdditionalField :=
      truthyOpt (MeCardData.phone data)
      || truthyOpt (MeCardData.email data)
      || truthyOpt (MeCardData.url data)
      || truthyOpt (MeCardData.address data)
      || truthyOpt (MeCardData.note data) in
    hasAdditionalField.

(* ================================================================== *)
(** ** [src/lib/vcard-encoder.ts] *)
(* ================================================================== *)

Module VCardPhone.
Record t : Type := mk { type : string; number : string }.
End VCardPhone.

Module VCardEmail.
Record t : Type := mk { type : string; address : string }.
End VCardEmail.

Module VCardAddress.
Record t : Type := mk {
  type : string;
  street : option string;
  city : option string;
  state : option string;
  postalCode : option string;
  country : option string
}.
End VCardAddress.

Module VCardSocialMedia.
Record t : Type := mk {
  linkedin : option string;
  twitter : option string;
  facebook : option string;
  instagram : option string;
  website : option string
}.
End VCardSocialMedia.

Module VCardData.
Record t : Type := mk {
  firstName : string;
  middleName : option string;
  lastName : string;
  prefix : option string;
  suffix : option string;
  nickname : option string;
  birthday : option string;
  photo : option string;
  phones : list VCardPhone.t;
  emails : list VCardEmail.t;
  organization : option string;
  jobTitle : option string;
  department : option string;
  role : option string;
  logo : option string;
  workWebsite : option string;
  addresses : list VCardAddress.t;
  socialMedia : option VCardSocialMedia.t;
  notes : option string
}.
End VCardData.

(** Backslash first, then comma, semicolon and newline. *)
Definition escapeVCardValue (value : string) : string :=
  replaceAll LF "\n"
    (replaceAll ";" "\;"
       (replaceAll "," "\,"
          (replaceAll backslash "\\" value))).

(** The tables are object literals indexed by the tag; a tag that is not a
    key of the literal yields the fallback (tags that name a property
    inherited from [Object.prototype] are left out of the model; the form
    offers the listed tags only). *)
Definition mapPhoneType (type : string) : string :=
  if type =? "mobile" then "CELL"
  else if type =? "home" then "HOME"
  else if type =? "work" then "WORK"
  else if type =? "fax" then "FAX"
  else if type =? "other" then "VOICE"
  else "VOICE".

Definition mapEmailType (type : string) : string :=
  if type =? "personal" then "HOME"
  else if type =? "work" then "WORK"
  else if type =? "other" then "INTERNET"
  else "INTERNET".

Definition mapAddressType (type : string) : string :=
  if type =? "home" then "HOME"
  else if type =? "work" then "WORK"
  else if type =? "postal" then "POSTAL"
  else if type =? "other" then "INTL"
  else "INTL".

(** The longest prefix of [s] without a semicolon, and what follows it. *)
Fixpoint spanNoSemicolon (s : string) : string * string :=
  match s with
  | EmptyString => ("", "")
  | String a rest =>
      if Ascii.eqb a ";" then ("", s)
      else let (run, tail) := spanNoSemicolon rest in (String a run, tail)
  end.

(** [s.replace(/^data:image\/[^;]+;base64,/, '')] *)
Definition stripDataUrlPrefix (s : string) : string :=
  match stripPrefix "data:image/" s with
  | Some rest =>
      let (subtype, tail) := spanNoSemicolon rest in
      if truthy subtype then
        match stripPrefix ";base64," tail with
        | Some payload => payload
        | None => s
        end
      else s
  | None => s
  end.

(** [if (v) { lines.push(line(v)) }] *)
Definition pushWhen (v : option string) (line : string -> string)
  (lines : list string) : list string :=
  if truthyOpt v then push lines (line (orEmpty v)) else lines.

(** [xs.filter(Boolean)] on optional strings. *)
Definition filterBoolean (xs : list (option string)) : list string :=
  map orEmpty (filter truthyOpt xs).

Definition pushSocialMedia (sm : option VCardSocialMedia.t) (lines : list string)
  : list string :=
  match sm with
  | None => lines
  | Some sm =>
      let lines := pushWhen (VCardSocialMedia.linkedin sm)
        (fun v => "X-SOCIALPROFILE;TYPE=linkedin:" ++ escapeVCardValue v) lines in
      let lines := pushWhen (VCardSocialMedia.twitter sm)
        (fun v => "X-SOCIALPROFILE;TYPE=twitter:" ++ escapeVCardValue v) lines in
      let lines := pushWhen (VCardSocialMedia.facebook sm)
        (fun v => "X-SOCIALPROFILE;TYPE=facebook:" ++ escapeVCardValue v) lines in
      let lines := pushWhen (VCardSocialMedia.instagram sm)
        (fun v => "X-SOCIALPROFILE;TYPE=instagram:" ++ escapeVCardValue v) lines in
      pushWhen (VCardSocialMedia.website sm)
        (fun v => "URL:" ++ escapeVCardValue v) lines
  end.

Definition structuredName (data : VCardData.t) : string :=
  join ";" [ orEmpty (Some (VCardData.lastName data));
             orEmpty (Some (VCardData.firstName data));
             orEmpty (VCardData.middleName data);
             orEmpty (VCardData.prefix data);
             orEmpty (VCardData.suffix data) ].

Definition encodeVCard (data : VCardData.t) : string :=
  let lines := [] in
  let lines := push lines "BEGIN:VCARD" in
  let lines := push lines "VERSION:3.0" in
  let fullName :=
    join " " (filterBoolean [ VCardData.prefix data;
                              Some (VCardData.firstName data);
                              VCardData.middleName data;
                              Some (VCardData.lastName data);
                              VCardData.suffix data ]) in
  let lines := push lines ("FN:" ++ escapeVCardValue fullName) in
  let lines := push lines ("N:" ++ escapeVCardValue (structuredName data)) in
  let lines := pushWhen (VCardData.nickname data)
    (fun v => "NICKNAME:" ++ escapeVCardValue v) lines in
  let lines := pushWhen (VCardData.birthday data)
    (fun v => "BDAY:" ++ replaceAll "-" "" v) lines in
  let lines := pushWhen (VCardData.photo data)
    (fun v => "PHOTO;ENCODING=b;TYPE=JPEG:" ++ stripDataUrlPrefix v) lines in
  let lines := fold_left (fun lines phone =>
    let phoneType := mapPhoneType (VCardPhone.type phone) in
    push lines ("TEL;TYPE=" ++ phoneType ++ ":"
                ++ escapeVCardValue (VCardPhone.number phone)))
    (VCardData.phones data) lines in
  let lines := fold_left (fun lines email =>
    let emailType := mapEmailType (VCardEmail.type email) in
    push lines ("EMAIL;TYPE=" ++ emailType ++ ":"
                ++ escapeVCardValue (VCardEmail.address email)))
    (VCardData.emails data) lines in
  let lines := pushWhen (VCardData.organization data)
    (fun v => "ORG:" ++ escapeVCardValue v) lines in
  let lines := pushWhen (VCardData.jobTitle data)
    (fun v => "TITLE:" ++ escapeVCardValue v) lines in
  let lines := pushWhen (VCardData.department data)
    (fun v => "X-DEPARTMENT:" ++ escapeVCardValue v) lines in
  let lines := pushWhen (VCardData.role data)
    (fun v => "ROLE:" ++ escapeVCardValue v) lines in
  let lines := pushWhen (VCardData.logo data)
    (fun v => "LOGO;ENCODING=b;TYPE=JPEG:" ++ stripDataUrlPrefix v) lines in
  let lines := pushWhen (VCardData.workWebsite data)
    (fun v => "URL;TYPE=WORK:" ++ escapeVCardValue v) lines in
  let lines := fold_left (fun lines address =>
    let addressType := mapAddressType (VCardAddress.type address) in
    let addressValue :=
      join ";" [ ""; "";
                 orEmpty (VCardAddress.street address);
                 orEmpty (VCardAddress.city address);
                 orEmpty (VCardAddress.state address);
                 orEmpty (VCardAddress.postalCode address);
                 orEmpty (VCardAddress.country address) ] in
    push lines ("ADR;TYPE=" ++ addressType ++ ":" ++ escapeVCardValue addressValue))
    (VCardData.addresses data) lines in
  let lines := pushSocialMedia (VCardData.socialMedia data) lines in
  let lines := pushWhen (VCardData.notes data)
    (fun v => "NOTE:" ++ escapeVCardValue v) lines in
  let lines := push lines "END:VCARD" in
  join CRLF lines.

(** The reading of a semicolon-structured vCard value (RFC 2426): the
    value is cut at every semicolon that is not escaped by a backslash. *)
Fixpoint splitUnescaped (sep : ascii) (s : string) : list string :=
  match s with
  | EmptyString => [""]
  | String a rest =>
      if Ascii.eqb a backslash then
        match rest with
        | String b rest' =>
            match splitUnescaped sep rest' with
            | [] => [String a (String b "")]
            | p :: ps => String a (String b p) :: ps
            end
        | EmptyString => [String a ""]
        end
      else if Ascii.eqb a sep then "" :: splitUnescaped sep rest
      else match splitUnescaped sep rest with
           | [] => [String a ""]
           | p :: ps => String a p :: ps
           end
  end.

(** The lines of a CRLF-joined text. *)
Fixpoint splitLines (s : string) : list string :=
  match s with
  | EmptyString => [""]
  | String a rest =>
      match rest with
      | String b rest' =>
          if Ascii.eqb a CR && Ascii.eqb b LF then "" :: splitLines rest'
          else match splitLines rest with
               | [] => [String a ""]
               | p :: ps => String a p :: ps
               end
      | EmptyString => [String a ""]
      end
  end.

(* ================================================================== *)
(** ** [src/types/qr-types.ts] *)
(* ================================================================== *)

(** A JavaScript number: a finite value or NaN.  Every comparison with NaN
    is false. *)
Inductive JSNumber : Type :=
| NaN
| Num (q : Q).

Definition jsLt (a b : JSNumber) : bool :=
  match a, b with
  | Num x, Num y => negb (Qle_bool y x)
  | _, _ => false
  end.

Definition jsGt (a b : JSNumber) : bool := jsLt b a.

Module ColorConfig.
Record t : Type := mk { foreground : string; background : string }.
End ColorConfig.

Module LogoConfig.
Record t : Type := mk {
  image : string;
  strokeWidth : JSNumber;
  strokeColor : string
}.
End LogoConfig.

(** The union [QRData], discriminated by its [type] property.  The
    TypeScript type is closed, but the functions below switch on the
    run-time string: [OtherData t] is an object whose [type] is a string
    [t] outside the eight literals. *)
Inductive QRData : Type :=
| URLData (url : string)
| TextData (text : string)
| EmailData (email : string) (subject body : option string)
| PhoneData (phone : string)
| SMSData (phone : string) (message : option string)
| LocationData (latitude longitude : JSNumber) (address : option string)
| VCard (vcard : VCardData.t)
| MeCard (mecard : MeCardData.t)
| OtherData (type : string).

(** [data.type] *)
Definition typeOf (data : QRData) : string :=
  match data with
  | URLData _ => "url"
  | TextData _ => "text"
  | EmailData _ _ _ => "email"
  | PhoneData _ => "phone"
  | SMSData _ _ => "sms"
  | LocationData _ _ _ => "location"
  | VCard _ => "vcard"
  | MeCard _ => "mecard"
  | OtherData type => type
  end.

Definition knownTypes : list string :=
  ["url"; "text"; "email"; "phone"; "sms"; "vcard"; "mecard"; "location"].

Definition isKnownType (type : string) : bool :=
  existsb (String.eqb type) knownTypes.

Module HistoryItem.
Record t : Type := mk {
  id : string;
  timestamp : Z;
  type : string;
  data : QRData;
  colors : ColorConfig.t;
  thumbnail : string
}.
End HistoryItem.

Module StorageSchema.
Record t : Type := mk {
  version : Z;
  items : list HistoryItem.t
}.
End StorageSchema.

Module QRGenerationOptions.
Record t : Type := mk {
  data : string;
  colors : ColorConfig.t;
  logo : option LogoConfig.t;
  size : Z;
  errorCorrectionLevel : string
}.
End QRGenerationOptions.

Module ValidationResult.
Record t : Type := mk { valid : bool; error : option string }.
End ValidationResult.

(* ================================================================== *)
(** ** [src/lib/qr-generator.ts] *)
(* ================================================================== *)

Section Generator.

(** Built-ins of the run time: [encodeURIComponent], the conversion of a
    number in a template literal, [String.prototype.trim], whether
    [new URL(s)] succeeds, and [/^[^\s@]+@[^\s@]+\.[^\s@]+$/.test]. *)
Variable encodeURIComponent : string -> string.
Variable numberToString : JSNumber -> string.
Variable trim : string -> string.
Variable canParseURL : string -> bool.
Variable emailRegexTest : string -> bool.

(** The rendering library's class, the repository's wrapper around its
    constructor, the logo processor (canvas work, may reject), and the
    [logo] property of a record. *)
Variable QRCodeStyling : Type.
Variable createQRCodeStyling :
  QRGenerationOptions.t -> option string -> QRCodeStyling.
Variable applyStrokeToLogo : string -> JSNumber -> string -> Outcome string.
Variable logoOf : QRData -> option LogoConfig.t.

Definition formatEmailData (email : string) (subject body : option string)
  : string :=
  let mailto := "mailto:" ++ email in
  let params := [] in
  let params :=
    if truthyOpt subject
    then push params ("subject=" ++ encodeURIComponent (orEmpty subject))
    else params in
  let params :=
    if truthyOpt body
    then push params ("body=" ++ encodeURIComponent (orEmpty body))
    else params in
  if (0 <? length params)%nat then mailto ++ "?" ++ join "&" params
  else mailto.

Definition formatSMSData (phone : string) (message : option string) : string :=
  let sms := "sms:" ++ phone in
  if truthyOpt message
  then sms ++ "?body=" ++ encodeURIComponent (orEmpty message)
  else sms.

Definition formatLocationData (latitude longitude : JSNumber) : string :=
  "geo:" ++ numberToString latitude ++ "," ++ numberToString longitude.

Definition formatQRData (data : QRData) : Outcome string :=
  match data with
  | URLData url => Returned url
  | TextData text => Returned text
  | EmailData email subject body => Returned (formatEmailData email subject body)
  | PhoneData phone => Returned ("tel:" ++ phone)
  | SMSData phone message => Returned (formatSMSData phone message)
  | LocationData latitude longitude _ =>
      Returned (formatLocationData latitude longitude)
  | VCard vcard => Returned (encodeVCard vcard)
  | MeCard mecard => Returned (encodeMeCard mecard)
  | OtherData type => Thrown (Error ("Unsupported QR type: " ++ type))
  end.

(** [formatQRData] is called outside any [try]; only the logo processing
    is guarded. *)
Definition generateQRCode (data : QRData) (colors : ColorConfig.t) (size : Z)
  : Outcome QRCodeStyling :=
  qrData <- formatQRData data ;;
  let processedLogoImage :=
    match logoOf data with
    | Some logo =>
        tryCatch
          (img <- applyStrokeToLogo (LogoConfig.image logo)
                    (LogoConfig.strokeWidth logo) (LogoConfig.strokeColor logo) ;;
           Returned (Some img))
          (fun _ => None)
    | None => None
    end in
  let options :=
    QRGenerationOptions.mk qrData colors (logoOf data) size
      (match logoOf data with Some _ => "H" | None => "M" end) in
  Returned (createQRCodeStyling options processedLogoImage).

Definition isValidEmail (email : string) : bool := emailRegexTest email.

Definition invalid (message : string) : ValidationResult.t :=
  ValidationResult.mk false (Some message).

(** [!s || s.trim() === ''] *)
Definition blank (s : string) : bool :=
  negb (truthy s) || negb (truthy (trim s)).

(** The [switch] has eight cases and no [default]; every case that does
    not return falls through to the final [return { valid: true }]. *)
Definition validateQRData (data : QRData) : ValidationResult.t :=
  let ok := ValidationResult.mk true None in
  match data with
  | URLData url =>
      if blank url then invalid "URL is required"
      else if negb (canParseURL url) then invalid "Invalid URL format"
      else ok
  | TextData text =>
      if blank text then invalid "Text is required" else ok
  | EmailData email _ _ =>
      if negb (truthy email) || negb (isValidEmail email)
      then invalid "Valid email address is required"
      else ok
  | PhoneData phone =>
      if blank phone then invalid "Phone number is required" else ok
  | SMSData phone _ =>
      if blank phone then invalid "Phone number is required" else ok
  | LocationData latitude longitude _ =>
      if jsLt latitude (Num (-90)) || jsGt latitude (Num 90)
      then invalid "Latitude must be between -90 and 90"
      else if jsLt longitude (Num (-180)) || jsGt longitude (Num 180)
      then invalid "Longitude must be between -180 and 180"
      else ok
  | VCard vcard =>
      if blank (VCardData.firstName vcard)
      then invalid "First name is required for VCard"
      else if blank (VCardData.lastName vcard)
      then invalid "Last name is required for VCard"
      else ok
  | MeCard mecard =>
      if blank (MeCardData.name mecard)
      then invalid "Name is required for MeCard"
      else ok
  | OtherData _ => ok
  end.

(** [src/components/qr-generator/QRPreview.tsx].  The inner function of
    the effect calls [generateQRCode] inside a [try]; the model follows
    it up to the hand-over of the code to the parent component (drawing
    the code is the renderer's work).  The result is the message shown
    and the code handed over. *)
Definition generateAndDisplayQR (data : QRData) (colors : ColorConfig.t)
  : string * option QRCodeStyling :=
  tryCatch
    (newQrCode <- generateQRCode data colors 300 ;;
     Returned ("", Some newQrCode))
    (fun _ =>
       ("Failed to generate QR code. Data may be too large or invalid.", None)).

(** The effect for a record that is present: the validation gate, then
    [generateAndDisplayQR]. *)
Definition previewEffect (data : QRData) (colors : ColorConfig.t)
  : string * option QRCodeStyling :=
  let validation := validateQRData data in
  if negb (ValidationResult.valid validation) then
    (match ValidationResult.error validation with
     | Some message => if truthy message then message else "Invalid QR data"
     | None => "Invalid QR data"
     end, None)
  else generateAndDisplayQR data colors.

End Generator.

(* ================================================================== *)
(** ** [src/lib/local-storage.ts] *)
(* ================================================================== *)

Definition STORAGE_VERSION : Z := 1.
Definition MAX_ITEMS : nat := 50.
Definition MAX_STORAGE_SIZE : N := 5 * 1024 * 1024.

(** What [localStorage] holds under [STORAGE_KEY]: nothing, a text that
    [JSON.parse] rejects, or the text of a schema (the store itself writes
    nothing else).  A stored text stands for the document it parses to. *)
Inductive Entry : Type :=
| NoEntry
| Unparseable
| Document (schema : StorageSchema.t).

(** The browser's storage: whether it can be written at all (the probe of
    [isStorageAvailable]), which documents [setItem] accepts (it throws a
    quota error on the others), and the entry under [STORAGE_KEY]. *)
Module LocalStorage.
Record t : Type := mk {
  available : bool;
  accepts : StorageSchema.t -> bool;
  entry : Entry
}.
End LocalStorage.

Definition setEntry (st : LocalStorage.t) (e : Entry) : LocalStorage.t :=
  LocalStorage.mk (LocalStorage.available st) (LocalStorage.accepts st) e.

(** The readings of the clock and of the random generator that one call of
    [saveToHistory] consumes: [Date.now()] inside [generateId], the digits
    [Math.random().toString(36).substring(2, 9)], and [Date.now()] for the
    time stamp. *)
Module Tick.
Record t : Type := mk {
  idClock : Z;
  idRandom : string;
  stampClock : Z
}.
End Tick.

(** The value of an import text under [JSON.parse], for a text whose
    items, when they are an array, follow the [HistoryItem] type (a text
    the store has exported); [importHistoryFromJSON] on every parsed
    text, whatever its items are, is the subject of the module
    [Untyped] below, of which the function here is the restriction. *)
Inductive JsonValue : Type :=
| JUndefined
| JNull
| JBool (b : bool)
| JNumber (q : Q)
| JString (s : string)
| JObject
| JArray (elements : list HistoryItem.t).

Inductive ImportPayload : Type :=
| SyntaxError
| ParsedNull
| Parsed (version items : JsonValue).

(** [!!v] *)
Definition toBoolean (v : JsonValue) : bool :=
  match v with
  | JUndefined | JNull => false
  | JBool b => b
  | JNumber q => negb (Qeq_bool q 0)
  | JString s => truthy s
  | JObject | JArray _ => true
  end.

(** [Array.isArray(v)] *)
Definition isArray (v : JsonValue) : bool :=
  match v with
  | JArray _ => true
  | _ => false
  end.

Definition elementsOf (v : JsonValue) : list HistoryItem.t :=
  match v with
  | JArray l => l
  | _ => []
  end.

(** [xs.sort(compare)]: the sort is stable, and an element moves in front
    of another only when [compare] orders it strictly before. *)
Fixpoint insertSorted {A : Type} (compare : A -> A -> Z) (x : A) (xs : list A)
  : list A :=
  match xs with
  | [] => [x]
  | y :: rest =>
      if (compare x y <=? 0)%Z then x :: xs
      else y :: insertSorted compare x rest
  end.

Definition jsSort {A : Type} (compare : A -> A -> Z) (xs : list A) : list A :=
  fold_right (insertSorted compare) [] xs.

(** [String(n)] for an integer. *)
Definition decimal (n : Z) : string :=
  DecimalString.NilZero.string_of_int (Z.to_int n).

Definition createEmptySchema : StorageSchema.t :=
  StorageSchema.mk STORAGE_VERSION [].

Definition migrateSchema (oldSchema : StorageSchema.t) : StorageSchema.t :=
  createEmptySchema.

(** The probe writes and removes a sentinel key; the storage is left as it
    was found. *)
Definition isStorageAvailable (st : LocalStorage.t) : bool :=
  LocalStorage.available st.

Definition loadSchema (st : LocalStorage.t) : StorageSchema.t :=
  if negb (isStorageAvailable st) then createEmptySchema
  else
    match LocalStorage.entry st with
    | NoEntry => createEmptySchema
    | Unparseable => createEmptySchema
    | Document schema =>
        if negb (StorageSchema.version schema =? STORAGE_VERSION)%Z
        then migrateSchema schema
        else schema
    end.

Definition saveSchema (schema : StorageSchema.t) (st : LocalStorage.t)
  : Outcome LocalStorage.t :=
  if negb (isStorageAvailable st)
  then Thrown (Error "Local storage is not available")
  else if LocalStorage.accepts st schema
  then Returned (setEntry st (Document schema))
  else Thrown (Error "QuotaExceededError").

Definition generateId (now : Z) (random : string) : string :=
  decimal now ++ "_" ++ random.

Definition getHistory (st : LocalStorage.t) : list HistoryItem.t :=
  StorageSchema.items (loadSchema st).

Definition getHistoryItem (id : string) (st : LocalStorage.t)
  : option HistoryItem.t :=
  find (fun item => HistoryItem.id item =? id) (StorageSchema.items (loadSchema st)).

Definition deleteHistoryItem (id : string) (st : LocalStorage.t)
  : bool * LocalStorage.t :=
  let schema := loadSchema st in
  let initialLength := length (StorageSchema.items schema) in
  let items := filter (fun item => negb (HistoryItem.id item =? id))
                 (StorageSchema.items schema) in
  let schema := StorageSchema.mk (StorageSchema.version schema) items in
  if (length items <? initialLength)%nat then
    tryCatch (st' <- saveSchema schema st ;; Returned (true, st'))
             (fun _ => (false, st))
  else (false, st).

Definition clearHistory (st : LocalStorage.t) : bool * LocalStorage.t :=
  tryCatch
    (st' <- saveSchema (StorageSchema.mk STORAGE_VERSION []) st ;;
     Returned (true, st'))
    (fun _ => (false, st)).

Definition filterHistoryByType (type : string) (st : LocalStorage.t)
  : list HistoryItem.t :=
  filter (fun item => HistoryItem.type item =? type)
    (StorageSchema.items (loadSchema st)).

(** [existingSchema.items.forEach(...)]: an existing item is pushed unless
    an item of the list built so far has its id. *)
Definition mergeItems (imported existing : list HistoryItem.t)
  : list HistoryItem.t :=
  fold_left
    (fun mergedItems existingItem =>
       let isDuplicate :=
         existsb (fun item => HistoryItem.id item =? HistoryItem.id existingItem)
           mergedItems in
       if negb isDuplicate then push mergedItems existingItem else mergedItems)
    existing imported.

Definition newestFirst (a b : HistoryItem.t) : Z :=
  (HistoryItem.timestamp b - HistoryItem.timestamp a)%Z.

(** The argument is the import text as [JSON.parse] reads it. *)
Definition importHistoryFromJSON (json : ImportPayload) (st : LocalStorage.t)
  : bool * LocalStorage.t :=
  tryCatch
    (match json with
     | SyntaxError => Thrown (Error "SyntaxError")
     | ParsedNull => Thrown (Error "TypeError")
     | Parsed version items =>
         if negb (toBoolean version) || negb (isArray items)
         then Thrown (Error "Invalid history data format")
         else
           let existingSchema := loadSchema st in
           let mergedItems :=
             mergeItems (elementsOf items) (StorageSchema.items existingSchema) in
           let mergedItems := jsSort newestFirst mergedItems in
           let limitedItems := firstn MAX_ITEMS mergedItems in
           let newSchema := StorageSchema.mk STORAGE_VERSION limitedItems in
           st' <- saveSchema newSchema st ;;
           Returned (true, st')
     end)
    (fun _ => (false, st)).

Section Store.

(** [JSON.stringify] on a record, the byte size
    [new Blob([JSON.stringify(schema)]).size] of a schema, and the
    renderer's thumbnail ([generateThumbnail] catches every failure and
    then yields the empty string). *)
Variable stringify : QRData -> string.
Variable schemaBytes : StorageSchema.t -> N.
Variable QRCodeStyling : Type.
Variable generateThumbnail : QRCodeStyling -> Z -> string.

(** [schema.items.pop()] *)
Definition pop (schema : StorageSchema.t) : StorageSchema.t :=
  StorageSchema.mk (StorageSchema.version schema)
    (removelast (StorageSchema.items schema)).

(** The [while] loop of [enforceStorageLimit]; every turn removes one
    item, so the number of items bounds the number of turns. *)
Fixpoint enforceLoop (turns : nat) (schema : StorageSchema.t)
  : StorageSchema.t :=
  match turns with
  | O => schema
  | S turns' =>
      if (MAX_STORAGE_SIZE <? schemaBytes schema)%N
         && (1 <? length (StorageSchema.items schema))%nat
      then enforceLoop turns' (pop schema)
      else schema
  end.

Definition enforceStorageLimit (schema : StorageSchema.t) : StorageSchema.t :=
  enforceLoop (length (StorageSchema.items schema)) schema.

Definition isDuplicateOf (data : QRData) (item : HistoryItem.t) : bool :=
  (HistoryItem.type item =? typeOf data)
  && (stringify (HistoryItem.data item) =? stringify data).

Definition getStorageSize (st : LocalStorage.t) : N :=
  schemaBytes (loadSchema st).

Definition saveToHistory (data : QRData) (colors : ColorConfig.t)
  (qrCode : QRCodeStyling) (tick : Tick.t) (st : LocalStorage.t)
  : option HistoryItem.t * LocalStorage.t :=
  let schema := loadSchema st in
  let isDuplicate := existsb (isDuplicateOf data) (StorageSchema.items schema) in
  if isDuplicate then (None, st)
  else
    let thumbnail := generateThumbnail qrCode 100 in
    let historyItem :=
      HistoryItem.mk (generateId (Tick.idClock tick) (Tick.idRandom tick))
        (Tick.stampClock tick) (typeOf data) data colors thumbnail in
    let items := historyItem :: StorageSchema.items schema in
    let items :=
      if (MAX_ITEMS <? length items)%nat then firstn MAX_ITEMS items else items in
    let schema := StorageSchema.mk (StorageSchema.version schema) items in
    let schema := enforceStorageLimit schema in
    tryCatch
      (st' <- saveSchema schema st ;; Returned (Some historyItem, st'))
      (fun _ => (None, st)).

End Store.

Section StoreUpdate.

Variable QRCodeStyling : Type.
Variable generateThumbnail : QRCodeStyling -> Z -> string.

(** [items] with the first item whose id is [id] replaced by [updated]. *)
Fixpoint replaceById (id : string) (updated : HistoryItem.t)
  (items : list HistoryItem.t) : list HistoryItem.t :=
  match items with
  | [] => []
  | item :: rest =>
      if HistoryItem.id item =? id then updated :: rest
      else item :: replaceById id updated rest
  end.

(** Modelled from the spec: [updateHistoryItem], which the page component
    imports from [lib/local-storage] and calls from its auto-save timer,
    but which the source tree's [local-storage.ts] does not define.  It
    loads the schema and locates the item by id (null when absent),
    regenerates the thumbnail, replaces the time stamp by the current
    time and data and colours by the new values, keeps the id and the
    position, persists, and returns the updated item; a failing write is
    reported by null, as in the other write paths.  The spec does not
    list the [type] property among those replaced: it is kept. *)
Definition updateHistoryItem (id : string) (data : QRData)
  (colors : ColorConfig.t) (qrCode : QRCodeStyling) (now : Z)
  (st : LocalStorage.t) : option HistoryItem.t * LocalStorage.t :=
  let schema := loadSchema st in
  match find (fun item => HistoryItem.id item =? id) (StorageSchema.items schema) with
  | None => (None, st)
  | Some item =>
      let thumbnail := generateThumbnail qrCode 100 in
      let updated :=
        HistoryItem.mk (HistoryItem.id item) now (HistoryItem.type item)
          data colors thumbnail in
      let schema :=
        StorageSchema.mk (StorageSchema.version schema)
          (replaceById id updated (StorageSchema.items schema)) in
      tryCatch
        (st' <- saveSchema schema st ;; Returned (Some updated, st'))
        (fun _ => (None, st))
  end.

End StoreUpdate.

(* ================================================================== *)
(** ** [JSON.stringify] on the values of the data model *)
(* ================================================================== *)

Module Json.
Section Stringify.

(** The decimal text of a finite number. *)
Variable numberToString : JSNumber -> string.

Definition hexDigit (n : nat) : ascii :=
  nth n (list_ascii_of_string "0123456789abcdef") "0"%char.

(** Quote, backslash and the control characters are escaped; every
    other byte is copied. *)
Definition escapeChar (c : ascii) : string :=
  let n := nat_of_ascii c in
  if Ascii.eqb c dquote then String backslash (String dquote "")
  else if Ascii.eqb c backslash then "\\"
  else if (n =? 8)%nat then "\b"
  else if (n =? 9)%nat then "\t"
  else if (n =? 10)%nat then "\n"
  else if (n =? 12)%nat then "\f"
  else if (n =? 13)%nat then "\r"
  else if (n <? 32)%nat
  then "\u00" ++ String (hexDigit (n / 16)) (String (hexDigit (n mod 16)) "")
  else String c "".

Fixpoint escape (s : string) : string :=
  match s with
  | EmptyString => EmptyString
  | String c rest => escapeChar c ++ escape rest
  end.

Definition str (s : string) : string :=
  String dquote (escape s ++ String dquote "").

Definition num (n : JSNumber) : string :=
  match n with
  | NaN => "null"
  | Num _ => numberToString n
  end.

(** A property [key: value]; a property that is [undefined] is left
    out. *)
Definition prop (key : string) (value : string) : list string :=
  [str key ++ ":" ++ value].

Definition optProp (key : string) (value : option string) : list string :=
  match value with
  | Some v => prop key (str v)
  | None => []
  end.

Definition object (members : list string) : string :=
  "{" ++ join "," members ++ "}".

Definition array (elements : list string) : string :=
  "[" ++ join "," elements ++ "]".

Definition phone (p : VCardPhone.t) : string :=
  object (prop "type" (str (VCardPhone.type p))
          ++ prop "number" (str (VCardPhone.number p)))%list.

Definition email (e : VCardEmail.t) : string :=
  object (prop "type" (str (VCardEmail.type e))
          ++ prop "address" (str (VCardEmail.address e)))%list.

Definition address (a : VCardAddress.t) : string :=
  object (prop "type" (str (VCardAddress.type a))
          ++ optProp "street" (VCardAddress.street a)
          ++ optProp "city" (VCardAddress.city a)
          ++ optProp "state" (VCardAddress.state a)
          ++ optProp "postalCode" (VCardAddress.postalCode a)
          ++ optProp "country" (VCardAddress.country a))%list.

Definition socialMedia (s : VCardSocialMedia.t) : string :=
  object (optProp "linkedin" (VCardSocialMedia.linkedin s)
          ++ optProp "twitter" (VCardSocialMedia.twitter s)
          ++ optProp "facebook" (VCardSocialMedia.facebook s)
          ++ optProp "instagram" (VCardSocialMedia.instagram s)
          ++ optProp "website" (VCardSocialMedia.website s))%list.

Definition vcardMembers (v : VCardData.t) : list string :=
  (prop "firstName" (str (VCardData.firstName v))
   ++ optProp "middleName" (VCardData.middleName v)
   ++ prop "lastName" (str (VCardData.lastName v))
   ++ optProp "prefix" (VCardData.prefix v)
   ++ optProp "suffix" (VCardData.suffix v)
   ++ optProp "nickname" (VCardData.nickname v)
   ++ optProp "birthday" (VCardData.birthday v)
   ++ optProp "photo" (VCardData.photo v)
   ++ prop "phones" (array (map phone (VCardData.phones v)))
   ++ prop "emails" (array (map email (VCardData.emails v)))
   ++ optProp "organization" (VCardData.organization v)
   ++ optProp "jobTitle" (VCardData.jobTitle v)
   ++ optProp "department" (VCardData.department v)
   ++ optProp "role" (VCardData.role v)
   ++ optProp "logo" (VCardData.logo v)
   ++ optProp "workWebsite" (VCardData.workWebsite v)
   ++ prop "addresses" (array (map address (VCardData.addresses v)))
   ++ match VCardData.socialMedia v with
      | Some s => prop "socialMedia" (socialMedia s)
      | None => []
      end
   ++ optProp "notes" (VCardData.notes v))%list.

Definition mecardMembers (m : MeCardData.t) : list string :=
  (prop "name" (str (MeCardData.name m))
   ++ optProp "phone" (MeCardData.phone m)
   ++ optProp "email" (MeCardData.email m)
   ++ optProp "url" (MeCardData.url m)
   ++ optProp "address" (MeCardData.address m)
   ++ optProp "note" (MeCardData.note m))%list.

(** [JSON.stringify(data)] for a record, its [type] first. *)
Definition stringify (data : QRData) : string :=
  object
    (prop "type" (str (typeOf data))
     ++ match data with
        | URLData url => prop "url" (str url)
        | TextData text => prop "text" (str text)
        | EmailData email subject body =>
            prop "email" (str email) ++ optProp "subject" subject
            ++ optProp "body" body
        | PhoneData phone => prop "phone" (str phone)
        | SMSData phone message =>
            prop "phone" (str phone) ++ optProp "message" message
        | LocationData latitude longitude address =>
            prop "latitude" (num latitude) ++ prop "longitude" (num longitude)
            ++ optProp "address" address
        | VCard v => vcardMembers v
        | MeCard m => mecardMembers m
        | OtherData _ => []
        end)%list.

Definition colors (c : ColorConfig.t) : string :=
  object (prop "foreground" (str (ColorConfig.foreground c))
          ++ prop "background" (str (ColorConfig.background c)))%list.

Definition item (i : HistoryItem.t) : string :=
  object (prop "id" (str (HistoryItem.id i))
          ++ prop "timestamp" (decimal (HistoryItem.timestamp i))
          ++ prop "type" (str (HistoryItem.type i))
          ++ prop "data" (stringify (HistoryItem.data i))
          ++ prop "colors" (colors (HistoryItem.colors i))
          ++ prop "thumbnail" (str (HistoryItem.thumbnail i)))%list.

Definition schema (s : StorageSchema.t) : string :=
  object (prop "version" (decimal (StorageSchema.version s))
          ++ prop "items" (array (map item (StorageSchema.items s))))%list.

(** [new Blob([JSON.stringify(schema)]).size] *)
Definition schemaBytes (s : StorageSchema.t) : N := byteLength (schema s).

End Stringify.
End Json.

(* ================================================================== *)
(** ** Notions the properties are stated with *)
(* ================================================================== *)

(** [/^MECARD:.*;;$/.test(s)]: the text between the prefix and the final
    two semicolons is what [.*] has to match. *)
Definition matchesMeCardPattern (s : string) : bool :=
  match stripPrefix "MECARD:" s with
  | Some rest =>
      match stripSuffix ";;" rest with
      | Some body => negb (hasLineTerminator body)
      | None => false
      end
  | None => false
  end.

(** The characters of the MeCard grammar that separate fields, keys and
    list elements, and the characters [escapeMeCardValue] escapes. *)
Definition isSeparator (c : ascii) : bool :=
  Ascii.eqb c ";" || Ascii.eqb c ":" || Ascii.eqb c ",".

Definition isMeCardSpecial (c : ascii) : bool :=
  Ascii.eqb c backslash || isSeparator c || Ascii.eqb c dquote.

(** [s] read from the left: a backslash escapes the character after it,
    which must exist and be [escapable]; no other character is [raw]. *)
Fixpoint escapedText (raw escapable : ascii -> bool) (s : string) : bool :=
  match s with
  | EmptyString => true
  | String c rest =>
      if Ascii.eqb c backslash then
        match rest with
        | String d rest' => escapable d && escapedText raw escapable rest'
        | EmptyString => false
        end
      else negb (raw c) && escapedText raw escapable rest
  end.

(** No separator and no backslash stands for itself in [s]. *)
Definition noRawSpecial (s : string) : bool :=
  escapedText isSeparator isMeCardSpecial s.

(** Modelled from the spec: the decoder that the round-trip property
    [unescape(encode(v)) == v] refers to; the repository has no decoder.
    A backslash is dropped and the character after it is kept. *)
Fixpoint unescapeMeCardValue (s : string) : string :=
  match s with
  | EmptyString => EmptyString
  | String c rest =>
      if Ascii.eqb c backslash then
        match rest with
        | String d rest' => String d (unescapeMeCardValue rest')
        | EmptyString => EmptyString
        end
      else String c (unescapeMeCardValue rest)
  end.

(** What [escapeMeCardValue] makes of one character. *)
Definition escapeMeCardChar (c : ascii) : string :=
  if isMeCardSpecial c then String backslash (String c "") else String c "".

(** A text that does not begin with a byte that could complete a
    multi-byte line terminator begun before it. *)
Definition plainStart (s : string) : bool :=
  match s with
  | EmptyString => true
  | String c _ =>
      negb (Ascii.eqb c "128"%char) && negb (Ascii.eqb c "168"%char)
      && negb (Ascii.eqb c "169"%char)
  end.

(** The values of a MeCard record, present or not. *)
Definition fieldValues (data : MeCardData.t) : list string :=
  [ MeCardData.name data;
    orEmpty (MeCardData.phone data);
    orEmpty (MeCardData.email data);
    orEmpty (MeCardData.url data);
    orEmpty (MeCardData.address data);
    orEmpty (MeCardData.note data) ].

(** The fields of a record that [encodeMeCard] emits, with their keys. *)
Definition presentFields (data : MeCardData.t) : list (string * string) :=
  let field key v := if truthyOpt v then [(key, orEmpty v)] else [] in
  (field "N" (Some (MeCardData.name data))
   ++ field "TEL" (MeCardData.phone data)
   ++ field "EMAIL" (MeCardData.email data)
   ++ field "URL" (MeCardData.url data)
   ++ field "ADR" (MeCardData.address data)
   ++ field "NOTE" (MeCardData.note data))%list.

Definition token (field : string * string) : string :=
  fst field ++ ":" ++ escapeMeCardValue (snd field).

(** The line of a vCard that carries the structured name. *)
Definition nameLines (vcard : string) : list string :=
  filter (startsWith "N:") (splitLines vcard).

(** The list [localStorage] holds under [STORAGE_KEY]. *)
Definition storedItems (st : LocalStorage.t) : list HistoryItem.t :=
  match LocalStorage.entry st with
  | Document schema => StorageSchema.items schema
  | _ => []
  end.

Module SaveRequest.
Record t (QRCodeStyling : Type) : Type := mk {
  data : QRData;
  colors : ColorConfig.t;
  qrCode : QRCodeStyling;
  tick : Tick.t
}.
Arguments mk {QRCodeStyling}.
Arguments data {QRCodeStyling}.
Arguments colors {QRCodeStyling}.
Arguments qrCode {QRCodeStyling}.
Arguments tick {QRCodeStyling}.
End SaveRequest.

Section Runs.

Variable stringify : QRData -> string.
Variable schemaBytes : StorageSchema.t -> N.
Variable QRCodeStyling : Type.
Variable generateThumbnail : QRCodeStyling -> Z -> string.

(** The item [saveToHistory] builds for a request. *)
Definition itemOf (r : SaveRequest.t QRCodeStyling) : HistoryItem.t :=
  HistoryItem.mk
    (generateId (Tick.idClock (SaveRequest.tick r)) (Tick.idRandom (SaveRequest.tick r)))
    (Tick.stampClock (SaveRequest.tick r))
    (typeOf (SaveRequest.data r)) (SaveRequest.data r) (SaveRequest.colors r)
    (generateThumbnail (SaveRequest.qrCode r) 100).

Definition save (r : SaveRequest.t QRCodeStyling) (st : LocalStorage.t)
  : option HistoryItem.t * LocalStorage.t :=
  saveToHistory stringify schemaBytes QRCodeStyling generateThumbnail
    (SaveRequest.data r) (SaveRequest.colors r) (SaveRequest.qrCode r)
    (SaveRequest.tick r) st.

(** One call of [saveToHistory] after the other. *)
Definition saveAll (rs : list (SaveRequest.t QRCodeStyling)) (st : LocalStorage.t)
  : LocalStorage.t :=
  fold_left (fun st r => snd (save r st)) rs st.

(** What the dedup check compares. *)
Definition dedupKey (r : SaveRequest.t QRCodeStyling) : string * string :=
  (typeOf (SaveRequest.data r), stringify (SaveRequest.data r)).

(** The schema after the first [k] requests of [rs] when nothing but the
    item cap evicts. *)
Definition expectedAfter (rs : list (SaveRequest.t QRCodeStyling)) (k : nat)
  : StorageSchema.t :=
  StorageSchema.mk STORAGE_VERSION
    (firstn MAX_ITEMS (rev (map itemOf (firstn k rs)))).

End Runs.

(** The euro sign, one UTF-16 code unit and three UTF-8 bytes, and a text
    of [n] euro signs. *)
Definition euro : string :=
  String "226"%char (String "130"%char (String "172"%char "")).

Definition filler (n : N) : string := N.iter n (append euro) "".

(** Every semicolon of [s] is escaped. *)
Definition semicolonsEscaped (s : string) : bool :=
  escapedText (fun c => Ascii.eqb c ";") (fun _ => true) s.

(** The keys [encodeMeCard] emits. *)
Definition meCardKeys : list string := ["N"; "TEL"; "EMAIL"; "URL"; "ADR"; "NOTE"].

(* ================================================================== *)
(** ** Sample inputs *)
(* ================================================================== *)

(** A note typed on two lines, and a record whose values hold each of the
    special characters. *)
Definition multilineNote : MeCardData.t :=
  MeCardData.mk "A" None None None None (Some (String "x" (String LF "y"))).

Definition sampleMeCard : MeCardData.t :=
  MeCardData.mk "Doe, John" (Some "+1;555") (Some "j:d@example.org") None None
    (Some "back\slash").


(** Two contacts without optional fields; the family name of the second
    contains a semicolon. *)
Definition contact (firstName lastName : string) : VCardData.t :=
  VCardData.mk firstName None lastName None None None None None [] []
    None None None None None None [] None None.

Definition plainContact : VCardData.t := contact "John" "Doe".
Definition semicolonContact : VCardData.t := contact "John" "Do;e".

(** The values of the [N:] lines of a vCard. *)
Definition nameValues (vcard : string) : list string :=
  map (fun line => match stripPrefix "N:" line with Some v => v | None => "" end)
    (nameLines vcard).

(** What [escapeVCardValue] makes of one character. *)
Definition escapeVCardChar (c : ascii) : string :=
  if Ascii.eqb c backslash then "\\"
  else if Ascii.eqb c "," then "\,"
  else if Ascii.eqb c ";" then "\;"
  else if Ascii.eqb c LF then "\n"
  else String c "".

(** The item cap, on what the storage holds. *)
Definition bounded (st : LocalStorage.t) : Prop :=
  (length (storedItems st) <= MAX_ITEMS)%nat.

(** Pairwise distinct keys, decided. *)
Fixpoint distinctKeys (keys : list (string * string)) : bool :=
  match keys with
  | [] => true
  | k :: rest =>
      negb (existsb (fun k' => (fst k =? fst k') && (snd k =? snd k')) rest)
      && distinctKeys rest
  end.

(** A store that can be written and holds nothing yet, a renderer whose
    thumbnails fail (the empty text), requests for short URL records, and
    a request for a text record of 1,747,627 euro signs: 5,242,881 bytes
    as the size check counts them, a third of that in UTF-16 code units.
    None of these records holds a number, so the decimal text of numbers
    plays no part in their serialization. *)
Definition zeroText (n : JSNumber) : string := "0".
Definition sampleStringify : QRData -> string := Json.stringify zeroText.
Definition sampleBytes : StorageSchema.t -> N := Json.schemaBytes zeroText.
Definition noThumbnail (qrCode : unit) (size : Z) : string := "".

Definition emptyStorage : LocalStorage.t :=
  LocalStorage.mk true (fun _ => true) NoEntry.

Definition black : ColorConfig.t := ColorConfig.mk "#000000" "#ffffff".

Definition urlRequest (i : nat) : SaveRequest.t unit :=
  SaveRequest.mk
    (URLData ("https://example.org/" ++ decimal (Z.of_nat i)))
    black tt
    (Tick.mk (1700000000000 + Z.of_nat i) "k3j2h1a" (1700000000000 + Z.of_nat i)).

Definition urlRequests (n : nat) : list (SaveRequest.t unit) :=
  map urlRequest (seq 0 n).

Definition hugeRequest : SaveRequest.t unit :=
  SaveRequest.mk (TextData (filler 1747627)) black tt
    (Tick.mk 1700000000999 "z9y8x7w" 1700000000999).

(** The existing items that [mergeItems] appends: an item is kept when
    its id is neither among [seen] nor on an existing item before it. *)
Fixpoint keepFresh (seen : list string) (existing : list HistoryItem.t)
  : list HistoryItem.t :=
  match existing with
  | [] => []
  | e :: rest =>
      if existsb (String.eqb (HistoryItem.id e)) seen then keepFresh seen rest
      else e :: keepFresh (seen ++ [HistoryItem.id e]) rest
  end.

(** The merge in the words of the specification: every imported item,
    then every existing item whose id is not the id of an imported
    item. *)
Definition mergeAsStated (imported existing : list HistoryItem.t)
  : list HistoryItem.t :=
  (imported
   ++ filter
        (fun e => negb (existsb (fun i => HistoryItem.id i =? HistoryItem.id e) imported))
        existing)%list.

(** Newest first. *)
Definition newerOrEqual (a b : HistoryItem.t) : Prop :=
  (HistoryItem.timestamp b <= HistoryItem.timestamp a)%Z.

(** An import text without a version, or whose items are not a list; a
    text that does not parse is malformed too. *)
Definition malformed (json : ImportPayload) : Prop :=
  match json with
  | SyntaxError | ParsedNull => True
  | Parsed version items => version = JUndefined \/ isArray items = false
  end.

(** Two stored items with one id, as an import of a hand-edited backup
    leaves them. *)
Definition twin (timestamp : Z) (text : string) : HistoryItem.t :=
  HistoryItem.mk "1700000000000_k3j2h1a" timestamp "text" (TextData text) black "".

Definition twinStorage : LocalStorage.t :=
  LocalStorage.mk true (fun _ => true)
    (Document (StorageSchema.mk STORAGE_VERSION [twin 2 "second"; twin 1 "first"])).

(* ================================================================== *)
(** ** [src/lib/local-storage.ts], continued *)
(* ================================================================== *)

Definition oldestFirst (a b : HistoryItem.t) : Z :=
  (HistoryItem.timestamp a - HistoryItem.timestamp b)%Z.

(** [localeCompare] is the built-in [String.prototype.localeCompare]. *)
Definition byType (localeCompare : string -> string -> Z) (a b : HistoryItem.t) : Z :=
  localeCompare (HistoryItem.type a) (HistoryItem.type b).

(** The criterion is a string at run time; the [switch] has a default
    branch that returns the copy unsorted. *)
Definition sortHistory (localeCompare : string -> string -> Z) (sortBy : string)
  (st : LocalStorage.t) : list HistoryItem.t :=
  let schema := loadSchema st in
  let items := StorageSchema.items schema in
  if sortBy =? "newest" then jsSort newestFirst items
  else if sortBy =? "oldest" then jsSort oldestFirst items
  else if sortBy =? "type" then jsSort (byType localeCompare) items
  else items.

(** [exportHistoryAsJSON] returns the text [JSON.stringify(schema, null, 2)];
    as with the stored entry, the text stands for the value it parses to:
    an object with the version number and the list of items. *)
Definition exportHistoryAsJSON (st : LocalStorage.t) : ImportPayload :=
  let schema := loadSchema st in
  Parsed (JNumber (inject_Z (StorageSchema.version schema)))
    (JArray (StorageSchema.items schema)).

(* ================================================================== *)
(** ** The forms of [src/components/qr-generator/forms] *)
(* ================================================================== *)

(** Each form hands a record to its [onChange] callback or hands over
    nothing; the functions below return that record.  [trim],
    [canParseURL], [emailRegexTest] are the built-ins of the generator
    section, [parseFloat] is the built-in of that name. *)

(** [s || undefined] *)
Definition orUndefined (s : string) : option string :=
  if truthy s then Some s else None.

(** [isNaN(n)] *)
Definition isNaN (n : JSNumber) : bool :=
  match n with
  | NaN => true
  | Num _ => false
  end.

Module URLForm.
Definition handleUrlChange (trim : string -> string) (canParseURL : string -> bool)
  (value : string) : option QRData :=
  if negb (truthy (trim value)) then None
  else if canParseURL value then Some (URLData value)
  else None.
End URLForm.

Module TextForm.
Definition handleTextChange (trim : string -> string) (value : string)
  : option QRData :=
  if truthy (trim value) then Some (TextData value) else None.
End TextForm.

Module EmailForm.
Definition validateEmail (emailRegexTest : string -> bool) (value : string) : bool :=
  emailRegexTest value.

Definition updateQRData (emailRegexTest : string -> bool)
  (emailVal subjectVal bodyVal : string) : option QRData :=
  if truthy emailVal && validateEmail emailRegexTest emailVal
  then Some (EmailData emailVal (orUndefined subjectVal) (orUndefined bodyVal))
  else None.

(** [subject] and [body] are the current values of the other two
    inputs. *)
Definition handleEmailChange (trim : string -> string)
  (emailRegexTest : string -> bool) (subject body : string) (value : string)
  : option QRData :=
  if negb (truthy (trim value)) then None
  else if negb (validateEmail emailRegexTest value) then None
  else updateQRData emailRegexTest value subject body.

(** The [onChange] of the subject input and of the body input (inline in
    the markup): each calls [updateQRData] with the current value of the
    address input and of the other text. *)
Definition handleSubjectChange (emailRegexTest : string -> bool)
  (email body : string) (value : string) : option QRData :=
  updateQRData emailRegexTest email value body.

Definition handleBodyChange (emailRegexTest : string -> bool)
  (email subject : string) (value : string) : option QRData :=
  updateQRData emailRegexTest email subject value.
End EmailForm.

Module PhoneForm.
Definition handlePhoneChange (trim : string -> string) (value : string)
  : option QRData :=
  if truthy (trim value) then Some (PhoneData value) else None.
End PhoneForm.

Module SMSForm.
Definition updateQRData (trim : string -> string) (phoneVal messageVal : string)
  : option QRData :=
  if truthy (trim phoneVal)
  then Some (SMSData phoneVal (orUndefined messageVal))
  else None.
End SMSForm.

Module LocationForm.
Record Errors : Type := mkErrors { latitude : string; longitude : string }.

(** The errors shown and the record handed over. *)
Definition validateAndUpdate (parseFloat : string -> JSNumber)
  (lat lng addr : string) : Errors * option QRData :=
  if negb (truthy lat) || negb (truthy lng) then (mkErrors "" "", None)
  else
    let latNum := parseFloat lat in
    let lngNum := parseFloat lng in
    let latitudeError :=
      if isNaN latNum then "Invalid latitude"
      else if jsLt latNum (Num (-90)) || jsGt latNum (Num 90)
      then "Latitude must be between -90 and 90"
      else "" in
    let longitudeError :=
      if isNaN lngNum then "Invalid longitude"
      else if jsLt lngNum (Num (-180)) || jsGt lngNum (Num 180)
      then "Longitude must be between -180 and 180"
      else "" in
    let newErrors := mkErrors latitudeError longitudeError in
    if negb (truthy latitudeError) && negb (truthy longitudeError)
    then (newErrors, Some (LocationData latNum lngNum (orUndefined addr)))
    else (newErrors, None).
End LocationForm.

Module MeCardForm.
Definition updateQRData (trim : string -> string)
  (name phone email url address note : string) : option QRData :=
  if negb (truthy (trim name)) then None
  else
    Some (MeCard
            (MeCardData.mk (trim name)
               (orUndefined (trim phone))
               (orUndefined (trim email))
               (orUndefined (trim url))
               (orUndefined (trim address))
               (orUndefined (trim note)))).
End MeCardForm.

Module VCardForm.
(** The state of the form: the text of every input and the three
    lists. *)
Record Fields : Type := mkFields {
  firstName : string;
  middleName : string;
  lastName : string;
  prefix : string;
  suffix : string;
  nickname : string;
  birthday : string;
  phones : list VCardPhone.t;
  emails : list VCardEmail.t;
  addresses : list VCardAddress.t;
  organization : string;
  jobTitle : string;
  department : string;
  role : string;
  workWebsite : string;
  linkedin : string;
  twitter : string;
  facebook : string;
  instagram : string;
  website : string;
  notes : string
}.

(** The form has no input for the photo and the logo. *)
Definition updateQRData (trim : string -> string) (f : Fields) : option QRData :=
  if negb (truthy (trim (firstName f))) || negb (truthy (trim (lastName f)))
  then None
  else
    Some (VCard
            (VCardData.mk
               (trim (firstName f))
               (orUndefined (trim (middleName f)))
               (trim (lastName f))
               (orUndefined (trim (prefix f)))
               (orUndefined (trim (suffix f)))
               (orUndefined (trim (nickname f)))
               (orUndefined (birthday f))
               None
               (filter (fun p => truthy (trim (VCardPhone.number p))) (phones f))
               (filter (fun e => truthy (trim (VCardEmail.address e))) (emails f))
               (orUndefined (trim (organization f)))
               (orUndefined (trim (jobTitle f)))
               (orUndefined (trim (department f)))
               (orUndefined (trim (role f)))
               None
               (orUndefined (trim (workWebsite f)))
               (addresses f)
               (Some (VCardSocialMedia.mk
                        (orUndefined (trim (linkedin f)))
                        (orUndefined (trim (twitter f)))
                        (orUndefined (trim (facebook f)))
                        (orUndefined (trim (instagram f)))
                        (orUndefined (trim (website f)))))
               (orUndefined (trim (notes f))))).
End VCardForm.

(* ================================================================== *)
(** ** [src/components/history/HistoryGallery.tsx] *)
(* ================================================================== *)

Module HistoryGallery.
Section Gallery.

(** Built-ins: the conversion of a number in a template literal,
    [String.prototype.toLowerCase], [includes], [trim] and
    [localeCompare]. *)
Variable numberToString : JSNumber -> string.
Variable toLowerCase : string -> string.
Variable includes : string -> string -> bool.
Variable trim : string -> string.
Variable localeCompare : string -> string -> Z.

Definition getSearchText (item : HistoryItem.t) : string :=
  match HistoryItem.data item with
  | URLData url => url
  | TextData text => text
  | EmailData email subject body =>
      email ++ " " ++ orEmpty subject ++ " " ++ orEmpty body
  | PhoneData phone => phone
  | SMSData phone message => phone ++ " " ++ orEmpty message
  | VCard v =>
      VCardData.firstName v ++ " " ++ VCardData.lastName v ++ " "
      ++ orEmpty (VCardData.organization v) ++ " " ++ orEmpty (VCardData.jobTitle v)
  | MeCard m =>
      MeCardData.name m ++ " " ++ orEmpty (MeCardData.email m) ++ " "
      ++ orEmpty (MeCardData.phone m)
  | LocationData latitude longitude address =>
      numberToString latitude ++ " " ++ numberToString longitude ++ " "
      ++ orEmpty address
  | OtherData _ => ""
  end.

(** [item => getSearchText(item).toLowerCase().includes(query)] with
    [query = searchQuery.toLowerCase()] *)
Definition matchesQuery (searchQuery : string) (item : HistoryItem.t) : bool :=
  includes (toLowerCase (getSearchText item)) (toLowerCase searchQuery).

(** The comparator of the sort applied to a filtered list. *)
Definition manualOrder (sortBy : string) (a b : HistoryItem.t) : Z :=
  if sortBy =? "newest" then (HistoryItem.timestamp b - HistoryItem.timestamp a)%Z
  else if sortBy =? "oldest" then (HistoryItem.timestamp a - HistoryItem.timestamp b)%Z
  else localeCompare (HistoryItem.type a) (HistoryItem.type b).

(** [items] is the list the component loaded earlier; the result is the
    list it shows. *)
Definition applyFiltersAndSort (items : list HistoryItem.t)
  (filterType sortBy searchQuery : string) (st : LocalStorage.t)
  : list HistoryItem.t :=
  let result := items in
  let result :=
    if negb (filterType =? "all") then filterHistoryByType filterType st
    else result in
  let result :=
    if truthy (trim searchQuery) then filter (matchesQuery searchQuery) result
    else result in
  if filterType =? "all" then
    let result := sortHistory localeCompare sortBy st in
    if truthy (trim searchQuery) then filter (matchesQuery searchQuery) result
    else result
  else jsSort (manualOrder sortBy) result.

End Gallery.
End HistoryGallery.

(* ================================================================== *)
(** ** The auto-save of the page component ([src/unnamed/part_000]) *)
(* ================================================================== *)

Module Home.

(** [autoSaveTracker.current]: the id of the last auto-saved item per
    record type. *)
Definition Tracker : Type := string -> option string.

Definition emptyTracker : Tracker := fun _ => None.

(** [tracker[key] = id] *)
Definition setTracked (key id : string) (tracker : Tracker) : Tracker :=
  fun k => if k =? key then Some id else tracker k.

(** [delete tracker[key]] *)
Definition deleteTracked (key : string) (tracker : Tracker) : Tracker :=
  fun k => if k =? key then None else tracker k.

Section AutoSave.

Variable stringify : QRData -> string.
Variable schemaBytes : StorageSchema.t -> N.
Variable QRCodeStyling : Type.
Variable generateThumbnail : QRCodeStyling -> Z -> string.

(** [updateHistoryItem] of [lib/local-storage], which the source tree
    does not hold: its arguments, the clock it may read, and the storage
    before; the item it returns and the storage after. *)
Variable updateHistoryItem :
  string -> QRData -> ColorConfig.t -> QRCodeStyling -> Z -> LocalStorage.t ->
  option HistoryItem.t * LocalStorage.t.

(** The body of the timer: [qrData], [colors] and [qrCode] are the values
    the timer was armed with, the tracker and the storage are read when
    it fires. *)
Definition autoSave (qrData : QRData) (colors : ColorConfig.t)
  (qrCode : QRCodeStyling) (tick : Tick.t) (tracker : Tracker)
  (st : LocalStorage.t) : Tracker * LocalStorage.t :=
  let currentType := typeOf qrData in
  let existingEntryId := tracker currentType in
  if truthyOpt existingEntryId then
    let (updatedItem, st') :=
      updateHistoryItem (orEmpty existingEntryId) qrData colors qrCode
        (Tick.stampClock tick) st in
    (tracker, st')
  else
    let (newItem, st') :=
      saveToHistory stringify schemaBytes QRCodeStyling generateThumbnail
        qrData colors qrCode tick st in
    match newItem with
    | Some item => (setTracked currentType (HistoryItem.id item) tracker, st')
    | None => (tracker, st')
    end.

(** [handleTabChange]: the tracking of the tab that is left is dropped;
    the new tab becomes the active one. *)
Definition handleTabChange (value : string) (activeTab : string)
  (tracker : Tracker) : string * Tracker :=
  let newTab := value in
  let tracker :=
    if truthy activeTab && truthyOpt (tracker activeTab)
    then deleteTracked activeTab tracker
    else tracker in
  (newTab, tracker).

End AutoSave.
End Home.

(* ================================================================== *)
(** ** Further notions the properties are stated with *)
(* ================================================================== *)

(** The reading of an escaped vCard value: a backslash and [n] stand for a
    line feed, a backslash and any other character for that character. *)
Fixpoint unescapeVCardValue (s : string) : string :=
  match s with
  | EmptyString => EmptyString
  | String c rest =>
      if Ascii.eqb c backslash then
        match rest with
        | String d rest' =>
            String (if Ascii.eqb d "n" then LF else d) (unescapeVCardValue rest')
        | EmptyString => EmptyString
        end
      else String c (unescapeVCardValue rest)
  end.

(** The characters [escapeVCardValue] never leaves bare, and the
    characters it puts after a backslash. *)
Definition isVCardRaw (c : ascii) : bool :=
  Ascii.eqb c "," || Ascii.eqb c ";" || Ascii.eqb c LF.

Definition isVCardEscape (d : ascii) : bool :=
  Ascii.eqb d backslash || Ascii.eqb d "," || Ascii.eqb d ";" || Ascii.eqb d "n".

(** [c] occurs in [s]. *)
Fixpoint contains (c : ascii) (s : string) : bool :=
  match s with
  | EmptyString => false
  | String a rest => Ascii.eqb a c || contains c rest
  end.

(** A MeCard record as the form builds it: an optional field is absent
    rather than empty. *)
Definition normalized (data : MeCardData.t) : Prop :=
  MeCardData.phone data <> Some ""
  /\ MeCardData.email data <> Some ""
  /\ MeCardData.url data <> Some ""
  /\ MeCardData.address data <> Some ""
  /\ MeCardData.note data <> Some "".

(** The value a list of emitted fields holds for a key. *)
Fixpoint fieldOf (key : string) (fields : list (string * string)) : option string :=
  match fields with
  | [] => None
  | (k, v) :: rest => if k =? key then Some v else fieldOf key rest
  end.

(** A coordinate that the range checks let pass: NaN, or a number within
    the bound on both sides. *)
Definition withinRange (bound : Q) (n : JSNumber) : Prop :=
  match n with
  | NaN => True
  | Num q => (- bound <= q)%Q /\ (q <= bound)%Q
  end.

(** Oldest first. *)
Definition olderOrEqual (a b : HistoryItem.t) : Prop :=
  (HistoryItem.timestamp a <= HistoryItem.timestamp b)%Z.

(** Every stored item carries the type of its record. *)
Definition typed (items : list HistoryItem.t) : Prop :=
  Forall (fun item => HistoryItem.type item = typeOf (HistoryItem.data item)) items.

(** The identity stands in for [trim] on texts without surrounding white
    space. *)
Definition noTrim (s : string) : string := s.

(** A renderer that records what it is constructed with, a logo
    processor that always fails, and a record with a logo. *)
Definition recordOptions (options : QRGenerationOptions.t) (image : option string)
  : QRGenerationOptions.t * option string :=
  (options, image).

Definition failingLogoProcessor (image : string) (strokeWidth : JSNumber)
  (strokeColor : string) : Outcome string :=
  Thrown (Error "canvas").

Definition sampleLogo : LogoConfig.t :=
  LogoConfig.mk "data:image/png;base64,AAAA" (Num 2) "#ffffff".

(** A reading of [parseFloat] on the two texts the samples use. *)
Definition sampleParseFloat (s : string) : JSNumber :=
  if s =? "48.2" then Num (482 # 10)
  else if s =? "16.4" then Num (164 # 10)
  else NaN.

(** A form state with a name and one phone row left empty. *)
Definition sampleFields : VCardForm.Fields :=
  VCardForm.mkFields "John" "" "Doe" "" "" "" "" [VCardPhone.mk "mobile" ""] [] []
    "" "" "" "" "" "" "" "" "" "" "".

(** Readings of the string built-ins on the texts the samples use: no
    letter to fold, and a query that every text includes. *)
Definition sameCase (s : string) : string := s.
Definition includesAny (text query : string) : bool := true.
Definition sameOrder (a b : string) : Z := 0%Z.

Definition sampleTick : Tick.t := Tick.mk 1700000000000 "k3j2h1a" 1700000000000.
Definition laterTick : Tick.t := Tick.mk 1700000005000 "q1w2e3r" 1700000005000.

(** A store that holds one entry written under schema version 0. *)
Definition staleStorage : LocalStorage.t :=
  LocalStorage.mk true (fun _ => true)
    (Document (StorageSchema.mk 0 [twin 2 "second"; twin 1 "first"])).

(** A storage that cannot be written. *)
Definition noStorage : LocalStorage.t :=
  LocalStorage.mk false (fun _ => false) NoEntry.

(** A store with two items of distinct ids, newest first. *)
Definition pairStorage : LocalStorage.t :=
  LocalStorage.mk true (fun _ => true)
    (Document
       (StorageSchema.mk STORAGE_VERSION
          [ HistoryItem.mk "1700000000002_bbbbbbb" 1700000000002 "url"
              (URLData "https://example.org/b") black "";
            HistoryItem.mk "1700000000001_aaaaaaa" 1700000000001 "text"
              (TextData "a") black "" ])).

(** [v] with the empty text taken for an absent value, and a record with
    every empty optional field dropped. *)
Definition dropEmpty (v : option string) : option string :=
  if truthyOpt v then v else None.

Definition dropEmptyFields (data : MeCardData.t) : MeCardData.t :=
  MeCardData.mk (MeCardData.name data)
    (dropEmpty (MeCardData.phone data))
    (dropEmpty (MeCardData.email data))
    (dropEmpty (MeCardData.url data))
    (dropEmpty (MeCardData.address data))
    (dropEmpty (MeCardData.note data)).

(** The optional single-valued properties of a contact, and those among
    them that [encodeVCard] writes without escaping. *)
Definition optionalValues (data : VCardData.t) : list (option string) :=
  ([ VCardData.nickname data; VCardData.birthday data; VCardData.photo data;
     VCardData.organization data; VCardData.jobTitle data;
     VCardData.department data; VCardData.role data; VCardData.logo data;
     VCardData.workWebsite data; VCardData.notes data ]
   ++ match VCardData.socialMedia data with
      | Some sm =>
          [ VCardSocialMedia.linkedin sm; VCardSocialMedia.twitter sm;
            VCardSocialMedia.facebook sm; VCardSocialMedia.instagram sm;
            VCardSocialMedia.website sm ]
      | None => []
      end)%list.

Definition verbatimValues (data : VCardData.t) : list string :=
  [ orEmpty (VCardData.birthday data); orEmpty (VCardData.photo data);
    orEmpty (VCardData.logo data) ].

(** The text every payload of a record's type begins with. *)
Definition schemeOf (data : QRData) : string :=
  match data with
  | URLData _ | TextData _ | OtherData _ => ""
  | EmailData _ _ _ => "mailto:"
  | PhoneData _ => "tel:"
  | SMSData _ _ => "sms:"
  | LocationData _ _ _ => "geo:"
  | VCard _ => "BEGIN:VCARD" ++ CRLF ++ "VERSION:3.0" ++ CRLF ++ "FN:"
  | MeCard _ => "MECARD:"
  end.

(** A contact with two phone rows and a note. *)
Definition busyContact : VCardData.t :=
  VCardData.mk "John" None "Doe" None None None None None
    [VCardPhone.mk "mobile" "+1 555"; VCardPhone.mk "work" "+1 556"] []
    None None None None None None [] None (Some (String "a" (String LF "b"))).

(** A reading of [trim] on texts whose only white space is the space
    character: the spaces at both ends are dropped. *)
Fixpoint dropLeading (s : string) : string :=
  match s with
  | String c rest => if Ascii.eqb c " " then dropLeading rest else s
  | EmptyString => EmptyString
  end.

Fixpoint dropTrailing (s : string) : string :=
  match s with
  | EmptyString => EmptyString
  | String c rest =>
      match dropTrailing rest with
      | EmptyString => if Ascii.eqb c " " then EmptyString else String c EmptyString
      | kept => String c kept
      end
  end.

Definition trimSpaces (s : string) : string := dropTrailing (dropLeading s).

(* ================================================================== *)
(** ** [importHistoryFromJSON] on the values [JSON.parse] yields *)
(* ================================================================== *)

(** [importHistoryFromJSON] checks the shape of the parsed document only
    (a truthy [version], an array [items]); the elements of the array are
    merged, sorted and written without a look at what they are.  The
    definitions above read an import text through the [StorageSchema]
    type; this module follows the function, and the two helpers it calls,
    on every value [JSON.parse] can yield, with the property reads,
    comparisons and conversions the language performs on them. *)

Module Untyped.

(** A parsed JSON text.  A number literal is read as the double nearest
    to it; a literal beyond the range of a double, which is read as an
    infinity and written back as [null], is left out. *)
#[local] Unset Elimination Schemes.

Inductive Json : Type :=
| VNull
| VBool (b : bool)
| VNumber (q : Q)
| VString (s : string)
| VArray (elements : list Json)
| VObject (members : list (string * Json)).

#[local] Set Elimination Schemes.

(** The result of an arithmetic conversion or operation. *)
Inductive Number : Type :=
| NotANumber
| Finite (q : Q)
| PlusInfinity
| MinusInfinity.

(** The member of a parsed object under a key: [JSON.parse] keeps the
    value of the last member with that key. *)
Fixpoint member (key : string) (members : list (string * Json)) : option Json :=
  match members with
  | [] => None
  | (k, v) :: rest =>
      match member key rest with
      | Some later => Some later
      | None => if k =? key then Some v else None
      end
  end.

(** [v.key] for the keys the store reads ([version], [items], [id],
    [timestamp]), none of which a prototype defines: a TypeError on
    [null], [undefined] (here [None]) on another primitive, on an array
    and on an object without the member. *)
Definition get (key : string) (v : Json) : Outcome (option Json) :=
  match v with
  | VNull => Thrown (Error "TypeError")
  | VObject members => Returned (member key members)
  | _ => Returned None
  end.

(** [!!v] *)
Definition truthyValue (v : option Json) : bool :=
  match v with
  | None | Some VNull => false
  | Some (VBool b) => b
  | Some (VNumber q) => negb (Qeq_bool q 0)
  | Some (VString s) => truthy s
  | Some (VArray _) | Some (VObject _) => true
  end.

(** [Array.isArray(v)] *)
Definition isArray (v : option Json) : bool :=
  match v with
  | Some (VArray _) => true
  | _ => false
  end.

(** [a === b] for two values read from different items: primitives are
    compared by value, and two arrays or objects are never the same
    object. *)
Definition strictEquals (a b : option Json) : bool :=
  match a, b with
  | None, None => true
  | Some VNull, Some VNull => true
  | Some (VBool x), Some (VBool y) => Bool.eqb x y
  | Some (VNumber x), Some (VNumber y) => Qeq_bool x y
  | Some (VString x), Some (VString y) => x =? y
  | _, _ => false
  end.

(** [x - y] on numbers; the sign of a difference of two doubles is the
    sign of the exact difference. *)
Definition minus (x y : Number) : Number :=
  match x, y with
  | Finite p, Finite q => Finite (p - q)
  | PlusInfinity, Finite _ | PlusInfinity, MinusInfinity => PlusInfinity
  | MinusInfinity, Finite _ | MinusInfinity, PlusInfinity => MinusInfinity
  | Finite _, PlusInfinity => MinusInfinity
  | Finite _, MinusInfinity => PlusInfinity
  | _, _ => NotANumber
  end.

(** What [Array.prototype.sort] makes of the value its comparator
    returns: NaN counts as zero, otherwise the sign decides. *)
Definition sign (n : Number) : Z :=
  match n with
  | NotANumber => 0
  | Finite q => Z.sgn (Qnum q)
  | PlusInfinity => 1
  | MinusInfinity => -1
  end.

(** The comparator is a consistent comparator for the items, in the
    sense of the language specification: equal to itself on every item,
    antisymmetric, and transitive. *)
Definition consistent {A : Type} (order : A -> A -> Z) (items : list A) : Prop :=
  (forall a, In a items -> order a a = 0%Z)
  /\ (forall a b, In a items -> In b items -> Z.sgn (order b a) = (- Z.sgn (order a b))%Z)
  /\ (forall a b c, In a items -> In b items -> In c items ->
        (order a b <= 0)%Z -> (order b c <= 0)%Z -> (order a c <= 0)%Z).

(** What [localStorage] holds under [STORAGE_KEY]: nothing (or the empty
    text), a text that [JSON.parse] rejects, or a text that parses. *)
Inductive Entry : Type :=
| Nothing
| Invalid
| Parses (value : Json).

Module Storage.
Record t : Type := mk {
  available : bool;
  accepts : Json -> bool;
  entry : Entry
}.
End Storage.

Definition setEntry (st : Storage.t) (e : Entry) : Storage.t :=
  Storage.mk (Storage.available st) (Storage.accepts st) e.

Definition createEmptySchema : Json :=
  VObject [("version", VNumber (inject_Z STORAGE_VERSION)); ("items", VArray [])].

Definition migrateSchema (oldSchema : Json) : Json := createEmptySchema.

Definition isStorageAvailable (st : Storage.t) : bool := Storage.available st.

(** [schema.version !== STORAGE_VERSION] throws on [null] and holds of
    every value but the number 1. *)
Definition loadSchema (st : Storage.t) : Json :=
  tryCatch
    (if negb (isStorageAvailable st) then Returned createEmptySchema
     else
       match Storage.entry st with
       | Nothing => Returned createEmptySchema
       | Invalid => Thrown (Error "SyntaxError")
       | Parses schema =>
           version <- get "version" schema ;;
           if negb (strictEquals version (Some (VNumber (inject_Z STORAGE_VERSION))))
           then Returned (migrateSchema schema)
           else Returned schema
       end)
    (fun _ => createEmptySchema).

Definition saveSchema (schema : Json) (st : Storage.t) : Outcome Storage.t :=
  if negb (isStorageAvailable st)
  then Thrown (Error "Local storage is not available")
  else if Storage.accepts st schema
  then Returned (setEntry st (Parses schema))
  else Thrown (Error "QuotaExceededError").

(** [mergedItems.some(item => item.id === existingItem.id)]: the callback
    reads [item.id] and then [existingItem.id], item by item, and stops
    at the first match. *)
Fixpoint someSameId (existingItem : Json) (mergedItems : list Json) : Outcome bool :=
  match mergedItems with
  | [] => Returned false
  | item :: rest =>
      itemId <- get "id" item ;;
      existingId <- get "id" existingItem ;;
      if strictEquals itemId existingId then Returned true
      else someSameId existingItem rest
  end.

(** [existingItems.forEach(...)] on the copy of the imported items. *)
Definition mergeItems (imported existing : list Json) : Outcome (list Json) :=
  fold_left
    (fun merged existingItem =>
       mergedItems <- merged ;;
       isDuplicate <- someSameId existingItem mergedItems ;;
       Returned (if negb isDuplicate then push mergedItems existingItem
                 else mergedItems))
    existing (Returned imported).

Section ImportHistory.

(** Built-ins: the conversion of a text to a number, the conversion of
    an array or object to a number (through its primitive value; it may
    throw), and [Array.prototype.sort], given what the sort makes of the
    comparator's values. *)
Variable stringToNumber : string -> Number.
Variable objectToNumber : Json -> Outcome Number.
Variable arraySort : (Json -> Json -> Z) -> list Json -> list Json.

(** [ToNumber(v)] *)
Definition toNumber (v : option Json) : Outcome Number :=
  match v with
  | None => Returned NotANumber
  | Some VNull => Returned (Finite 0)
  | Some (VBool b) => Returned (Finite (if b then 1 else 0))
  | Some (VNumber q) => Returned (Finite q)
  | Some (VString s) => Returned (stringToNumber s)
  | Some object => objectToNumber object
  end.

(** [(a, b) => b.timestamp - a.timestamp]: both properties are read,
    then both are converted. *)
Definition newestFirst (a b : Json) : Outcome Number :=
  right <- get "timestamp" b ;;
  left <- get "timestamp" a ;;
  x <- toNumber right ;;
  y <- toNumber left ;;
  Returned (minus x y).

(** The comparator as the sort reads it, on items it can read. *)
Definition order (a b : Json) : Z :=
  match newestFirst a b with
  | Returned n => sign n
  | Thrown _ => 0
  end.

(** What the comparator reads of one item. *)
Definition timestampOf (item : Json) : Outcome Number :=
  timestamp <- get "timestamp" item ;;
  toNumber timestamp.

Fixpoint readAll (items : list Json) : Outcome unit :=
  match items with
  | [] => Returned tt
  | item :: rest => _ <- timestampOf item ;; readAll rest
  end.

(** [mergedItems.sort(...)]: an array of fewer than two items is left
    alone without a call of the comparator; in a longer one every item
    takes part in a call, so the sort throws as soon as the comparator
    cannot read one of the items. *)
Definition sortItems (mergedItems : list Json) : Outcome (list Json) :=
  match mergedItems with
  | [] | [_] => Returned mergedItems
  | _ =>
      _ <- readAll mergedItems ;;
      Returned (arraySort order mergedItems)
  end.

(** The argument is the import text as [JSON.parse] reads it, [None]
    for a text it rejects.  [!schema.version || !Array.isArray(schema.items)]
    reads [schema.items] only when the version is truthy; the spread
    [[...schema.items]] reads it again. *)
Definition importHistoryFromJSON (jsonString : option Json) (st : Storage.t)
  : bool * Storage.t :=
  tryCatch
    (match jsonString with
     | None => Thrown (Error "SyntaxError")
     | Some schema =>
         version <- get "version" schema ;;
         invalid <-
           (if negb (truthyValue version) then Returned true
            else items <- get "items" schema ;; Returned (negb (isArray items))) ;;
         if invalid
         then Thrown (Error "Invalid history data format")
         else
           let existingSchema := loadSchema st in
           items <- get "items" schema ;;
           let mergedItems :=
             match items with Some (VArray elements) => elements | _ => [] end in
           existingItems <- get "items" existingSchema ;;
           match existingItems with
           | Some (VArray existing) =>
               mergedItems <- mergeItems mergedItems existing ;;
               mergedItems <- sortItems mergedItems ;;
               let limitedItems := firstn MAX_ITEMS mergedItems in
               let newSchema :=
                 VObject [("version", VNumber (inject_Z STORAGE_VERSION));
                          ("items", VArray limitedItems)] in
               st' <- saveSchema newSchema st ;;
               Returned (true, st')
           | _ => Thrown (Error "TypeError")
           end
     end)
    (fun _ => (false, st)).

End ImportHistory.

End Untyped.

(* ================================================================== *)
(** ** Notions for the merge on parsed values *)
(* ================================================================== *)

(** The items a storage holds, as the import reads them. *)
Definition existingItems (st : Untyped.Storage.t) : list Untyped.Json :=
  match Untyped.get "items" (Untyped.loadSchema st) with
  | Returned (Some (Untyped.VArray items)) => items
  | _ => []
  end.

(** Two items have one id, as [===] sees it. *)
Definition sameId (a b : Untyped.Json) : bool :=
  match Untyped.get "id" a, Untyped.get "id" b with
  | Returned x, Returned y => Untyped.strictEquals x y
  | _, _ => false
  end.

(** The existing items the merge appends to the items merged so far: an
    item is kept when no item before it in the merged list has its
    id. *)
Fixpoint fresh (merged existing : list Untyped.Json) : list Untyped.Json :=
  match existing with
  | [] => []
  | e :: rest =>
      if existsb (fun item => sameId item e) merged then fresh merged rest
      else e :: fresh (merged ++ [e]) rest
  end.

(** The merge in the words of the specification. *)
Definition mergeAsSpecified (imported existing : list Untyped.Json)
  : list Untyped.Json :=
  (imported
   ++ filter (fun e => negb (existsb (fun item => sameId item e) imported)) existing)%list.

(** The time stamp of an item is a number. *)
Definition numericTimestamp (item : Untyped.Json) : Prop :=
  exists q, Untyped.get "timestamp" item = Returned (Some (Untyped.VNumber q)).

(** [a] is not older than [b]: both time stamps are numbers, and that of
    [b] is not the greater one. *)
Definition notOlder (a b : Untyped.Json) : Prop :=
  exists x y,
    Untyped.get "timestamp" a = Returned (Some (Untyped.VNumber x))
    /\ Untyped.get "timestamp" b = Returned (Some (Untyped.VNumber y))
    /\ (y <= x)%Q.

(** No two items of the list have one id. *)
Fixpoint distinctIds (items : list Untyped.Json) : Prop :=
  match items with
  | [] => True
  | e :: rest => (forall e', In e' rest -> sameId e e' = false) /\ distinctIds rest
  end.

(* ================================================================== *)
(** ** Typed texts among the parsed ones *)
(* ================================================================== *)

Section Typed.

(** What [JSON.parse] makes of the text of a record and of a colour
    configuration. *)
Variable dataJson : QRData -> Untyped.Json.
Variable colorsJson : ColorConfig.t -> Untyped.Json.

(** The parsed value of an item, of a schema, of a storage entry and of
    an import text that follow the types. *)
Definition itemJson (item : HistoryItem.t) : Untyped.Json :=
  Untyped.VObject
    [ ("id", Untyped.VString (HistoryItem.id item));
      ("timestamp", Untyped.VNumber (inject_Z (HistoryItem.timestamp item)));
      ("type", Untyped.VString (HistoryItem.type item));
      ("data", dataJson (HistoryItem.data item));
      ("colors", colorsJson (HistoryItem.colors item));
      ("thumbnail", Untyped.VString (HistoryItem.thumbnail item)) ].

Definition schemaJson (schema : StorageSchema.t) : Untyped.Json :=
  Untyped.VObject
    [ ("version", Untyped.VNumber (inject_Z (StorageSchema.version schema)));
      ("items", Untyped.VArray (map itemJson (StorageSchema.items schema))) ].

Definition entryJson (e : Entry) : Untyped.Entry :=
  match e with
  | NoEntry => Untyped.Nothing
  | Unparseable => Untyped.Invalid
  | Document schema => Untyped.Parses (schemaJson schema)
  end.

Definition valueJson (v : JsonValue) : option Untyped.Json :=
  match v with
  | JUndefined => None
  | JNull => Some Untyped.VNull
  | JBool b => Some (Untyped.VBool b)
  | JNumber q => Some (Untyped.VNumber q)
  | JString s => Some (Untyped.VString s)
  | JObject => Some (Untyped.VObject [])
  | JArray elements => Some (Untyped.VArray (map itemJson elements))
  end.

Definition memberJson (key : string) (v : JsonValue) : list (string * Untyped.Json) :=
  match valueJson v with
  | Some value => [(key, value)]
  | None => []
  end.

Definition payloadJson (json : ImportPayload) : option Untyped.Json :=
  match json with
  | SyntaxError => None
  | ParsedNull => Some Untyped.VNull
  | Parsed version items =>
      Some (Untyped.VObject (memberJson "version" version ++ memberJson "items" items))
  end.

(** The storage [u] holds what the typed storage [st] stands for. *)
Definition reads (u : Untyped.Storage.t) (st : LocalStorage.t) : Prop :=
  Untyped.Storage.available u = LocalStorage.available st
  /\ Untyped.Storage.entry u = entryJson (LocalStorage.entry st)
  /\ forall schema,
       Untyped.Storage.accepts u (schemaJson schema) = LocalStorage.accepts st schema.

End Typed.

(* ================================================================== *)
(** ** Sample documents *)
(* ================================================================== *)

(** A stored text item with a numeric time stamp, the same with a date
    text for a time stamp (as a hand-edited backup may hold), a backup
    text at version 1, and storages that take every write. *)
Definition textItem (timestamp : Untyped.Json) (id text : string) : Untyped.Json :=
  Untyped.VObject
    [ ("id", Untyped.VString id);
      ("timestamp", timestamp);
      ("type", Untyped.VString "text");
      ("data", Untyped.VObject [("type", Untyped.VString "text");
                                ("text", Untyped.VString text)]);
      ("colors", Untyped.VObject [("foreground", Untyped.VString "#000000");
                                  ("background", Untyped.VString "#ffffff")]);
      ("thumbnail", Untyped.VString "") ].

Definition stampedItem (timestamp : Z) (id text : string) : Untyped.Json :=
  textItem (Untyped.VNumber (inject_Z timestamp)) id text.

Definition datedItem (date id text : string) : Untyped.Json :=
  textItem (Untyped.VString date) id text.

Definition schemaOf (items : list Untyped.Json) : Untyped.Json :=
  Untyped.VObject [("version", Untyped.VNumber (inject_Z STORAGE_VERSION));
                   ("items", Untyped.VArray items)].

Definition backup (items : list Untyped.Json) : option Untyped.Json :=
  Some (schemaOf items).

Definition storageHolding (items : list Untyped.Json) : Untyped.Storage.t :=
  Untyped.Storage.mk true (fun _ => true) (Untyped.Parses (schemaOf items)).

Definition freshStorage : Untyped.Storage.t :=
  Untyped.Storage.mk true (fun _ => true) Untyped.Nothing.

(** Readings of the conversions on the sample texts, none of which is a
    numeric literal, and the stable sort for [Array.prototype.sort]. *)
Definition notNumeric (s : string) : Untyped.Number := Untyped.NotANumber.
Definition objectNotNumeric (v : Untyped.Json) : Outcome Untyped.Number :=
  Returned Untyped.NotANumber.
Definition stableSort (order : Untyped.Json -> Untyped.Json -> Z)
  (items : list Untyped.Json) : list Untyped.Json :=
  jsSort order items.

(** Two stored items with one id (as an import leaves them), two items
    of a backup whose time stamps were edited into date texts, and the
    items of a backup and of a store that overlap in one id. *)
Definition twins : list Untyped.Json :=
  [ stampedItem 2 "1700000000000_k3j2h1a" "second";
    stampedItem 1 "1700000000000_k3j2h1a" "first" ].

Definition datedItems : list Untyped.Json :=
  [ datedItem "2023-01-01" "1700000000001_aaaaaaa" "older";
    datedItem "2024-01-01" "1700000000002_bbbbbbb" "newer" ].

Definition backupItems : list Untyped.Json :=
  [ stampedItem 3 "1700000000003_aaaaaaa" "imported";
    stampedItem 9 "1700000000002_bbbbbbb" "imported, newer" ].

Definition storeItems : list Untyped.Json :=
  [ stampedItem 5 "1700000000005_ccccccc" "existing";
    stampedItem 2 "1700000000002_bbbbbbb" "existing, older" ].

(* ================================================================== *)
(** ** Texts *)
(* ================================================================== *)

Lemma append_nil_r (s : string) : s ++ "" = s.
Proof. induction s as [|a s IH]; simpl; [reflexivity | now rewrite IH]. Qed.

Lemma append_assoc (a b c : string) : (a ++ b) ++ c = a ++ (b ++ c).
Proof. induction a as [|x a IH]; simpl; [reflexivity | now rewrite IH]. Qed.

Lemma byteLength_app (a b : string) :
  byteLength (a ++ b) = (byteLength a + byteLength b)%N.
Proof.
  induction a as [|x a IH]; simpl; [reflexivity | rewrite IH; lia].
Qed.

Lemma byteLength_length (s : string) : byteLength s = N.of_nat (String.length s).
Proof. induction s as [|a s IH]; simpl; [reflexivity | rewrite IH; lia]. Qed.

Lemma stripPrefix_app (p s : string) : stripPrefix p (p ++ s) = Some s.
Proof.
  induction p as [|a p IH]; simpl; [reflexivity |].
  now rewrite Ascii.eqb_refl.
Qed.

Lemma stripSuffix_unfold (q s : string) :
  stripSuffix q s =
  if String.eqb s q then Some ""
  else match s with
       | EmptyString => None
       | String a rest =>
           match stripSuffix q rest with
           | Some t => Some (String a t)
           | None => None
           end
       end.
Proof. destruct s; reflexivity. Qed.

Lemma stripSuffix_app (q body : string) : stripSuffix q (body ++ q) = Some body.
Proof.
  induction body as [|a body IH].
  - simpl. rewrite stripSuffix_unfold, String.eqb_refl. reflexivity.
  - rewrite stripSuffix_unfold.
    destruct (String.eqb (String a body ++ q) q) eqn:E.
    + apply String.eqb_eq in E.
      apply (f_equal byteLength) in E.
      rewrite byteLength_app in E. simpl in E. lia.
    + simpl. rewrite IH. reflexivity.
Qed.

(* ================================================================== *)
(** ** MeCard escaping *)
(* ================================================================== *)

Lemma escapeMeCardValue_cons (a : ascii) (v : string) :
  escapeMeCardValue (String a v) = escapeMeCardChar a ++ escapeMeCardValue v.
Proof.
  destruct a as [[] [] [] [] [] [] [] []]; reflexivity.
Qed.

Lemma special_cases (c : ascii) :
  isMeCardSpecial c = true ->
  c = backslash \/ c = ";"%char \/ c = ":"%char \/ c = ","%char \/ c = dquote.
Proof.
  unfold isMeCardSpecial, isSeparator.
  rewrite !orb_true_iff, !Ascii.eqb_eq. tauto.
Qed.

Lemma plain_not_backslash (c : ascii) :
  isMeCardSpecial c = false ->
  Ascii.eqb c backslash = false /\ isSeparator c = false.
Proof.
  unfold isMeCardSpecial. rewrite !orb_false_iff. tauto.
Qed.

Ltac special c H :=
  destruct (special_cases c H) as [-> | [-> | [-> | [-> | ->]]]].

Lemma escapeMeCardValue_noRawSpecial (v : string) :
  noRawSpecial (escapeMeCardValue v) = true.
Proof.
  unfold noRawSpecial.
  induction v as [|a v IH]; [reflexivity |].
  rewrite escapeMeCardValue_cons. unfold escapeMeCardChar.
  destruct (isMeCardSpecial a) eqn:E.
  - cbn [append escapedText]. rewrite Ascii.eqb_refl, E, IH. reflexivity.
  - destruct (plain_not_backslash a E) as [Hb Hs].
    cbn [append escapedText]. rewrite Hb, Hs, IH. reflexivity.
Qed.

Lemma unescape_escape (v : string) :
  unescapeMeCardValue (escapeMeCardValue v) = v.
Proof.
  induction v as [|a v IH]; [reflexivity |].
  rewrite escapeMeCardValue_cons. unfold escapeMeCardChar.
  destruct (isMeCardSpecial a) eqn:E.
  - cbn [append unescapeMeCardValue]. rewrite Ascii.eqb_refl, IH. reflexivity.
  - destruct (plain_not_backslash a E) as [Hb _].
    cbn [append unescapeMeCardValue]. rewrite Hb, IH. reflexivity.
Qed.

(** Induction that follows a reading with escapes: the step for
    [String c s] may use the property of [s] and of what follows the
    first character of [s]. *)
Lemma escape_reading_ind (P : string -> Prop) :
  P "" ->
  (forall c s, P s -> (forall d s', s = String d s' -> P s') -> P (String c s)) ->
  forall s, P s.
Proof.
  intros H0 Hstep s.
  assert (H : P s /\ (forall d s', s = String d s' -> P s')).
  { induction s as [|c s [IH1 IH2]].
    - split; [exact H0 | discriminate].
    - split.
      + apply Hstep; assumption.
      + intros d s' E. injection E as _ <-. exact IH1. }
  exact (proj1 H).
Qed.

Lemma escapedText_weaken (raw raw' esc esc' : ascii -> bool) :
  (forall c, raw' c = true -> raw c = true) ->
  (forall c, esc c = true -> esc' c = true) ->
  forall s, escapedText raw esc s = true -> escapedText raw' esc' s = true.
Proof.
  intros Hraw Hesc s. induction s as [|c s IH IH'] using escape_reading_ind;
    [reflexivity |].
  cbn [escapedText]. destruct (Ascii.eqb c backslash).
  - destruct s as [|d s']; [discriminate |].
    rewrite !andb_true_iff. intros [Hd Hs]. split.
    + now apply Hesc.
    + now apply (IH' d s' eq_refl).
  - rewrite !andb_true_iff, !negb_true_iff. intros [Hc Hs]. split.
    + destruct (raw' c) eqn:E; [| reflexivity].
      apply Hraw in E. congruence.
    + now apply IH.
Qed.

Lemma splitUnescaped_token (t : string) :
  semicolonsEscaped t = true ->
  splitUnescaped ";" t = [t]
  /\ forall rest,
       splitUnescaped ";" (t ++ String ";" rest) = t :: splitUnescaped ";" rest.
Proof.
  unfold semicolonsEscaped.
  induction t as [|c t IH IH'] using escape_reading_ind; intros H.
  - split; reflexivity.
  - cbn [escapedText] in H. destruct (Ascii.eqb c backslash) eqn:Ec.
    + destruct t as [|d t']; [discriminate |].
      cbn [andb] in H. destruct (IH' d t' eq_refl H) as [E1 E2].
      split; [| intros rest];
        cbn [append splitUnescaped]; rewrite Ec, ?E1, ?E2; reflexivity.
    + apply andb_true_iff in H as [Hc H]. apply negb_true_iff in Hc.
      destruct (IH H) as [E1 E2].
      split; [| intros rest].
      * destruct t as [|d t'].
        -- cbn [splitUnescaped]. rewrite Ec, Hc. reflexivity.
        -- change (splitUnescaped ";" (String c (String d t')))
             with (if Ascii.eqb c backslash
                   then match splitUnescaped ";" t' with
                        | [] => [String c (String d "")]
                        | p :: ps => String c (String d p) :: ps
                        end
                   else if Ascii.eqb c ";" then "" :: splitUnescaped ";" (String d t')
                   else match splitUnescaped ";" (String d t') with
                        | [] => [String c ""]
                        | p :: ps => String c p :: ps
                        end).
           rewrite Ec, Hc, E1. reflexivity.
      * specialize (E2 rest).
        destruct t as [|d t'].
        -- cbn [append] in *. cbn [splitUnescaped]. rewrite Ec, Hc.
           cbn [splitUnescaped] in E2. rewrite E2. reflexivity.
        -- cbn [append] in *.
           change (splitUnescaped ";" (String c (String d (t' ++ String ";" rest))))
             with (if Ascii.eqb c backslash
                   then match splitUnescaped ";" (t' ++ String ";" rest) with
                        | [] => [String c (String d "")]
                        | p :: ps => String c (String d p) :: ps
                        end
                   else if Ascii.eqb c ";"
                   then "" :: splitUnescaped ";" (String d (t' ++ String ";" rest))
                   else match splitUnescaped ";" (String d (t' ++ String ";" rest)) with
                        | [] => [String c ""]
                        | p :: ps => String c p :: ps
                        end).
           rewrite Ec, Hc, E2. reflexivity.
Qed.

Lemma splitUnescaped_join (tokens : list string) :
  Forall (fun t => semicolonsEscaped t = true) tokens ->
  splitUnescaped ";" (join ";" tokens)
  = match tokens with [] => [""] | _ => tokens end.
Proof.
  induction 1 as [|t ts Ht Hts IH]; [reflexivity |].
  destruct ts as [|t2 ts].
  - apply (splitUnescaped_token t Ht).
  - change (join ";" (t :: t2 :: ts)) with (t ++ String ";" (join ";" (t2 :: ts))).
    rewrite (proj2 (splitUnescaped_token t Ht)), IH. reflexivity.
Qed.

Lemma pushField_tokens (key : string) (v : option string) (fields : list string) :
  pushField key v fields
  = (fields ++ map token (if truthyOpt v then [(key, orEmpty v)] else []))%list.
Proof.
  unfold pushField, push, token.
  destruct (truthyOpt v); simpl; [reflexivity | now rewrite app_nil_r].
Qed.

Lemma encodeMeCard_tokens (data : MeCardData.t) :
  encodeMeCard data
  = "MECARD:" ++ join ";" (map token (presentFields data)) ++ ";;".
Proof.
  unfold encodeMeCard, presentFields.
  rewrite !pushField_tokens, !map_app, <- !app_assoc. reflexivity.
Qed.

Lemma presentFields_keys (data : MeCardData.t) (f : string * string) :
  In f (presentFields data) ->
  In (fst f) meCardKeys /\ In (snd f) (fieldValues data).
Proof.
  destruct data as [name phone email url address note].
  unfold presentFields, fieldValues, meCardKeys. cbn [MeCardData.name
    MeCardData.phone MeCardData.email MeCardData.url MeCardData.address
    MeCardData.note].
  rewrite !in_app_iff.
  destruct name as [|c name];
  destruct (truthyOpt phone), (truthyOpt email), (truthyOpt url),
           (truthyOpt address), (truthyOpt note);
    cbn [In orEmpty truthyOpt truthy]; intros H;
    repeat match goal with
           | H : _ \/ _ |- _ => destruct H as [H | H]
           | H : False |- _ => destruct H
           | H : (_, _) = f |- _ => subst f
           end; cbn [fst snd]; tauto.
Qed.

Lemma escapeMeCardValue_semicolonsEscaped (v : string) :
  semicolonsEscaped (escapeMeCardValue v) = true.
Proof.
  apply (escapedText_weaken isSeparator _ isMeCardSpecial _);
    [| reflexivity | apply escapeMeCardValue_noRawSpecial].
  intros c H. unfold isSeparator. now rewrite H.
Qed.

Lemma token_semicolonsEscaped (data : MeCardData.t) (f : string * string) :
  In f (presentFields data) -> semicolonsEscaped (token f) = true.
Proof.
  intros H. apply presentFields_keys in H as [H _].
  pose proof (escapeMeCardValue_semicolonsEscaped (snd f)) as E.
  unfold token, meCardKeys in *. cbn [In] in H.
  repeat match goal with
         | H : _ \/ _ |- _ => destruct H as [H | H]
         | H : False |- _ => destruct H
         | H : _ = fst f |- _ => rewrite <- H
         end; exact E.
Qed.

(** *** Line terminators *)

Lemma startsWithSeparatorChar_head (a : ascii) (s : string) :
  Ascii.eqb a "226"%char = false -> startsWithSeparatorChar (String a s) = false.
Proof.
  intros H. destruct s as [|b [|c s]]; cbn; [reflexivity .. |].
  now rewrite H.
Qed.

Lemma hasLineTerminator_plain (a : ascii) (s : string) :
  Ascii.eqb a LF = false -> Ascii.eqb a CR = false ->
  Ascii.eqb a "226"%char = false ->
  hasLineTerminator (String a s) = hasLineTerminator s.
Proof.
  intros H1 H2 H3. cbn [hasLineTerminator].
  now rewrite H1, H2, startsWithSeparatorChar_head.
Qed.

Lemma special_plain (c : ascii) :
  isMeCardSpecial c = true ->
  Ascii.eqb c LF = false /\ Ascii.eqb c CR = false
  /\ Ascii.eqb c "226"%char = false /\ Ascii.eqb c "128"%char = false
  /\ Ascii.eqb c "168"%char = false /\ Ascii.eqb c "169"%char = false.
Proof.
  intros H. special c H; repeat split; reflexivity.
Qed.

Lemma startsWithSeparatorChar_escape (a : ascii) (v : string) :
  startsWithSeparatorChar (String a (escapeMeCardValue v))
  = startsWithSeparatorChar (String a v).
Proof.
  destruct v as [|b v]; [reflexivity |].
  rewrite escapeMeCardValue_cons. unfold escapeMeCardChar.
  destruct (isMeCardSpecial b) eqn:Eb.
  - destruct (special_plain b Eb) as (_ & _ & _ & Hb & _).
    cbn. rewrite Hb, andb_false_r.
    destruct v; reflexivity.
  - cbn [append]. destruct v as [|c v]; [reflexivity |].
    rewrite escapeMeCardValue_cons. unfold escapeMeCardChar.
    destruct (isMeCardSpecial c) eqn:Ec; [| reflexivity].
    destruct (special_plain c Ec) as (_ & _ & _ & _ & H1 & H2).
    cbn. rewrite H1, H2. cbn [orb]. rewrite !andb_false_r. reflexivity.
Qed.

Lemma hasLineTerminator_escape (v : string) :
  hasLineTerminator (escapeMeCardValue v) = hasLineTerminator v.
Proof.
  induction v as [|a v IH]; [reflexivity |].
  rewrite escapeMeCardValue_cons. unfold escapeMeCardChar.
  destruct (isMeCardSpecial a) eqn:E.
  - destruct (special_plain a E) as (H1 & H2 & H3 & _).
    cbn [append]. rewrite (hasLineTerminator_plain backslash) by reflexivity.
    rewrite !hasLineTerminator_plain by assumption. exact IH.
  - cbn [append hasLineTerminator].
    rewrite startsWithSeparatorChar_escape, IH. reflexivity.
Qed.

Lemma hasLineTerminator_app (a b : string) :
  hasLineTerminator a = false -> hasLineTerminator b = false ->
  plainStart b = true ->
  hasLineTerminator (a ++ b) = false.
Proof.
  intros Ha Hb Hp. induction a as [|x a IH]; [exact Hb |].
  cbn [hasLineTerminator] in Ha. rewrite !orb_false_iff in Ha.
  destruct Ha as [[[H1 H2] H3] H4].
  cbn [append hasLineTerminator]. rewrite H1, H2, (IH H4), orb_false_r.
  cbn [orb].
  destruct a as [|y [|z a]].
  - destruct b as [|y [|z b]]; cbn; try reflexivity.
    cbn in Hp. rewrite !andb_true_iff, !negb_true_iff in Hp.
    destruct Hp as [[Hp _] _]. now rewrite Hp, andb_false_r.
  - destruct b as [|z b]; cbn; try reflexivity.
    cbn in Hp. rewrite !andb_true_iff, !negb_true_iff in Hp.
    destruct Hp as [[_ Hp1] Hp2]. now rewrite Hp1, Hp2, andb_false_r.
  - exact H3.
Qed.

Lemma token_hasLineTerminator (data : MeCardData.t) (f : string * string) :
  In f (presentFields data) ->
  hasLineTerminator (token f) = hasLineTerminator (snd f).
Proof.
  intros H. apply presentFields_keys in H as [H _].
  rewrite <- (hasLineTerminator_escape (snd f)).
  unfold token, meCardKeys in *. cbn [In] in H.
  repeat match goal with
         | H : _ \/ _ |- _ => destruct H as [H | H]
         | H : False |- _ => destruct H
         | H : _ = fst f |- _ => rewrite <- H
         end; cbn [append];
    rewrite !hasLineTerminator_plain by reflexivity; reflexivity.
Qed.

Lemma hasLineTerminator_join (tokens : list string) :
  Forall (fun t => hasLineTerminator t = false) tokens ->
  hasLineTerminator (join ";" tokens) = false.
Proof.
  induction 1 as [|t ts Ht Hts IH]; [reflexivity |].
  destruct ts as [|t2 ts]; [exact Ht |].
  change (join ";" (t :: t2 :: ts)) with (t ++ String ";" (join ";" (t2 :: ts))).
  apply hasLineTerminator_app; [exact Ht | | reflexivity].
  rewrite hasLineTerminator_plain by reflexivity. exact IH.
Qed.

Lemma matchesMeCardPattern_body (body : string) :
  matchesMeCardPattern ("MECARD:" ++ body ++ ";;") = negb (hasLineTerminator body).
Proof.
  unfold matchesMeCardPattern.
  rewrite stripPrefix_app, stripSuffix_app. reflexivity.
Qed.

(** C5, as stated, fails: a note typed on two lines puts a line feed
    between [MECARD:] and the closing [;;], and the dot of
    [^MECARD:.*;;$] does not match a line feed. *)
Lemma encodeMeCard_multiline_note_rejected :
  encodeMeCard multilineNote = "MECARD:N:A;NOTE:x" ++ String LF "y;;"
  /\ matchesMeCardPattern (encodeMeCard multilineNote) = false.
Proof. split; reflexivity. Qed.

(** C5, amended.  For every MeCard record the output is [MECARD:],
    the emitted fields joined by [;], and [;;]; it matches
    [^MECARD:.*;;$] whenever no field value contains a line terminator;
    cutting the body at the semicolons that are not escaped gives back the
    emitted fields, so no raw semicolon is left inside a value.  For every
    value, the escaped text has no raw [;], [:], [,] or backslash, and
    unescaping it gives the value back. *)
Theorem encodeMeCard_wire_format :
  (forall data : MeCardData.t,
      let tokens := map token (presentFields data) in
      let body := join ";" tokens in
      encodeMeCard data = "MECARD:" ++ body ++ ";;"
      /\ startsWith "MECARD:" (encodeMeCard data) = true
      /\ endsWith ";;" (encodeMeCard data) = true
      /\ (existsb hasLineTerminator (fieldValues data) = false ->
          matchesMeCardPattern (encodeMeCard data) = true)
      /\ splitUnescaped ";" body = match tokens with [] => [""] | _ => tokens end)
  /\ (forall v : string,
         noRawSpecial (escapeMeCardValue v) = true
         /\ unescapeMeCardValue (escapeMeCardValue v) = v).
Proof.
  split.
  - intros data tokens body.
    assert (E : encodeMeCard data = "MECARD:" ++ body ++ ";;")
      by apply encodeMeCard_tokens.
    split; [exact E |]. rewrite E. split; [| split; [| split]].
    + unfold startsWith. now rewrite stripPrefix_app.
    + unfold endsWith. now rewrite <- append_assoc, stripSuffix_app.
    + intros H. rewrite matchesMeCardPattern_body.
      apply negb_true_iff, hasLineTerminator_join.
      apply Forall_forall. intros t Ht.
      apply in_map_iff in Ht as (f & <- & Hf).
      rewrite (token_hasLineTerminator data f Hf).
      apply presentFields_keys in Hf as [_ Hf].
      destruct (hasLineTerminator (snd f)) eqn:Ef; [| reflexivity].
      assert (X : existsb hasLineTerminator (fieldValues data) = true)
        by (apply existsb_exists; eauto).
      congruence.
    + apply splitUnescaped_join, Forall_forall. intros t Ht.
      apply in_map_iff in Ht as (f & <- & Hf).
      exact (token_semicolonsEscaped data f Hf).
  - intros v. split.
    + apply escapeMeCardValue_noRawSpecial.
    + apply unescape_escape.
Qed.

Lemma encodeMeCard_wire_format_witness :
  existsb hasLineTerminator (fieldValues sampleMeCard) = false
  /\ matchesMeCardPattern (encodeMeCard sampleMeCard) = true.
Proof.
  split; [reflexivity |].
  apply (proj1 encodeMeCard_wire_format sampleMeCard). reflexivity.
Defined.

(* ================================================================== *)
(** ** vCard encoding *)
(* ================================================================== *)

Lemma escapeVCardValue_cons (a : ascii) (v : string) :
  escapeVCardValue (String a v) = escapeVCardChar a ++ escapeVCardValue v.
Proof.
  destruct a as [[] [] [] [] [] [] [] []]; reflexivity.
Qed.

Lemma escapeVCardValue_semicolonsEscaped (v : string) :
  semicolonsEscaped (escapeVCardValue v) = true.
Proof.
  unfold semicolonsEscaped.
  induction v as [|a v IH]; [reflexivity |].
  rewrite escapeVCardValue_cons. unfold escapeVCardChar.
  destruct (Ascii.eqb a backslash) eqn:E1; [exact IH |].
  destruct (Ascii.eqb a ",") eqn:E2; [exact IH |].
  destruct (Ascii.eqb a ";") eqn:E3; [exact IH |].
  destruct (Ascii.eqb a LF) eqn:E4; [exact IH |].
  cbn [append escapedText]. now rewrite E1, E3.
Qed.

(** Every separator of the structured name is escaped with the name
    parts, so the value reads as a single field. *)
Lemma structuredName_single_field (data : VCardData.t) :
  splitUnescaped ";" (escapeVCardValue (structuredName data))
  = [escapeVCardValue (structuredName data)].
Proof.
  apply splitUnescaped_token, escapeVCardValue_semicolonsEscaped.
Qed.

Lemma pushWhen_app (v : option string) (line : string -> string)
  (lines : list string) :
  pushWhen v line lines
  = (lines ++ if truthyOpt v then [line (orEmpty v)] else [])%list.
Proof.
  unfold pushWhen, push. destruct (truthyOpt v); [reflexivity |].
  now rewrite app_nil_r.
Qed.

Lemma fold_push {A : Type} (line : A -> string) (xs : list A) (lines : list string) :
  fold_left (fun lines x => push lines (line x)) xs lines
  = (lines ++ map line xs)%list.
Proof.
  revert lines. induction xs as [|x xs IH]; intros lines; simpl.
  - now rewrite app_nil_r.
  - rewrite IH. unfold push. now rewrite <- app_assoc.
Qed.

Lemma pushSocialMedia_app (sm : option VCardSocialMedia.t) (lines : list string) :
  pushSocialMedia sm lines = (lines ++ pushSocialMedia sm [])%list.
Proof.
  destruct sm as [sm|]; simpl.
  - rewrite !pushWhen_app, <- !app_assoc. reflexivity.
  - now rewrite app_nil_r.
Qed.

Lemma join_snoc (sep : string) (lines : list string) (last : string) :
  lines <> [] ->
  join sep (lines ++ [last]) = join sep lines ++ sep ++ last.
Proof.
  induction lines as [|l ls IH]; [congruence |]. intros _.
  destruct ls as [|l2 ls]; [reflexivity |].
  change (join sep ((l :: l2 :: ls) ++ [last]))
    with (l ++ sep ++ join sep ((l2 :: ls) ++ [last])).
  rewrite IH by discriminate.
  change (join sep (l :: l2 :: ls)) with (l ++ sep ++ join sep (l2 :: ls)).
  now rewrite !append_assoc.
Qed.

Lemma ends_last {A : Type} (xs : list A) (e : A) :
  exists o, (xs ++ [e] = o ++ [e])%list.
Proof. now exists xs. Qed.

Lemma ends_app {A : Type} (xs rest : list A) (e : A) :
  (exists o, rest = o ++ [e])%list -> exists o, (xs ++ rest = o ++ [e])%list.
Proof. intros [o ->]. exists (xs ++ o)%list. now rewrite app_assoc. Qed.

(** The lines of a vCard: the header, the two name lines, the optional
    lines, the footer. *)
Lemma encodeVCard_lines (data : VCardData.t) :
  exists fn optional,
    encodeVCard data
    = join CRLF ("BEGIN:VCARD" :: "VERSION:3.0" :: ("FN:" ++ fn)
                 :: ("N:" ++ escapeVCardValue (structuredName data))
                 :: optional ++ ["END:VCARD"]).
Proof.
  unfold encodeVCard. cbv zeta.
  rewrite !pushWhen_app, pushSocialMedia_app, !fold_push.
  set (header := push (push (push (push [] "BEGIN:VCARD") "VERSION:3.0") _) _).
  unfold push at 1. rewrite <- !app_assoc.
  match goal with
  | |- exists fn optional, join CRLF (header ++ ?rest)%list = _ =>
      assert (Hr : exists o, (rest = o ++ ["END:VCARD"])%list)
        by (repeat (first [apply ends_last | apply ends_app]));
      destruct Hr as [o ->]
  end.
  eexists. exists o. reflexivity.
Qed.

Lemma encodeVCard_envelope (data : VCardData.t) :
  startsWith ("BEGIN:VCARD" ++ CRLF ++ "VERSION:3.0" ++ CRLF) (encodeVCard data) = true
  /\ endsWith "END:VCARD" (encodeVCard data) = true.
Proof.
  destruct (encodeVCard_lines data) as (fn & optional & ->).
  split.
  - destruct optional; reflexivity.
  - rewrite !app_comm_cons.
    rewrite join_snoc by discriminate.
    unfold endsWith. now rewrite <- append_assoc, stripSuffix_app.
Qed.

(** C3 (the code departs from the claim).  The structured name is joined
    with semicolons and escaped afterwards, so the four separators are
    escaped with the name parts: the [N:] value of John Doe is
    [Doe\;John\;\;\;], which a vCard reader takes for one field; with the
    family name [Do;e] the line holds five semicolons, six pieces when cut
    at every semicolon and one field when cut at the unescaped ones.  For
    no record does the value read as five fields. *)
Theorem encodeVCard_name_line_fields :
  nameValues (encodeVCard plainContact) = ["Doe\;John\;\;\;"]
  /\ map (splitUnescaped ";") (nameValues (encodeVCard plainContact))
     = [["Doe\;John\;\;\;"]]
  /\ nameValues (encodeVCard semicolonContact) = ["Do\;e\;John\;\;\;"]
  /\ map (split ";") (nameValues (encodeVCard semicolonContact))
     = [["Do\"; "e\"; "John\"; "\"; "\"; ""]]
  /\ map (splitUnescaped ";") (nameValues (encodeVCard semicolonContact))
     = [["Do\;e\;John\;\;\;"]]
  /\ (forall data : VCardData.t,
         splitUnescaped ";" (escapeVCardValue (structuredName data))
         = [escapeVCardValue (structuredName data)]).
Proof.
  repeat split; try reflexivity.
  apply structuredName_single_field.
Qed.

(* ================================================================== *)
(** ** Payload formatter and validator *)
(* ================================================================== *)

Section GeneratorFacts.

Variable encodeURIComponent : string -> string.
Variable numberToString : JSNumber -> string.
Variable trim : string -> string.
Variable canParseURL : string -> bool.
Variable emailRegexTest : string -> bool.
Variable QRCodeStyling : Type.
Variable createQRCodeStyling :
  QRGenerationOptions.t -> option string -> QRCodeStyling.
Variable applyStrokeToLogo : string -> JSNumber -> string -> Outcome string.
Variable logoOf : QRData -> option LogoConfig.t.

Local Abbreviation format := (formatQRData encodeURIComponent numberToString).
Local Abbreviation generate :=
  (generateQRCode encodeURIComponent numberToString QRCodeStyling
     createQRCodeStyling applyStrokeToLogo logoOf).
Local Abbreviation validate := (validateQRData trim canParseURL emailRegexTest).
Local Abbreviation display :=
  (previewEffect encodeURIComponent numberToString trim canParseURL
     emailRegexTest QRCodeStyling createQRCodeStyling applyStrokeToLogo logoOf).

Lemma unknown_type_inv (data : QRData) :
  isKnownType (typeOf data) = false -> data = OtherData (typeOf data).
Proof. destruct data; cbn; intros H; try discriminate H. reflexivity. Qed.

(** C4, amended.  For a record whose type is none of the eight known
    ones the formatter throws [Error("Unsupported QR type: <type>")];
    its caller [generateQRCode] has no handler around the call, so the
    same exception leaves [generateQRCode]. *)
Theorem formatQRData_unknown_type (data : QRData) (colors : ColorConfig.t) (size : Z) :
  isKnownType (typeOf data) = false ->
  format data = Thrown (Error ("Unsupported QR type: " ++ typeOf data))
  /\ generate data colors size
     = Thrown (Error ("Unsupported QR type: " ++ typeOf data)).
Proof.
  intros H. rewrite (unknown_type_inv data H). split; reflexivity.
Qed.

(** C10.  For a record whose type is none of the eight known ones the
    validator answers [{ valid: true }] (its [switch] has no default
    branch) while the formatter throws on the same record; the preview,
    which formats only what the validator accepts, therefore reaches the
    throwing branch and reports the failure. *)
Theorem validateQRData_unknown_type (data : QRData) (colors : ColorConfig.t) :
  isKnownType (typeOf data) = false ->
  validate data = ValidationResult.mk true None
  /\ format data = Thrown (Error ("Unsupported QR type: " ++ typeOf data))
  /\ display data colors
     = ("Failed to generate QR code. Data may be too large or invalid.", None).
Proof.
  intros H. rewrite (unknown_type_inv data H). repeat split; reflexivity.
Qed.

End GeneratorFacts.

(** C4, as stated, fails: on the type [wifi] the formatter does not return
    anything, whatever the built-ins are; it throws. *)
Lemma formatQRData_wifi_not_returned :
  ~ (exists encodeURIComponent numberToString payload,
        formatQRData encodeURIComponent numberToString (OtherData "wifi")
        = Returned payload).
Proof. intros (enc & num & payload & H). discriminate H. Qed.

Lemma formatQRData_unknown_type_witness :
  isKnownType (typeOf (OtherData "wifi")) = false
  /\ formatQRData (fun s => s) (fun _ => "0") (OtherData "wifi")
     = Thrown (Error "Unsupported QR type: wifi").
Proof.
  split; [reflexivity |].
  apply (formatQRData_unknown_type (fun s => s) (fun _ => "0") unit
           (fun _ _ => tt) (fun _ _ _ => Returned "") (fun _ => None)
           (OtherData "wifi") (ColorConfig.mk "#000000" "#ffffff") 300).
  reflexivity.
Defined.

Lemma validateQRData_unknown_type_witness :
  isKnownType (typeOf (OtherData "wifi")) = false
  /\ validateQRData (fun s => s) (fun _ => true) (fun _ => true) (OtherData "wifi")
     = ValidationResult.mk true None.
Proof.
  split; [reflexivity |].
  apply (validateQRData_unknown_type (fun s => s) (fun _ => "0") (fun s => s)
           (fun _ => true) (fun _ => true) unit
           (fun _ _ => tt) (fun _ _ _ => Returned "") (fun _ => None)
           (OtherData "wifi") (ColorConfig.mk "#000000" "#ffffff")).
  reflexivity.
Defined.

(* ================================================================== *)
(** ** History store *)
(* ================================================================== *)

Lemma loadSchema_version (st : LocalStorage.t) :
  StorageSchema.version (loadSchema st) = STORAGE_VERSION.
Proof.
  unfold loadSchema, isStorageAvailable.
  destruct (LocalStorage.available st); [| reflexivity].
  destruct (LocalStorage.entry st) as [| |schema]; try reflexivity.
  cbn [negb]. destruct (StorageSchema.version schema =? STORAGE_VERSION)%Z eqn:E.
  - now apply Z.eqb_eq in E.
  - reflexivity.
Qed.

Lemma loadSchema_document (st : LocalStorage.t) (items : list HistoryItem.t) :
  LocalStorage.available st = true ->
  LocalStorage.entry st = Document (StorageSchema.mk STORAGE_VERSION items) ->
  loadSchema st = StorageSchema.mk STORAGE_VERSION items.
Proof.
  intros Ha He. unfold loadSchema, isStorageAvailable. now rewrite Ha, He.
Qed.

Lemma loadSchema_stored (st : LocalStorage.t) :
  StorageSchema.items (loadSchema st) = []
  \/ StorageSchema.items (loadSchema st) = storedItems st.
Proof.
  unfold loadSchema, storedItems, isStorageAvailable.
  destruct (LocalStorage.available st); [| now left].
  destruct (LocalStorage.entry st) as [| |schema]; try now left.
  destruct (negb (StorageSchema.version schema =? STORAGE_VERSION)%Z);
    [now left | now right].
Qed.

Lemma saveSchema_inv (schema : StorageSchema.t) (st st' : LocalStorage.t) :
  saveSchema schema st = Returned st' ->
  LocalStorage.available st = true
  /\ LocalStorage.accepts st schema = true
  /\ st' = setEntry st (Document schema).
Proof.
  unfold saveSchema, isStorageAvailable.
  destruct (LocalStorage.available st); [| discriminate].
  destruct (LocalStorage.accepts st schema); [| discriminate].
  intros [= <-]. auto.
Qed.

Lemma saveSchema_accepted (schema : StorageSchema.t) (st : LocalStorage.t) :
  LocalStorage.available st = true ->
  LocalStorage.accepts st schema = true ->
  saveSchema schema st = Returned (setEntry st (Document schema)).
Proof.
  intros Ha Hq. unfold saveSchema, isStorageAvailable. now rewrite Ha, Hq.
Qed.

(** A guarded write either stores the schema or leaves the storage as it
    was. *)
Lemma guarded_write {A : Type} (schema : StorageSchema.t) (st : LocalStorage.t)
  (ok failed : A) :
  tryCatch (st' <- saveSchema schema st ;; Returned (ok, st'))
           (fun _ => (failed, st))
  = (if LocalStorage.available st && LocalStorage.accepts st schema
     then (ok, setEntry st (Document schema))
     else (failed, st)).
Proof.
  unfold saveSchema, isStorageAvailable.
  destruct (LocalStorage.available st); [| reflexivity].
  destruct (LocalStorage.accepts st schema); reflexivity.
Qed.

Lemma firstn_within {A : Type} (n : nat) (xs : list A) :
  (if (n <? length xs)%nat then firstn n xs else xs) = firstn n xs.
Proof.
  destruct (n <? length xs)%nat eqn:E; [reflexivity |].
  apply Nat.ltb_ge in E. symmetry. now apply firstn_all2.
Qed.

Lemma firstn_cons_firstn {A : Type} (n : nat) (x : A) (xs : list A) :
  firstn n (x :: firstn n xs) = firstn n (x :: xs).
Proof.
  destruct n; [reflexivity |].
  rewrite !firstn_cons. f_equal.
  rewrite firstn_firstn. f_equal. lia.
Qed.

Lemma firstn_incl {A : Type} (n : nat) (xs : list A) : incl (firstn n xs) xs.
Proof.
  intros x H. rewrite <- (firstn_skipn n xs). apply in_or_app. now left.
Qed.

Lemma firstn_head {A : Type} (k : nat) (x : A) (xs : list A) :
  (1 <= k)%nat -> exists rest, firstn k (x :: xs) = x :: rest.
Proof. destruct k; [lia |]. intros _. now exists (firstn k xs). Qed.

Lemma removelast_firstn_length {A : Type} (xs : list A) :
  removelast xs = firstn (pred (length xs)) xs.
Proof.
  induction xs as [|x xs IH]; [reflexivity |].
  destruct xs as [|y xs]; [reflexivity |].
  change (removelast (x :: y :: xs)) with (x :: removelast (y :: xs)).
  rewrite IH. reflexivity.
Qed.

Section StoreFacts.

Variable stringify : QRData -> string.
Variable schemaBytes : StorageSchema.t -> N.
Variable QRCodeStyling : Type.
Variable generateThumbnail : QRCodeStyling -> Z -> string.

Local Abbreviation loop := (enforceLoop schemaBytes).
Local Abbreviation enforce := (enforceStorageLimit schemaBytes).
Local Abbreviation saveItem :=
  (saveToHistory stringify schemaBytes QRCodeStyling generateThumbnail).
Local Abbreviation newItem := (itemOf QRCodeStyling generateThumbnail).
Local Abbreviation saveOne :=
  (save stringify schemaBytes QRCodeStyling generateThumbnail).
Local Abbreviation saveEach :=
  (saveAll stringify schemaBytes QRCodeStyling generateThumbnail).
Local Abbreviation duplicates := (isDuplicateOf stringify).
Local Abbreviation expected := (expectedAfter QRCodeStyling generateThumbnail).
Local Abbreviation keyOf := (dedupKey stringify QRCodeStyling).

(** The loop ends within the turns it is given: it keeps the version,
    keeps a non-empty prefix of a non-empty list, and stops either within
    the size limit or with a single item. *)
Lemma enforceLoop_spec (turns : nat) (schema : StorageSchema.t) :
  (length (StorageSchema.items schema) <= turns)%nat ->
  exists k,
    loop turns schema
    = StorageSchema.mk (StorageSchema.version schema)
        (firstn k (StorageSchema.items schema))
    /\ (k <= length (StorageSchema.items schema))%nat
    /\ (StorageSchema.items schema <> [] -> 1 <= k)%nat
    /\ ((schemaBytes (loop turns schema) <= MAX_STORAGE_SIZE)%N
        \/ (k <= 1)%nat).
Proof.
  revert schema. induction turns as [|turns IH]; intros [version items] Hlen;
    cbn [StorageSchema.items StorageSchema.version] in *.
  - exists 0%nat. destruct items; [| cbn in Hlen; lia].
    cbn. repeat split; auto. congruence.
  - cbn [enforceLoop StorageSchema.items].
    destruct (MAX_STORAGE_SIZE <? schemaBytes (StorageSchema.mk version items))%N
      eqn:Esize.
    + destruct (1 <? length items)%nat eqn:Elen; cbn [andb].
      * apply Nat.ltb_lt in Elen.
        destruct (IH (pop (StorageSchema.mk version items))) as (k & E & Hk & Hne & Hstop).
        { unfold pop. cbn [StorageSchema.items].
          rewrite removelast_firstn_length, length_firstn. lia. }
        unfold pop in *. cbn [StorageSchema.items StorageSchema.version] in *.
        rewrite removelast_firstn_length in *. rewrite length_firstn in Hk.
        exists k. rewrite E, firstn_firstn.
        replace (Nat.min k (pred (length items))) with k by lia.
        repeat split; auto; try lia.
        -- intros _. apply Hne. destruct items as [|x [|y items]]; cbn in *;
             try lia. discriminate.
        -- rewrite E in Hstop. rewrite firstn_firstn in Hstop.
           replace (Nat.min k (pred (length items))) with k in Hstop by lia.
           exact Hstop.
      * apply Nat.ltb_ge in Elen. exists (length items).
        rewrite firstn_all. repeat split; auto.
        intros Hne. destruct items; [congruence | cbn; lia].
    + cbn [andb]. exists (length items). rewrite firstn_all.
      repeat split; auto.
      * intros Hne. destruct items; [congruence | cbn; lia].
      * left. apply N.ltb_ge. exact Esize.
Qed.

Lemma enforceStorageLimit_spec (schema : StorageSchema.t) :
  exists k,
    enforce schema
    = StorageSchema.mk (StorageSchema.version schema)
        (firstn k (StorageSchema.items schema))
    /\ (k <= length (StorageSchema.items schema))%nat
    /\ (StorageSchema.items schema <> [] -> 1 <= k)%nat
    /\ ((schemaBytes (enforce schema) <= MAX_STORAGE_SIZE)%N
        \/ (k <= 1)%nat).
Proof. apply enforceLoop_spec. lia. Qed.

Lemma enforceStorageLimit_fits (schema : StorageSchema.t) :
  (schemaBytes schema <= MAX_STORAGE_SIZE)%N ->
  enforce schema = schema.
Proof.
  intros H. unfold enforceStorageLimit.
  destruct (length (StorageSchema.items schema)); [reflexivity |].
  cbn [enforceLoop].
  apply N.ltb_ge in H. now rewrite H.
Qed.

(** What a call of [saveToHistory] does, by cases. *)
Lemma saveToHistory_cases (r : SaveRequest.t QRCodeStyling) (st : LocalStorage.t) :
  let loaded := loadSchema st in
  let schema :=
    enforce
      (StorageSchema.mk STORAGE_VERSION
         (firstn MAX_ITEMS (newItem r :: StorageSchema.items loaded))) in
  saveOne r st
  = if existsb (duplicates (SaveRequest.data r)) (StorageSchema.items loaded)
    then (None, st)
    else if LocalStorage.available st && LocalStorage.accepts st schema
    then (Some (newItem r), setEntry st (Document schema))
    else (None, st).
Proof.
  cbv zeta. unfold save, saveToHistory.
  destruct (existsb _ (StorageSchema.items (loadSchema st))); [reflexivity |].
  rewrite guarded_write, firstn_within, loadSchema_version. reflexivity.
Qed.


Lemma saveToHistory_as_request (data : QRData) (colors : ColorConfig.t)
  (qrCode : QRCodeStyling) (tick : Tick.t) (st : LocalStorage.t) :
  saveItem data colors qrCode tick st
  = saveOne (SaveRequest.mk data colors qrCode tick) st.
Proof. reflexivity. Qed.

(** C1, amended.  After an insert by [saveToHistory] the persisted
    schema holds the new item followed by a prefix of the previous items
    (only tail items are evicted), and its serialized size is at most
    [MAX_STORAGE_SIZE] unless the new item is the only one left: the
    eviction loop never removes the last remaining item. *)
Theorem saveToHistory_size_limit (data : QRData) (colors : ColorConfig.t)
  (qrCode : QRCodeStyling) (tick : Tick.t) (st st' : LocalStorage.t)
  (item : HistoryItem.t) :
  saveItem data colors qrCode tick st = (Some item, st') ->
  exists schema k,
    LocalStorage.entry st' = Document schema
    /\ StorageSchema.items schema = firstn k (item :: getHistory st)
    /\ (1 <= k)%nat
    /\ ((schemaBytes schema <= MAX_STORAGE_SIZE)%N
        \/ StorageSchema.items schema = [item]).
Proof.
  rewrite saveToHistory_as_request, saveToHistory_cases. cbv zeta.
  unfold getHistory.
  set (r := SaveRequest.mk data colors qrCode tick).
  set (previous := StorageSchema.items (loadSchema st)).
  destruct (enforceStorageLimit_spec
              (StorageSchema.mk STORAGE_VERSION
                 (firstn MAX_ITEMS (newItem r :: previous))))
    as (k & E & Hk & Hne & Hstop).
  rewrite E in *. clear E.
  cbn [StorageSchema.items StorageSchema.version] in *.
  rewrite firstn_firstn in *.
  destruct (existsb _ _); [discriminate |].
  destruct (_ && _); [| discriminate].
  intros [= <- <-].
  assert (H1 : (1 <= k)%nat) by (apply Hne; discriminate).
  eexists. exists (Nat.min k MAX_ITEMS).
  split; [reflexivity |]. split; [reflexivity |]. split.
  - unfold MAX_ITEMS. lia.
  - destruct Hstop as [Hsize | Hone]; [now left | right].
    cbn [StorageSchema.items].
    replace (Nat.min k MAX_ITEMS) with 1%nat by (unfold MAX_ITEMS; lia).
    reflexivity.
Qed.

(** C6.  If an item of the store has the type of the new record and
    the same serialized payload, [saveToHistory] returns null and leaves
    the storage as it was; in particular the history keeps its
    length. *)
Theorem saveToHistory_duplicate (data : QRData) (colors : ColorConfig.t)
  (qrCode : QRCodeStyling) (tick : Tick.t) (st : LocalStorage.t)
  (item : HistoryItem.t) :
  In item (getHistory st) ->
  HistoryItem.type item = typeOf data ->
  stringify (HistoryItem.data item) = stringify data ->
  saveItem data colors qrCode tick st = (None, st)
  /\ length (getHistory (snd (saveItem data colors qrCode tick st)))
     = length (getHistory st).
Proof.
  intros Hin Htype Hdata.
  assert (E : saveItem data colors qrCode tick st = (None, st)).
  { rewrite saveToHistory_as_request, saveToHistory_cases. cbv zeta.
    cbn [SaveRequest.data].
    replace (existsb (duplicates data) (StorageSchema.items (loadSchema st)))
      with true; [reflexivity |].
    symmetry. apply existsb_exists. exists item. split; [exact Hin |].
    unfold isDuplicateOf. now rewrite Htype, Hdata, !String.eqb_refl. }
  now rewrite E.
Qed.

End StoreFacts.

(** *** The item cap *)

Lemma getHistory_length (st : LocalStorage.t) :
  (length (getHistory st) <= length (storedItems st))%nat.
Proof.
  unfold getHistory. destruct (loadSchema_stored st) as [-> | ->]; cbn; lia.
Qed.

Lemma deleteHistoryItem_bounded (id : string) (st : LocalStorage.t) :
  bounded st -> bounded (snd (deleteHistoryItem id st)).
Proof.
  unfold bounded, deleteHistoryItem. intros H.
  destruct (_ <? _)%nat; [| exact H].
  rewrite guarded_write. destruct (_ && _); [| exact H].
  cbn [snd setEntry storedItems LocalStorage.entry StorageSchema.items].
  pose proof (filter_length_le
                (fun item => negb (HistoryItem.id item =? id))
                (StorageSchema.items (loadSchema st))) as Hf.
  pose proof (getHistory_length st) as Hg. unfold getHistory in Hg. lia.
Qed.

Lemma clearHistory_bounded (st : LocalStorage.t) :
  bounded st -> bounded (snd (clearHistory st)).
Proof.
  unfold bounded, clearHistory. intros H. rewrite guarded_write.
  destruct (_ && _); [| exact H]. cbn. lia.
Qed.

Lemma importHistoryFromJSON_bounded (json : ImportPayload) (st : LocalStorage.t) :
  bounded st -> bounded (snd (importHistoryFromJSON json st)).
Proof.
  unfold bounded, importHistoryFromJSON. intros H.
  destruct json as [| |version items]; try exact H.
  destruct (_ || _); [exact H |].
  rewrite guarded_write. destruct (_ && _); [| exact H].
  cbn [snd setEntry storedItems LocalStorage.entry StorageSchema.items].
  apply firstn_le_length.
Qed.

Lemma distinctKeys_NoDup (keys : list (string * string)) :
  distinctKeys keys = true -> NoDup keys.
Proof.
  induction keys as [|k rest IH]; [constructor |].
  cbn [distinctKeys]. rewrite andb_true_iff, negb_true_iff.
  intros [Hk Hrest]. constructor; [| now apply IH].
  intros Hin.
  assert (X : existsb (fun k' => (fst k =? fst k') && (snd k =? snd k')) rest = true).
  { apply existsb_exists. exists k. split; [exact Hin |].
    now rewrite !String.eqb_refl. }
  congruence.
Qed.

Section StoreRuns.

Variable stringify : QRData -> string.
Variable schemaBytes : StorageSchema.t -> N.
Variable QRCodeStyling : Type.
Variable generateThumbnail : QRCodeStyling -> Z -> string.

Local Abbreviation enforce := (enforceStorageLimit schemaBytes).
Local Abbreviation saveItem :=
  (saveToHistory stringify schemaBytes QRCodeStyling generateThumbnail).
Local Abbreviation newItem := (itemOf QRCodeStyling generateThumbnail).
Local Abbreviation saveOne :=
  (save stringify schemaBytes QRCodeStyling generateThumbnail).
Local Abbreviation saveEach :=
  (saveAll stringify schemaBytes QRCodeStyling generateThumbnail).
Local Abbreviation duplicates := (isDuplicateOf stringify).
Local Abbreviation expected := (expectedAfter QRCodeStyling generateThumbnail).
Local Abbreviation keyOf := (dedupKey stringify QRCodeStyling).
Local Abbreviation cases :=
  (saveToHistory_cases stringify schemaBytes QRCodeStyling generateThumbnail).

Lemma save_bounded (r : SaveRequest.t QRCodeStyling) (st : LocalStorage.t) :
  bounded st -> bounded (snd (saveOne r st)).
Proof.
  unfold bounded. intros H. rewrite cases. cbv zeta.
  destruct (existsb _ _); [exact H |].
  destruct (_ && _); [| exact H].
  destruct (enforceStorageLimit_spec schemaBytes
              (StorageSchema.mk STORAGE_VERSION
                 (firstn MAX_ITEMS
                    (newItem r :: StorageSchema.items (loadSchema st)))))
    as (k & E & _).
  rewrite E.
  cbn [snd setEntry storedItems LocalStorage.entry StorageSchema.items].
  rewrite firstn_firstn, length_firstn. lia.
Qed.

(** A new record is no duplicate of the items of earlier requests with
    other keys. *)
Lemma fresh_key_not_duplicate (r : SaveRequest.t QRCodeStyling)
  (done : list (SaveRequest.t QRCodeStyling)) (items : list HistoryItem.t) :
  ~ In (keyOf r) (map keyOf done) ->
  incl items (map newItem done) ->
  existsb (duplicates (SaveRequest.data r)) items = false.
Proof.
  intros Hfresh Hincl.
  destruct (existsb _ items) eqn:E; [| reflexivity].
  apply existsb_exists in E as (item & Hin & Hdup).
  apply Hincl, in_map_iff in Hin as (r' & <- & Hr').
  unfold isDuplicateOf, itemOf in Hdup.
  cbn [HistoryItem.type HistoryItem.data] in Hdup.
  apply andb_true_iff in Hdup as [H1 H2].
  apply String.eqb_eq in H1, H2.
  exfalso. apply Hfresh. apply in_map_iff. exists r'. split; [| exact Hr'].
  unfold dedupKey. now rewrite H1, H2.
Qed.

Lemma saveAll_cons (r : SaveRequest.t QRCodeStyling)
  (rs : list (SaveRequest.t QRCodeStyling)) (st : LocalStorage.t) :
  saveEach (r :: rs) st = saveEach rs (snd (saveOne r st)).
Proof. reflexivity. Qed.

Lemma saveAll_app (rs rs' : list (SaveRequest.t QRCodeStyling))
  (st : LocalStorage.t) :
  saveEach (rs ++ rs') st = saveEach rs' (saveEach rs st).
Proof. unfold saveAll. apply fold_left_app. Qed.

(** A run in which only the item cap evicts. *)
Lemma saveAll_run (rs done : list (SaveRequest.t QRCodeStyling))
  (st : LocalStorage.t) :
  LocalStorage.available st = true ->
  (forall schema, LocalStorage.accepts st schema = true) ->
  loadSchema st
  = StorageSchema.mk STORAGE_VERSION
      (firstn MAX_ITEMS (rev (map newItem done))) ->
  NoDup (map keyOf (done ++ rs)) ->
  (forall k, (1 <= k <= length rs)%nat ->
     (schemaBytes
        (StorageSchema.mk STORAGE_VERSION
           (firstn MAX_ITEMS (rev (map newItem (done ++ firstn k rs)))))
      <= MAX_STORAGE_SIZE)%N) ->
  rs <> [] ->
  saveEach rs st
  = setEntry st
      (Document
         (StorageSchema.mk STORAGE_VERSION
            (firstn MAX_ITEMS (rev (map newItem (done ++ rs)))))).
Proof.
  revert done st. induction rs as [|r rs IH]; intros done st Ha Hq Hl Hd Hs Hne;
    [congruence |].
  rewrite saveAll_cons.
  assert (Estep :
    saveOne r st
    = (Some (newItem r),
       setEntry st
         (Document
            (StorageSchema.mk STORAGE_VERSION
               (firstn MAX_ITEMS (rev (map newItem (done ++ [r])))))))).
  { rewrite cases. cbv zeta. rewrite Hl. cbn [StorageSchema.items].
    rewrite (fresh_key_not_duplicate r done).
    - rewrite !firstn_cons_firstn.
      replace (newItem r :: rev (map newItem done))
        with (rev (map newItem (done ++ [r])))
        by (now rewrite map_app, rev_app_distr).
      rewrite enforceStorageLimit_fits.
      + now rewrite Ha, Hq.
      + apply (Hs 1%nat). cbn [length]. lia.
    - rewrite map_app in Hd. apply NoDup_remove_2 in Hd.
      intros Hin. apply Hd, in_or_app. now left.
    - intros item Hin. apply firstn_incl in Hin. now apply in_rev in Hin. }
  rewrite Estep. cbn [snd].
  destruct rs as [|r2 rs].
  - reflexivity.
  - rewrite (IH (done ++ [r])%list).
    + rewrite <- app_assoc. reflexivity.
    + exact Ha.
    + exact Hq.
    + apply loadSchema_document; [exact Ha | reflexivity].
    + now rewrite <- app_assoc.
    + intros k Hk. rewrite <- app_assoc. apply (Hs (S k)). cbn [length] in *. lia.
    + discriminate.
Qed.


Lemma empty_history_schema (st : LocalStorage.t) :
  getHistory st = [] -> loadSchema st = StorageSchema.mk STORAGE_VERSION [].
Proof.
  unfold getHistory. intros H. pose proof (loadSchema_version st) as V.
  destruct (loadSchema st) as [version items]. cbn in *. now subst.
Qed.

(** C7, amended.  Every mutation of the store keeps the item list
    within [MAX_ITEMS]: [saveToHistory], [deleteHistoryItem],
    [clearHistory] and [importHistoryFromJSON] preserve the cap.
    Inserting 51 distinct records one after the other into an empty store
    whose writes are accepted leaves exactly 50 items, the 50 inserted
    last with the newest first, whatever the time stamps are (the record
    inserted first is the one evicted), provided the serialized schema
    stays within [MAX_STORAGE_SIZE] during the run, so that the size
    limit evicts nothing more. *)
Theorem history_item_cap :
  (forall data colors qrCode tick st,
      bounded st -> bounded (snd (saveItem data colors qrCode tick st)))
  /\ (forall id st, bounded st -> bounded (snd (deleteHistoryItem id st)))
  /\ (forall st, bounded st -> bounded (snd (clearHistory st)))
  /\ (forall json st, bounded st -> bounded (snd (importHistoryFromJSON json st)))
  /\ (forall rs st,
         length rs = 51%nat ->
         LocalStorage.available st = true ->
         (forall schema, LocalStorage.accepts st schema = true) ->
         getHistory st = [] ->
         NoDup (map keyOf rs) ->
         (forall k, (1 <= k <= 51)%nat ->
            (schemaBytes (expected rs k) <= MAX_STORAGE_SIZE)%N) ->
         storedItems (saveEach rs st) = rev (map newItem (tl rs))
         /\ length (storedItems (saveEach rs st)) = 50%nat).
Proof.
  split; [| split; [| split; [| split]]].
  - intros data colors qrCode tick st.
    apply (save_bounded (SaveRequest.mk data colors qrCode tick)).
  - apply deleteHistoryItem_bounded.
  - apply clearHistory_bounded.
  - apply importHistoryFromJSON_bounded.
  - intros rs st Hlen Ha Hq Hempty Hd Hs.
    rewrite (saveAll_run rs [] st Ha Hq).
    + cbn [app storedItems setEntry LocalStorage.entry StorageSchema.items].
      destruct rs as [|r rs]; [discriminate |].
      cbn [tl map rev]. injection Hlen as Hlen.
      assert (L : length (rev (map newItem rs)) = MAX_ITEMS)
        by (now rewrite length_rev, length_map).
      assert (F : firstn MAX_ITEMS (rev (map newItem rs)) = rev (map newItem rs))
        by (apply firstn_all2; rewrite L; apply Nat.le_refl).
      rewrite firstn_app, L, Nat.sub_diag, firstn_0, app_nil_r, F.
      split; [reflexivity | exact L].
    + now apply empty_history_schema.
    + exact Hd.
    + intros k Hk. apply Hs. lia.
    + destruct rs; [discriminate | discriminate].
Qed.

(** The size limit leaves a single item when every schema that begins
    with the new item is over the limit. *)
Lemma saveToHistory_oversized (r : SaveRequest.t QRCodeStyling)
  (st : LocalStorage.t) :
  LocalStorage.available st = true ->
  (forall schema, LocalStorage.accepts st schema = true) ->
  existsb (duplicates (SaveRequest.data r)) (getHistory st) = false ->
  (forall rest,
      (MAX_STORAGE_SIZE
       < schemaBytes (StorageSchema.mk STORAGE_VERSION (newItem r :: rest)))%N) ->
  saveOne r st
  = (Some (newItem r),
     setEntry st (Document (StorageSchema.mk STORAGE_VERSION [newItem r]))).
Proof.
  intros Ha Hq Hdup Hbig. rewrite cases. cbv zeta.
  unfold getHistory in Hdup. rewrite Hdup, Ha, Hq. cbn [andb].
  destruct (enforceStorageLimit_spec schemaBytes
              (StorageSchema.mk STORAGE_VERSION
                 (firstn MAX_ITEMS
                    (newItem r :: StorageSchema.items (loadSchema st)))))
    as (k & E & Hk & Hne & Hstop).
  rewrite E in *. cbn [StorageSchema.items StorageSchema.version] in *.
  rewrite firstn_firstn in *.
  assert (H1 : (1 <= k)%nat) by (apply Hne; discriminate).
  destruct Hstop as [Hsize | Hone].
  - exfalso.
    destruct (firstn_head (Nat.min k MAX_ITEMS) (newItem r)
                (StorageSchema.items (loadSchema st))) as [rest Erest].
    { unfold MAX_ITEMS. lia. }
    rewrite Erest in Hsize. specialize (Hbig rest). lia.
  - replace (Nat.min k MAX_ITEMS) with 1%nat by (unfold MAX_ITEMS; lia).
    reflexivity.
Qed.

Lemma save_backend (r : SaveRequest.t QRCodeStyling) (st : LocalStorage.t) :
  LocalStorage.available (snd (saveOne r st)) = LocalStorage.available st
  /\ LocalStorage.accepts (snd (saveOne r st)) = LocalStorage.accepts st.
Proof.
  rewrite cases. cbv zeta.
  destruct (existsb _ _); [now split |].
  destruct (_ && _); now split.
Qed.

Lemma saveAll_backend (rs : list (SaveRequest.t QRCodeStyling))
  (st : LocalStorage.t) :
  LocalStorage.available (saveEach rs st) = LocalStorage.available st
  /\ LocalStorage.accepts (saveEach rs st) = LocalStorage.accepts st.
Proof.
  revert st. induction rs as [|r rs IH]; intros st; [now split |].
  rewrite saveAll_cons.
  destruct (IH (snd (saveOne r st))) as [-> ->]. apply save_backend.
Qed.

Lemma other_type_not_duplicate (data : QRData) (items : list HistoryItem.t) :
  forallb (fun item => negb (HistoryItem.type item =? typeOf data)) items = true ->
  existsb (duplicates data) items = false.
Proof.
  intros H. destruct (existsb _ items) eqn:E; [| reflexivity].
  apply existsb_exists in E as (item & Hin & Hdup).
  rewrite forallb_forall in H. specialize (H item Hin).
  unfold isDuplicateOf in Hdup. apply andb_true_iff in Hdup as [Hdup _].
  rewrite Hdup in H. discriminate H.
Qed.

End StoreRuns.

(* ================================================================== *)
(** ** Sizes of serialized values *)
(* ================================================================== *)

Lemma byteLength_filler (n : N) : byteLength (filler n) = (3 * n)%N.
Proof.
  unfold filler. induction n as [|n IH] using N.peano_ind; [reflexivity |].
  rewrite N.iter_succ, byteLength_app, IH. cbn [euro byteLength]. lia.
Qed.

Lemma byteLength_join_member (sep m : string) (members : list string) :
  In m members -> (byteLength m <= byteLength (join sep members))%N.
Proof.
  induction members as [|x xs IH]; [contradiction |].
  intros [-> | Hin].
  - destruct xs; cbn [join]; rewrite ?byteLength_app; lia.
  - specialize (IH Hin). destruct xs as [|y ys]; [contradiction |].
    change (join sep (x :: y :: ys)) with (x ++ sep ++ join sep (y :: ys)).
    rewrite !byteLength_app. lia.
Qed.

Section JsonSizes.

Variable numberToString : JSNumber -> string.

Lemma byteLength_escapeChar (c : ascii) :
  (1 <= byteLength (Json.escapeChar c))%N.
Proof.
  unfold Json.escapeChar.
  repeat match goal with
         | |- context [if ?b then _ else _] => destruct b
         end; cbn; lia.
Qed.

Lemma byteLength_escape (s : string) :
  (byteLength s <= byteLength (Json.escape s))%N.
Proof.
  induction s as [|c s IH]; [reflexivity |].
  cbn [Json.escape byteLength]. rewrite byteLength_app.
  pose proof (byteLength_escapeChar c). lia.
Qed.

Lemma byteLength_str (s : string) :
  (byteLength s + 2 <= byteLength (Json.str s))%N.
Proof.
  unfold Json.str. cbn [byteLength]. rewrite byteLength_app. cbn [byteLength].
  pose proof (byteLength_escape s). lia.
Qed.

Lemma byteLength_object (m : string) (members : list string) :
  In m members -> (byteLength m + 2 <= byteLength (Json.object members))%N.
Proof.
  intros H. unfold Json.object. cbn [append byteLength].
  rewrite byteLength_app. cbn [byteLength].
  pose proof (byteLength_join_member "," m members H). lia.
Qed.

Lemma byteLength_array (e : string) (elements : list string) :
  In e elements -> (byteLength e + 2 <= byteLength (Json.array elements))%N.
Proof.
  intros H. unfold Json.array. cbn [append byteLength].
  rewrite byteLength_app. cbn [byteLength].
  pose proof (byteLength_join_member "," e elements H). lia.
Qed.

Lemma byteLength_prop (key value : string) :
  exists member,
    Json.prop key value = [member] /\ (byteLength value <= byteLength member)%N.
Proof.
  eexists. split; [reflexivity |]. rewrite !byteLength_app. lia.
Qed.

Lemma In_last {A : Type} (x : A) (xs : list A) : In x (xs ++ [x]).
Proof. apply in_or_app. right. now left. Qed.

Lemma byteLength_stringify_text (text : string) :
  (byteLength text < byteLength (Json.stringify numberToString (TextData text)))%N.
Proof.
  change (Json.stringify numberToString (TextData text))
    with (Json.object
            (Json.prop "type" (Json.str "text")
             ++ Json.prop "text" (Json.str text))%list).
  destruct (byteLength_prop "text" (Json.str text)) as (m & E & Hm).
  rewrite E.
  pose proof (byteLength_object m _ (In_last m (Json.prop "type" (Json.str "text")))).
  pose proof (byteLength_str text). lia.
Qed.

Lemma byteLength_item (i : HistoryItem.t) :
  (byteLength (Json.stringify numberToString (HistoryItem.data i))
   < byteLength (Json.item numberToString i))%N.
Proof.
  unfold Json.item.
  destruct (byteLength_prop "data"
              (Json.stringify numberToString (HistoryItem.data i)))
    as (m & E & Hm).
  rewrite E.
  match goal with
  | |- (_ < byteLength (Json.object ?members))%N =>
      assert (Hin : In m members)
  end.
  { rewrite !in_app_iff. right. right. right. left. now left. }
  pose proof (byteLength_object m _ Hin). lia.
Qed.

Lemma schemaBytes_item (version : Z) (i : HistoryItem.t)
  (items : list HistoryItem.t) :
  In i items ->
  (byteLength (Json.item numberToString i)
   < Json.schemaBytes numberToString (StorageSchema.mk version items))%N.
Proof.
  intros Hin. unfold Json.schemaBytes, Json.schema.
  cbn [StorageSchema.items StorageSchema.version].
  destruct (byteLength_prop "items"
              (Json.array (map (Json.item numberToString) items)))
    as (m & E & Hm).
  rewrite E.
  pose proof (byteLength_object m _
                (In_last m (Json.prop "version" (decimal version)))).
  pose proof (byteLength_array (Json.item numberToString i)
                (map (Json.item numberToString) items)
                (in_map _ _ _ Hin)).
  lia.
Qed.

(** A schema is larger than any text record it holds. *)
Lemma schemaBytes_text (version : Z) (i : HistoryItem.t) (text : string)
  (items : list HistoryItem.t) :
  In i items ->
  HistoryItem.data i = TextData text ->
  (byteLength text
   < Json.schemaBytes numberToString (StorageSchema.mk version items))%N.
Proof.
  intros Hin Hdata.
  pose proof (schemaBytes_item version i items Hin).
  pose proof (byteLength_item i). rewrite Hdata in *.
  pose proof (byteLength_stringify_text text). lia.
Qed.

End JsonSizes.

(* ================================================================== *)
(** ** The size limit on sample runs *)
(* ================================================================== *)

Lemma hugeRequest_oversized (rest : list HistoryItem.t) :
  (MAX_STORAGE_SIZE
   < sampleBytes
       (StorageSchema.mk STORAGE_VERSION (itemOf unit noThumbnail hugeRequest :: rest)))%N.
Proof.
  apply N.le_lt_trans with (byteLength (filler 1747627)).
  - rewrite byteLength_filler. unfold MAX_STORAGE_SIZE. lia.
  - apply (schemaBytes_text zeroText STORAGE_VERSION
             (itemOf unit noThumbnail hugeRequest)).
    + now left.
    + reflexivity.
Qed.

(** C1, as stated, fails: a text record of 5,242,881 bytes saved into the
    empty store is inserted and persisted, and the persisted schema, which
    holds this one item, is larger than [MAX_STORAGE_SIZE]. *)
Lemma saveToHistory_keeps_oversized_item :
  saveToHistory sampleStringify sampleBytes unit noThumbnail
    (SaveRequest.data hugeRequest) (SaveRequest.colors hugeRequest)
    (SaveRequest.qrCode hugeRequest) (SaveRequest.tick hugeRequest) emptyStorage
  = (Some (itemOf unit noThumbnail hugeRequest),
     setEntry emptyStorage
       (Document
          (StorageSchema.mk STORAGE_VERSION [itemOf unit noThumbnail hugeRequest])))
  /\ (MAX_STORAGE_SIZE
      < sampleBytes
          (StorageSchema.mk STORAGE_VERSION [itemOf unit noThumbnail hugeRequest]))%N.
Proof.
  split; [| apply hugeRequest_oversized].
  apply (saveToHistory_oversized sampleStringify sampleBytes unit noThumbnail
           hugeRequest emptyStorage).
  - reflexivity.
  - reflexivity.
  - reflexivity.
  - apply hugeRequest_oversized.
Qed.

Lemma saveToHistory_size_limit_witness :
  exists schema k,
    LocalStorage.entry
      (snd (save sampleStringify sampleBytes unit noThumbnail (urlRequest 0)
              emptyStorage))
    = Document schema
    /\ StorageSchema.items schema
       = firstn k (itemOf unit noThumbnail (urlRequest 0) :: getHistory emptyStorage)
    /\ (1 <= k)%nat
    /\ ((sampleBytes schema <= MAX_STORAGE_SIZE)%N
        \/ StorageSchema.items schema = [itemOf unit noThumbnail (urlRequest 0)]).
Proof.
  apply (saveToHistory_size_limit sampleStringify sampleBytes unit noThumbnail
           (SaveRequest.data (urlRequest 0)) (SaveRequest.colors (urlRequest 0))
           (SaveRequest.qrCode (urlRequest 0)) (SaveRequest.tick (urlRequest 0))
           emptyStorage).
  vm_compute. reflexivity.
Defined.

Lemma saveToHistory_duplicate_witness :
  let st := saveAll sampleStringify sampleBytes unit noThumbnail (urlRequests 3)
              emptyStorage in
  length (getHistory st) = 3%nat
  /\ saveToHistory sampleStringify sampleBytes unit noThumbnail
       (URLData "https://example.org/1") black tt
       (Tick.mk 1700000005000 "q1w2e3r" 1700000005000) st
     = (None, st).
Proof.
  split; [vm_compute; reflexivity |].
  apply (saveToHistory_duplicate sampleStringify sampleBytes unit noThumbnail
           (URLData "https://example.org/1") black tt
           (Tick.mk 1700000005000 "q1w2e3r" 1700000005000)
           (saveAll sampleStringify sampleBytes unit noThumbnail (urlRequests 3)
              emptyStorage)
           (itemOf unit noThumbnail (urlRequest 1))).
  - vm_compute. right. left. reflexivity.
  - reflexivity.
  - reflexivity.
Defined.

(** C7, as stated, fails: fifty short URL records and then a text record
    of 5,242,881 bytes are 51 distinct records; every one of them is
    inserted, the store holds 50 items before the last insert, and after
    it the size limit has evicted all of them but the new item. *)
Lemma fifty_one_inserts_leave_one_item :
  let rs := (urlRequests 50 ++ [hugeRequest])%list in
  let st50 := saveAll sampleStringify sampleBytes unit noThumbnail (urlRequests 50)
                emptyStorage in
  length rs = 51%nat
  /\ distinctKeys (map (dedupKey sampleStringify unit) (urlRequests 50)) = true
  /\ forallb (fun r => negb (typeOf (SaveRequest.data r)
                             =? typeOf (SaveRequest.data hugeRequest)))
       (urlRequests 50) = true
  /\ length (storedItems st50) = 50%nat
  /\ save sampleStringify sampleBytes unit noThumbnail hugeRequest st50
     = (Some (itemOf unit noThumbnail hugeRequest),
        setEntry st50
          (Document
             (StorageSchema.mk STORAGE_VERSION [itemOf unit noThumbnail hugeRequest])))
  /\ storedItems (saveAll sampleStringify sampleBytes unit noThumbnail rs emptyStorage)
     = [itemOf unit noThumbnail hugeRequest]
  /\ length (storedItems
               (saveAll sampleStringify sampleBytes unit noThumbnail rs emptyStorage))
     <> 50%nat.
Proof.
  intros rs st50.
  assert (Estep :
    save sampleStringify sampleBytes unit noThumbnail hugeRequest st50
    = (Some (itemOf unit noThumbnail hugeRequest),
       setEntry st50
         (Document
            (StorageSchema.mk STORAGE_VERSION [itemOf unit noThumbnail hugeRequest])))).
  { destruct (saveAll_backend sampleStringify sampleBytes unit noThumbnail
                (urlRequests 50) emptyStorage) as [Ha Hq].
    apply saveToHistory_oversized.
    - fold st50 in Ha. rewrite Ha. reflexivity.
    - fold st50 in Hq. rewrite Hq. reflexivity.
    - apply other_type_not_duplicate.
      change (typeOf (SaveRequest.data hugeRequest)) with "text".
      subst st50. vm_compute. reflexivity.
    - apply hugeRequest_oversized. }
  assert (Efinal :
    storedItems (saveAll sampleStringify sampleBytes unit noThumbnail rs emptyStorage)
    = [itemOf unit noThumbnail hugeRequest]).
  { subst rs. rewrite saveAll_app. fold st50.
    rewrite saveAll_cons, Estep. reflexivity. }
  split; [reflexivity |].
  split; [vm_compute; reflexivity |].
  split; [change (typeOf (SaveRequest.data hugeRequest)) with "text";
          vm_compute; reflexivity |].
  split; [subst st50; vm_compute; reflexivity |].
  split; [exact Estep |].
  split; [exact Efinal |].
  rewrite Efinal. cbn [length]. discriminate.
Qed.

Lemma history_item_cap_witness :
  let rs := urlRequests 51 in
  length rs = 51%nat
  /\ bounded emptyStorage
  /\ bounded (snd (clearHistory emptyStorage))
  /\ storedItems (saveAll sampleStringify sampleBytes unit noThumbnail rs emptyStorage)
     = rev (map (itemOf unit noThumbnail) (tl rs))
  /\ length (storedItems
               (saveAll sampleStringify sampleBytes unit noThumbnail rs emptyStorage))
     = 50%nat.
Proof.
  intros rs.
  assert (B : bounded emptyStorage) by (unfold bounded, MAX_ITEMS; cbn; lia).
  split; [reflexivity |]. split; [exact B |]. split.
  - apply (proj1 (proj2 (proj2
             (history_item_cap sampleStringify sampleBytes unit noThumbnail)))).
    exact B.
  - apply (proj2 (proj2 (proj2 (proj2
             (history_item_cap sampleStringify sampleBytes unit noThumbnail))))).
    + reflexivity.
    + reflexivity.
    + intros schema. reflexivity.
    + reflexivity.
    + apply distinctKeys_NoDup. vm_compute. reflexivity.
    + intros k Hk.
      assert (F : forallb
                    (fun k => (sampleBytes (expectedAfter unit noThumbnail rs k)
                               <=? MAX_STORAGE_SIZE)%N)
                    (seq 1 51) = true) by (vm_compute; reflexivity).
      rewrite forallb_forall in F. apply N.leb_le, F, in_seq. lia.
Defined.

(* ================================================================== *)
(** ** Import *)
(* ================================================================== *)

Lemma insertSorted_perm {A : Type} (compare : A -> A -> Z) (x : A) (xs : list A) :
  Permutation (x :: xs) (insertSorted compare x xs).
Proof.
  induction xs as [|y xs IH]; cbn [insertSorted]; [reflexivity |].
  destruct (compare x y <=? 0)%Z; [reflexivity |].
  rewrite perm_swap. now constructor.
Qed.

Lemma jsSort_perm {A : Type} (compare : A -> A -> Z) (xs : list A) :
  Permutation xs (jsSort compare xs).
Proof.
  induction xs as [|x xs IH]; [reflexivity |].
  cbn [jsSort fold_right]. rewrite <- insertSorted_perm. now constructor.
Qed.

Lemma insertSorted_newest (x : HistoryItem.t) (xs : list HistoryItem.t) :
  StronglySorted newerOrEqual xs ->
  StronglySorted newerOrEqual (insertSorted newestFirst x xs).
Proof.
  induction 1 as [|y xs Hs IH Hy]; cbn [insertSorted].
  - repeat constructor.
  - destruct (newestFirst x y <=? 0)%Z eqn:E.
    + apply Z.leb_le in E. unfold newestFirst in E.
      constructor; [now constructor |].
      constructor; [unfold newerOrEqual; lia |].
      eapply Forall_impl; [| exact Hy].
      unfold newerOrEqual. intros z Hz. lia.
    + apply Z.leb_gt in E. unfold newestFirst in E.
      constructor; [exact IH |].
      rewrite <- (insertSorted_perm newestFirst x xs).
      constructor; [unfold newerOrEqual; lia | exact Hy].
Qed.

Lemma jsSort_newest (xs : list HistoryItem.t) :
  StronglySorted newerOrEqual (jsSort newestFirst xs).
Proof.
  induction xs as [|x xs IH]; [constructor |].
  cbn [jsSort fold_right]. now apply insertSorted_newest.
Qed.

Lemma existsb_id (e : HistoryItem.t) (items : list HistoryItem.t) :
  existsb (fun item => HistoryItem.id item =? HistoryItem.id e) items
  = existsb (String.eqb (HistoryItem.id e)) (map HistoryItem.id items).
Proof.
  induction items as [|i items IH]; [reflexivity |].
  cbn [existsb map]. now rewrite IH, String.eqb_sym.
Qed.

Lemma existsb_eqb_In (s : string) (seen : list string) :
  existsb (String.eqb s) seen = true <-> In s seen.
Proof.
  rewrite existsb_exists. split.
  - intros (x & Hin & E). apply String.eqb_eq in E. now subst.
  - intros H. exists s. split; [exact H | apply String.eqb_refl].
Qed.

(** [mergeItems] keeps the imported items and appends the fresh existing
    ones. *)
Lemma mergeItems_keepFresh (imported existing : list HistoryItem.t) :
  mergeItems imported existing
  = (imported ++ keepFresh (map HistoryItem.id imported) existing)%list.
Proof.
  unfold mergeItems. revert imported.
  induction existing as [|e rest IH]; intros imported; cbn [fold_left keepFresh].
  - now rewrite app_nil_r.
  - rewrite existsb_id.
    destruct (existsb (String.eqb (HistoryItem.id e)) (map HistoryItem.id imported));
      cbn [negb].
    + apply IH.
    + rewrite IH. unfold push. rewrite map_app, <- app_assoc. reflexivity.
Qed.

Lemma keepFresh_sound (seen : list string) (existing : list HistoryItem.t)
  (e : HistoryItem.t) :
  In e (keepFresh seen existing) -> In e existing /\ ~ In (HistoryItem.id e) seen.
Proof.
  revert seen. induction existing as [|x rest IH]; intros seen; cbn [keepFresh];
    [contradiction |].
  destruct (existsb (String.eqb (HistoryItem.id x)) seen) eqn:E.
  - intros H. destruct (IH _ H). split; [now right | assumption].
  - intros [-> | H].
    + split; [now left |]. intros Hin. apply existsb_eqb_In in Hin. congruence.
    + destruct (IH _ H) as [H1 H2]. split; [now right |].
      intros Hin. apply H2, in_or_app. now left.
Qed.

Lemma keepFresh_NoDup (seen : list string) (existing : list HistoryItem.t) :
  NoDup (map HistoryItem.id (keepFresh seen existing)).
Proof.
  revert seen. induction existing as [|x rest IH]; intros seen; cbn [keepFresh];
    [constructor |].
  destruct (existsb (String.eqb (HistoryItem.id x)) seen); [apply IH |].
  cbn [map]. constructor; [| apply IH].
  intros Hin. apply in_map_iff in Hin as (e & Eid & He).
  apply keepFresh_sound in He as [_ He]. apply He, in_or_app. right.
  rewrite Eid. now left.
Qed.

Lemma keepFresh_complete (seen : list string) (existing : list HistoryItem.t)
  (e : HistoryItem.t) :
  In e existing -> ~ In (HistoryItem.id e) seen ->
  exists e', In e' (keepFresh seen existing) /\ HistoryItem.id e' = HistoryItem.id e.
Proof.
  revert seen. induction existing as [|x rest IH]; intros seen; [contradiction |].
  cbn [keepFresh]. intros [-> | Hin] Hfresh.
  - destruct (existsb (String.eqb (HistoryItem.id e)) seen) eqn:E.
    + apply existsb_eqb_In in E. contradiction.
    + exists e. split; [now left | reflexivity].
  - destruct (existsb (String.eqb (HistoryItem.id x)) seen) eqn:E.
    + now apply IH.
    + destruct (String.eqb (HistoryItem.id x) (HistoryItem.id e)) eqn:Ex.
      * apply String.eqb_eq in Ex. exists x. split; [now left | exact Ex].
      * destruct (IH (seen ++ [HistoryItem.id x])%list Hin) as (e' & He' & Eid).
        { intros H. apply in_app_or in H as [H | [H | []]]; [contradiction |].
          apply String.eqb_neq in Ex. congruence. }
        exists e'. split; [now right | exact Eid].
Qed.

Lemma keepFresh_unique_ids (seen : list string) (existing : list HistoryItem.t) :
  NoDup (map HistoryItem.id existing) ->
  keepFresh seen existing
  = filter (fun e => negb (existsb (String.eqb (HistoryItem.id e)) seen)) existing.
Proof.
  revert seen. induction existing as [|x rest IH]; intros seen Hnd; [reflexivity |].
  cbn [map] in Hnd. inversion Hnd as [|? ? Hx Hrest]; subst.
  cbn [keepFresh filter].
  destruct (existsb (String.eqb (HistoryItem.id x)) seen) eqn:E; cbn [negb].
  - now apply IH.
  - f_equal. rewrite (IH _ Hrest). apply filter_ext_in. intros e He. f_equal.
    rewrite existsb_app. cbn [existsb]. rewrite orb_false_r.
    destruct (String.eqb (HistoryItem.id e) (HistoryItem.id x)) eqn:Ex;
      [| now rewrite orb_false_r].
    apply String.eqb_eq in Ex. exfalso. apply Hx. rewrite <- Ex.
    now apply in_map.
Qed.

Lemma mergeAsStated_unique_ids (imported existing : list HistoryItem.t) :
  NoDup (map HistoryItem.id existing) ->
  mergeItems imported existing = mergeAsStated imported existing.
Proof.
  intros H. rewrite mergeItems_keepFresh, (keepFresh_unique_ids _ _ H).
  unfold mergeAsStated. f_equal. apply filter_ext. intros e.
  now rewrite existsb_id.
Qed.

Lemma importHistoryFromJSON_cases (json : ImportPayload) (st : LocalStorage.t) :
  importHistoryFromJSON json st
  = match json with
    | Parsed version (JArray imported) =>
        let schema :=
          StorageSchema.mk STORAGE_VERSION
            (firstn MAX_ITEMS
               (jsSort newestFirst (mergeItems imported (getHistory st)))) in
        if toBoolean version
           && (LocalStorage.available st && LocalStorage.accepts st schema)
        then (true, setEntry st (Document schema))
        else (false, st)
    | _ => (false, st)
    end.
Proof.
  unfold importHistoryFromJSON.
  destruct json as [| |version items]; try reflexivity.
  destruct items; cbn [isArray negb orb]; rewrite ?orb_true_r; cbn [tryCatch];
    try reflexivity.
  destruct (toBoolean version); cbn [negb orb andb]; [| reflexivity].
  apply guarded_write.
Qed.

(** C9.  An import text that is malformed (no version, or items that are
    not a list; also a text that does not parse) is rejected as a whole:
    the import reports failure and the storage is left as it was. *)
Theorem importHistoryFromJSON_malformed (json : ImportPayload)
  (st : LocalStorage.t) :
  malformed json ->
  importHistoryFromJSON json st = (false, st)
  /\ getHistory (snd (importHistoryFromJSON json st)) = getHistory st.
Proof.
  intros H.
  assert (E : importHistoryFromJSON json st = (false, st)).
  { rewrite importHistoryFromJSON_cases.
    destruct json as [| |version items]; try reflexivity.
    destruct H as [-> | H].
    - destruct items; reflexivity.
    - destruct items; try reflexivity. discriminate H. }
  now rewrite E.
Qed.

Lemma importHistoryFromJSON_malformed_witness :
  malformed (Parsed (JNumber 1) JObject)
  /\ importHistoryFromJSON (Parsed (JNumber 1) JObject) twinStorage
     = (false, twinStorage)
  /\ importHistoryFromJSON (Parsed JUndefined (JArray [twin 3 "third"])) twinStorage
     = (false, twinStorage).
Proof.
  split; [right; reflexivity |]. split.
  - apply (importHistoryFromJSON_malformed (Parsed (JNumber 1) JObject) twinStorage).
    right. reflexivity.
  - apply (importHistoryFromJSON_malformed
             (Parsed JUndefined (JArray [twin 3 "third"])) twinStorage).
    left. reflexivity.
Defined.

(* ================================================================== *)
(** ** Update in place *)
(* ================================================================== *)

(** [replaceById] rewrites the position of the item that [find] returns
    and no other. *)
Lemma replaceById_position (id : string) (updated old : HistoryItem.t)
  (items : list HistoryItem.t) :
  find (fun item => HistoryItem.id item =? id) items = Some old ->
  exists k,
    nth_error items k = Some old
    /\ HistoryItem.id old = id
    /\ (forall j item, (j < k)%nat -> nth_error items j = Some item ->
          HistoryItem.id item <> id)
    /\ replaceById id updated items
       = (firstn k items ++ updated :: skipn (S k) items)%list.
Proof.
  induction items as [|x items IH]; [discriminate |].
  cbn [find replaceById].
  destruct (HistoryItem.id x =? id) eqn:E.
  - intros [= <-]. exists 0%nat. apply String.eqb_eq in E.
    repeat split; try assumption. intros j item Hj. lia.
  - intros H. destruct (IH H) as (k & Hk & Hid & Hbefore & Hrep).
    exists (S k). apply String.eqb_neq in E.
    repeat split; try assumption.
    + intros [|j] item Hj; cbn [nth_error].
      * intros [= <-]. exact E.
      * apply Hbefore. lia.
    + cbn [firstn skipn app]. now rewrite Hrep.
Qed.

Lemma replaceById_length (id : string) (updated : HistoryItem.t)
  (items : list HistoryItem.t) :
  length (replaceById id updated items) = length items.
Proof.
  induction items as [|x items IH]; [reflexivity |].
  cbn [replaceById]. destruct (HistoryItem.id x =? id); cbn [length]; congruence.
Qed.

Section UpdateFacts.

Variable QRCodeStyling : Type.
Variable generateThumbnail : QRCodeStyling -> Z -> string.

Local Abbreviation update := (updateHistoryItem QRCodeStyling generateThumbnail).

(** C2.  [updateHistoryItem] loads the schema and returns null, leaving
    the storage as it was, when no item has the id.  Otherwise, when the
    write is accepted, it returns the updated item: the id of the stored
    item, the current time as time stamp, the new data and colours and
    a regenerated thumbnail; the persisted list is the loaded one with
    that item at the position of the old one, every other position and
    the length unchanged. *)
Theorem updateHistoryItem_in_place (id : string) (data : QRData)
  (colors : ColorConfig.t) (qrCode : QRCodeStyling) (now : Z)
  (st : LocalStorage.t) :
  (getHistoryItem id st = None ->
   update id data colors qrCode now st = (None, st))
  /\ (forall old,
        getHistoryItem id st = Some old ->
        LocalStorage.available st = true ->
        (forall schema, LocalStorage.accepts st schema = true) ->
        exists updated k,
          update id data colors qrCode now st
          = (Some updated,
             setEntry st
               (Document
                  (StorageSchema.mk STORAGE_VERSION
                     (firstn k (getHistory st) ++ updated
                      :: skipn (S k) (getHistory st))%list)))
          /\ nth_error (getHistory st) k = Some old
          /\ (forall j item, (j < k)%nat ->
                nth_error (getHistory st) j = Some item ->
                HistoryItem.id item <> id)
          /\ HistoryItem.id updated = id
          /\ HistoryItem.id updated = HistoryItem.id old
          /\ HistoryItem.timestamp updated = now
          /\ HistoryItem.data updated = data
          /\ HistoryItem.colors updated = colors
          /\ HistoryItem.thumbnail updated = generateThumbnail qrCode 100
          /\ length (getHistory
                       (snd (update id data colors qrCode now st)))
             = length (getHistory st)
          /\ nth_error
               (getHistory (snd (update id data colors qrCode now st))) k
             = Some updated).
Proof.
  unfold getHistoryItem, getHistory, updateHistoryItem. split.
  - intros ->. reflexivity.
  - intros old Hfind Ha Hq. rewrite Hfind, guarded_write, Ha, Hq, loadSchema_version.
    cbn [andb].
    set (updated := HistoryItem.mk (HistoryItem.id old) now (HistoryItem.type old)
                      data colors (generateThumbnail qrCode 100)).
    destruct (replaceById_position id updated old _ Hfind)
      as (k & Hk & Hid & Hbefore & Hrep).
    exists updated, k. rewrite Hrep.
    assert (Hlen : (k < length (StorageSchema.items (loadSchema st)))%nat)
      by (apply nth_error_Some; congruence).
    assert (Hload :
      loadSchema
        (setEntry st
           (Document
              (StorageSchema.mk STORAGE_VERSION
                 (firstn k (StorageSchema.items (loadSchema st)) ++ updated
                  :: skipn (S k) (StorageSchema.items (loadSchema st)))%list)))
      = StorageSchema.mk STORAGE_VERSION
          (firstn k (StorageSchema.items (loadSchema st)) ++ updated
           :: skipn (S k) (StorageSchema.items (loadSchema st)))%list)
      by (apply loadSchema_document; [exact Ha | reflexivity]).
    cbn [snd]. rewrite Hload. cbn [StorageSchema.items].
    repeat split; try assumption; try reflexivity.
    + rewrite length_app. cbn [length].
      rewrite length_firstn, length_skipn. lia.
    + rewrite nth_error_app2; rewrite length_firstn;
        replace (Nat.min k (length (StorageSchema.items (loadSchema st))))
          with k by lia; [| lia].
      now rewrite Nat.sub_diag.
Qed.

End UpdateFacts.

Lemma updateHistoryItem_in_place_witness :
  getHistoryItem "1700000000000_k3j2h1a" twinStorage = Some (twin 2 "second")
  /\ getHistoryItem "none" twinStorage = None
  /\ updateHistoryItem unit noThumbnail "none" (TextData "edited") black tt 9
       twinStorage
     = (None, twinStorage)
  /\ exists updated k,
       updateHistoryItem unit noThumbnail "1700000000000_k3j2h1a"
         (TextData "edited") black tt 9 twinStorage
       = (Some updated,
          setEntry twinStorage
            (Document
               (StorageSchema.mk STORAGE_VERSION
                  (firstn k (getHistory twinStorage) ++ updated
                   :: skipn (S k) (getHistory twinStorage))%list)))
       /\ HistoryItem.timestamp updated = 9%Z.
Proof.
  split; [reflexivity |]. split; [reflexivity |]. split.
  - apply (proj1 (updateHistoryItem_in_place unit noThumbnail "none"
                    (TextData "edited") black tt 9 twinStorage)).
    reflexivity.
  - destruct (proj2 (updateHistoryItem_in_place unit noThumbnail
                       "1700000000000_k3j2h1a" (TextData "edited") black tt 9
                       twinStorage)
                (twin 2 "second") eq_refl eq_refl (fun _ => eq_refl))
      as (updated & k & E & _ & _ & _ & _ & Hts & _).
    exists updated, k. split; [exact E | exact Hts].
Defined.

(* ================================================================== *)
(** ** The merge of an import, on every parsed text *)
(* ================================================================== *)

Lemma someSameId_pure (e : Untyped.Json) (merged : list Untyped.Json) (b : bool) :
  Untyped.someSameId e merged = Returned b ->
  b = existsb (fun item => sameId item e) merged.
Proof.
  induction merged as [|item rest IH]; cbn [Untyped.someSameId existsb].
  - now intros [= <-].
  - unfold sameId at 1.
    destruct (Untyped.get "id" item) as [x|]; cbn [bind]; [| discriminate].
    destruct (Untyped.get "id" e) as [y|] eqn:Ee; cbn [bind]; [| discriminate].
    destruct (Untyped.strictEquals x y); cbn [orb]; [now intros [= <-] | exact IH].
Qed.

Lemma mergeItems_thrown (existing : list Untyped.Json) (e : JsError) :
  fold_left
    (fun merged existingItem =>
       mergedItems <- merged ;;
       isDuplicate <- Untyped.someSameId existingItem mergedItems ;;
       Returned (if negb isDuplicate then push mergedItems existingItem
                 else mergedItems))
    existing (Thrown e)
  = Thrown e.
Proof.
  induction existing as [|x xs IH]; [reflexivity | exact IH].
Qed.

(** A merge that does not throw keeps the imported items and appends the
    fresh existing ones. *)
Lemma mergeItems_fresh (imported existing merged : list Untyped.Json) :
  Untyped.mergeItems imported existing = Returned merged ->
  merged = (imported ++ fresh imported existing)%list.
Proof.
  unfold Untyped.mergeItems. revert imported.
  induction existing as [|e rest IH]; intros imported; cbn [fold_left fresh].
  - intros [= <-]. now rewrite app_nil_r.
  - cbn [bind].
    destruct (Untyped.someSameId e imported) as [b|err] eqn:S; cbn [bind].
    + apply someSameId_pure in S. rewrite <- S.
      destruct b; cbn [negb].
      * apply IH.
      * intros H. apply IH in H. unfold push in H. now rewrite <- app_assoc in H.
    + now rewrite mergeItems_thrown.
Qed.

Lemma fresh_sound (merged existing : list Untyped.Json) (e : Untyped.Json) :
  In e (fresh merged existing) ->
  In e existing /\ forall item, In item merged -> sameId item e = false.
Proof.
  revert merged. induction existing as [|x rest IH]; intros merged; cbn [fresh];
    [intros [] |].
  destruct (existsb _ merged) eqn:E.
  - intros H. apply IH in H as [H1 H2]. split; [now right | exact H2].
  - intros [<- | H].
    + split; [now left |]. intros item Hi.
      destruct (sameId item x) eqn:S; [| reflexivity].
      assert (existsb (fun item => sameId item x) merged = true)
        by (apply existsb_exists; now exists item).
      congruence.
    + apply IH in H as [H1 H2]. split; [now right |].
      intros item Hi. apply H2, in_or_app. now left.
Qed.

Lemma fresh_distinct (merged existing : list Untyped.Json) :
  distinctIds (fresh merged existing).
Proof.
  revert merged. induction existing as [|x rest IH]; intros merged; cbn [fresh];
    [exact I |].
  destruct (existsb _ merged); [apply IH |].
  cbn [distinctIds]. split; [| apply IH].
  intros e' He'. apply fresh_sound in He' as [_ H]. apply H, in_or_app.
  right. now left.
Qed.

Lemma fresh_complete (merged existing : list Untyped.Json) (e : Untyped.Json) :
  In e existing ->
  (forall item, In item merged -> sameId item e = false) ->
  In e (fresh merged existing)
  \/ exists e', In e' (fresh merged existing) /\ sameId e' e = true.
Proof.
  revert merged. induction existing as [|x rest IH]; intros merged; [intros [] |].
  cbn [fresh]. intros [-> | Hin] Hm.
  - destruct (existsb _ merged) eqn:E; [| left; now left].
    apply existsb_exists in E as (item & Hi & S). rewrite (Hm item Hi) in S.
    discriminate.
  - destruct (existsb _ merged) eqn:E; [now apply IH |].
    destruct (sameId x e) eqn:S.
    + right. exists x. split; [now left | exact S].
    + destruct (IH (merged ++ [x])%list Hin) as [H | (e' & H1 & H2)].
      * intros item Hi. apply in_app_or in Hi as [Hi | [<- | []]]; auto.
      * left. now right.
      * right. exists e'. split; [now right | exact H2].
Qed.

Lemma fresh_distinct_ids (merged existing : list Untyped.Json) :
  distinctIds existing ->
  fresh merged existing
  = filter (fun e => negb (existsb (fun item => sameId item e) merged)) existing.
Proof.
  revert merged. induction existing as [|x rest IH]; intros merged; [reflexivity |].
  cbn [distinctIds fresh filter]. intros [Hx Hrest].
  destruct (existsb _ merged); cbn [negb]; [now apply IH |].
  f_equal. rewrite (IH _ Hrest). apply filter_ext_in. intros e He.
  rewrite existsb_app. cbn [existsb]. now rewrite (Hx e He), !orb_false_r.
Qed.

(** The insertion of the stable sort keeps a list ordered, for items on
    which the comparator decides the order. *)
Lemma insertSorted_ordered {A : Type} (compare : A -> A -> Z) (R : A -> A -> Prop)
  (known : A -> Prop) (x : A) (xs : list A) :
  (forall a b, known a -> known b -> (compare a b <= 0)%Z -> R a b) ->
  (forall a b, known a -> known b -> ~ (compare a b <= 0)%Z -> R b a) ->
  (forall a b c, R a b -> R b c -> R a c) ->
  known x -> Forall known xs ->
  StronglySorted R xs -> StronglySorted R (insertSorted compare x xs).
Proof.
  intros Hle Hgt Htrans Kx Kxs Hs. induction Hs as [|y ys Hs IH Hy].
  - repeat constructor.
  - inversion Kxs as [|? ? Ky Kys]; subst.
    cbn [insertSorted]. destruct (compare x y <=? 0)%Z eqn:E.
    + apply Z.leb_le in E. apply (Hle x y Kx Ky) in E.
      constructor; [now constructor |].
      constructor; [exact E |].
      rewrite Forall_forall in *. intros z Hz. eapply Htrans; [exact E | auto].
    + assert (Ryx : R y x).
      { apply (Hgt x y Kx Ky). intros C. apply Z.leb_le in C. congruence. }
      constructor; [now apply IH |].
      rewrite Forall_forall in *. intros z Hz.
      apply (Permutation_in _ (Permutation_sym (insertSorted_perm compare x ys))) in Hz.
      destruct Hz as [<- | Hz]; auto.
Qed.

Lemma jsSort_ordered {A : Type} (compare : A -> A -> Z) (R : A -> A -> Prop)
  (known : A -> Prop) (xs : list A) :
  (forall a b, known a -> known b -> (compare a b <= 0)%Z -> R a b) ->
  (forall a b, known a -> known b -> ~ (compare a b <= 0)%Z -> R b a) ->
  (forall a b c, R a b -> R b c -> R a c) ->
  Forall known xs -> StronglySorted R (jsSort compare xs).
Proof.
  intros Hle Hgt Htrans K. induction K as [|x xs Kx Kxs IH]; [constructor |].
  cbn [jsSort fold_right].
  apply (insertSorted_ordered compare R known); auto.
  apply Forall_forall. intros z Hz.
  apply (Permutation_in _ (Permutation_sym (jsSort_perm compare xs))) in Hz.
  rewrite Forall_forall in Kxs. auto.
Qed.

Lemma sgn_numerator (q : Q) : (Z.sgn (Qnum q) <= 0)%Z <-> (q <= 0)%Q.
Proof.
  destruct q as [n d]. unfold Qle. cbn. split; intros H.
  - destruct n; cbn in *; lia.
  - destruct n; cbn in *; lia.
Qed.

Lemma difference_nonpositive (x y : Q) : (y - x <= 0)%Q <-> (y <= x)%Q.
Proof.
  destruct x as [nx dx], y as [ny dy]. unfold Qle, Qminus, Qplus, Qopp. cbn.
  split; intros H; lia.
Qed.

Lemma notOlder_trans (a b c : Untyped.Json) :
  notOlder a b -> notOlder b c -> notOlder a c.
Proof.
  intros (x & y & Ha & Hb & Hxy) (y' & z & Hb' & Hc & Hyz).
  rewrite Hb in Hb'. injection Hb' as <-.
  exists x, z. split; [exact Ha |]. split; [exact Hc |].
  now apply (Qle_trans _ y).
Qed.

Section ImportFacts.

Variable stringToNumber : string -> Untyped.Number.
Variable objectToNumber : Untyped.Json -> Outcome Untyped.Number.
Variable arraySort :
  (Untyped.Json -> Untyped.Json -> Z) -> list Untyped.Json -> list Untyped.Json.

Local Abbreviation compareItems := (Untyped.order stringToNumber objectToNumber).
Local Abbreviation sorting :=
  (Untyped.sortItems stringToNumber objectToNumber arraySort).
Local Abbreviation import :=
  (Untyped.importHistoryFromJSON stringToNumber objectToNumber arraySort).

Lemma order_numeric (a b : Untyped.Json) (x y : Q) :
  Untyped.get "timestamp" a = Returned (Some (Untyped.VNumber x)) ->
  Untyped.get "timestamp" b = Returned (Some (Untyped.VNumber y)) ->
  compareItems a b = Z.sgn (Qnum (y - x)).
Proof.
  intros Ha Hb. unfold Untyped.order, Untyped.newestFirst. now rewrite Ha, Hb.
Qed.

Lemma order_decides (a b : Untyped.Json) :
  numericTimestamp a -> numericTimestamp b ->
  (compareItems a b <= 0)%Z <-> notOlder a b.
Proof.
  intros [x Ha] [y Hb]. rewrite (order_numeric a b x y Ha Hb).
  rewrite sgn_numerator, difference_nonpositive. split.
  - intros H. now exists x, y.
  - intros (x' & y' & Ha' & Hb' & H). rewrite Ha in Ha'. rewrite Hb in Hb'.
    injection Ha' as <-. injection Hb' as <-. exact H.
Qed.

Lemma order_consistent (items : list Untyped.Json) :
  Forall numericTimestamp items -> Untyped.consistent compareItems items.
Proof.
  intros K. rewrite Forall_forall in K. split; [| split].
  - intros a Ha. destruct (K a Ha) as [x Hx].
    rewrite (order_numeric a a x x Hx Hx).
    destruct x as [n d]. unfold Qminus, Qplus, Qopp. cbn.
    replace (n * Z.pos d + - n * Z.pos d)%Z with 0%Z by lia. reflexivity.
  - intros a b Ha Hb. destruct (K a Ha) as [x Hx], (K b Hb) as [y Hy].
    rewrite (order_numeric b a y x Hy Hx), (order_numeric a b x y Hx Hy).
    destruct x as [nx dx], y as [ny dy]. unfold Qminus, Qplus, Qopp. cbn.
    rewrite <- Z.sgn_opp. f_equal. lia.
  - intros a b c Ha Hb Hc.
    rewrite !order_decides by auto. apply notOlder_trans.
Qed.

Lemma readAll_numeric (items : list Untyped.Json) :
  Forall numericTimestamp items ->
  Untyped.readAll stringToNumber objectToNumber items = Returned tt.
Proof.
  induction 1 as [|x xs [q Hx] _ IH]; [reflexivity |].
  cbn [Untyped.readAll]. unfold Untyped.timestampOf. rewrite Hx. exact IH.
Qed.

(** C8, amended.  A successful import had a text that parses to a value
    with a truthy version and an array of items.  Every imported item is
    kept, whatever it is; an existing item is appended unless an item
    before it in the merged list, imported or existing, has its id, so
    that no id is on two appended items, the appended items have no
    imported id, every existing item without an imported id is appended
    or has its id on an appended item, and the merge is the one of the
    specification when no two existing items share an id.  The merged
    list is handed to the sort, cut to [MAX_ITEMS] and written in a
    schema at the current version; what is written is a rearrangement of
    the merged list, and it runs from the newest time stamp down when
    every time stamp of the merged list is a number. *)
Theorem importHistoryFromJSON_merge (text : option Untyped.Json)
  (st st' : Untyped.Storage.t) :
  (forall order items, Permutation items (arraySort order items)) ->
  (forall order items,
      Untyped.consistent order items -> arraySort order items = jsSort order items) ->
  import text st = (true, st') ->
  exists schema version imported sorted,
    text = Some schema
    /\ Untyped.get "version" schema = Returned version
    /\ Untyped.truthyValue version = true
    /\ Untyped.get "items" schema = Returned (Some (Untyped.VArray imported))
    /\ let appended := fresh imported (existingItems st) in
       let merged := (imported ++ appended)%list in
       Untyped.mergeItems imported (existingItems st) = Returned merged
       /\ sorting merged = Returned sorted
       /\ Permutation merged sorted
       /\ st' = Untyped.setEntry st
                  (Untyped.Parses (schemaOf (firstn MAX_ITEMS sorted)))
       /\ (length (firstn MAX_ITEMS sorted) <= MAX_ITEMS)%nat
       /\ (Forall numericTimestamp merged ->
           sorted = jsSort compareItems merged
           /\ StronglySorted notOlder sorted
           /\ StronglySorted notOlder (firstn MAX_ITEMS sorted))
       /\ (forall e, In e appended ->
             In e (existingItems st)
             /\ forall item, In item imported -> sameId item e = false)
       /\ distinctIds appended
       /\ (forall e, In e (existingItems st) ->
             (forall item, In item imported -> sameId item e = false) ->
             In e appended \/ exists e', In e' appended /\ sameId e' e = true)
       /\ (distinctIds (existingItems st) ->
           merged = mergeAsSpecified imported (existingItems st)).
Proof.
  intros Hperm Hstable. unfold Untyped.importHistoryFromJSON.
  destruct text as [schema|]; [| discriminate]. cbn [tryCatch].
  destruct (Untyped.get "version" schema) as [version|] eqn:Ev; cbn [bind tryCatch];
    [| discriminate].
  destruct (Untyped.truthyValue version) eqn:Tv; cbn [negb bind];
    [| discriminate].
  destruct (Untyped.get "items" schema) as [items|] eqn:Ei; cbn [bind tryCatch];
    [| discriminate].
  destruct (Untyped.isArray items) eqn:Ai; cbn [negb bind]; [| discriminate].
  destruct items as [[| | | |imported|]|]; try discriminate. clear Ai.
  unfold existingItems.
  destruct (Untyped.get "items" (Untyped.loadSchema st)) as [[[| | | |existing|]|]|];
    cbn [bind tryCatch]; try discriminate.
  destruct (Untyped.mergeItems imported existing) as [merged|] eqn:Em;
    cbn [bind tryCatch]; [| discriminate].
  pose proof (mergeItems_fresh _ _ _ Em) as ->.
  destruct (sorting (imported ++ fresh imported existing)%list) as [sorted|] eqn:Es;
    cbn [bind tryCatch]; [| discriminate].
  destruct (Untyped.saveSchema _ st) as [saved|] eqn:Ew; cbn [bind tryCatch];
    [| discriminate].
  intros [= <-].
  assert (Sorted_by : sorted = (imported ++ fresh imported existing)%list
                      \/ sorted = arraySort compareItems
                                    (imported ++ fresh imported existing)%list).
  { unfold Untyped.sortItems in Es.
    destruct (imported ++ fresh imported existing)%list as [|a [|b rest]];
      [left; now injection Es | left; now injection Es |].
    destruct (Untyped.readAll _ _ _); cbn [bind] in Es; [| discriminate].
    right. now injection Es. }
  exists schema, version, imported, sorted.
  split; [reflexivity |]. split; [exact Ev |]. split; [exact Tv |].
  split; [exact Ei |]. cbv zeta.
  split; [exact Em |]. split; [exact Es |]. split.
  { destruct Sorted_by as [-> | ->]; [apply Permutation_refl | apply Hperm]. }
  split.
  { unfold Untyped.saveSchema in Ew.
    destruct (negb (Untyped.isStorageAvailable st)); [discriminate |].
    destruct (Untyped.Storage.accepts st _); [| discriminate].
    now injection Ew as <-. }
  split; [apply firstn_le_length |]. split.
  { intros K.
    assert (E : sorted = jsSort compareItems (imported ++ fresh imported existing)%list).
    { unfold Untyped.sortItems in Es.
      destruct (imported ++ fresh imported existing)%list as [|a [|b rest]] eqn:L;
        [now injection Es as <- | now injection Es as <- |].
      rewrite (readAll_numeric _ K) in Es. cbn [bind] in Es. injection Es as <-.
      apply Hstable. now apply order_consistent. }
    assert (S : StronglySorted notOlder sorted).
    { rewrite E. apply (jsSort_ordered compareItems notOlder numericTimestamp).
      - intros a b Ka Kb. now apply order_decides.
      - intros a b Ka Kb N.
        assert (T : (compareItems b a <= 0)%Z).
        { destruct (order_consistent _ K) as (_ & _ & _).
          destruct Ka as [x Hx], Kb as [y Hy].
          rewrite (order_numeric a b x y Hx Hy) in N.
          rewrite (order_numeric b a y x Hy Hx).
          rewrite sgn_numerator, difference_nonpositive in *.
          apply Qlt_le_weak, Qnot_le_lt, N. }
        now apply order_decides.
      - apply notOlder_trans.
      - exact K. }
    split; [exact E |]. split; [exact S |].
    clear - S. revert S. generalize MAX_ITEMS. intros n. revert sorted.
    induction n as [|n IH]; intros sorted S; [constructor |].
    destruct S as [|x xs S Hx]; [constructor |]. cbn [firstn].
    constructor; [now apply IH |].
    rewrite Forall_forall in *. intros z Hz. apply Hx.
    now apply (firstn_incl n xs). }
  split; [intros e; apply fresh_sound |].
  split; [apply fresh_distinct |].
  split; [intros e; apply fresh_complete |].
  intros D. unfold mergeAsSpecified. f_equal. now apply fresh_distinct_ids.
Qed.

End ImportFacts.

(** C8, as stated, fails in two ways.  An import of two items with one id
    leaves both in the store; the next import, here of an empty list,
    drops the second of them although its id is on no imported item.
    And an import of two items whose time stamps are date texts
    succeeds and writes them in the order of the text, the older one
    first: the comparator yields NaN on every pair, and the (stable) sort
    moves nothing. *)
Lemma importHistoryFromJSON_not_as_specified :
  Untyped.importHistoryFromJSON notNumeric objectNotNumeric stableSort
    (backup (rev twins)) freshStorage
  = (true, storageHolding twins)
  /\ existingItems (storageHolding twins) = twins
  /\ mergeAsSpecified [] twins = twins
  /\ Untyped.importHistoryFromJSON notNumeric objectNotNumeric stableSort
       (backup []) (storageHolding twins)
     = (true, storageHolding [stampedItem 2 "1700000000000_k3j2h1a" "second"])
  /\ Untyped.importHistoryFromJSON notNumeric objectNotNumeric stableSort
       (backup datedItems) freshStorage
     = (true, storageHolding datedItems)
  /\ ~ StronglySorted notOlder datedItems.
Proof.
  split; [vm_compute; reflexivity |].
  split; [reflexivity |].
  split; [reflexivity |].
  split; [vm_compute; reflexivity |].
  split; [vm_compute; reflexivity |].
  intros S. inversion S as [|a rest _ H]; subst.
  inversion H as [|b rest' (x & y & Ha & _) _]; subst.
  discriminate Ha.
Qed.

Lemma importHistoryFromJSON_merge_witness :
  (forall order items, Permutation items (stableSort order items))
  /\ (forall order items,
         Untyped.consistent order items -> stableSort order items = jsSort order items)
  /\ Untyped.importHistoryFromJSON notNumeric objectNotNumeric stableSort
       (backup backupItems) (storageHolding storeItems)
     = (true,
        storageHolding
          [ stampedItem 9 "1700000000002_bbbbbbb" "imported, newer";
            stampedItem 5 "1700000000005_ccccccc" "existing";
            stampedItem 3 "1700000000003_aaaaaaa" "imported" ])
  /\ exists sorted,
       Untyped.sortItems notNumeric objectNotNumeric stableSort
         (backupItems ++ fresh backupItems (existingItems (storageHolding storeItems)))
       = Returned sorted
       /\ length sorted = 3%nat
       /\ StronglySorted notOlder sorted.
Proof.
  assert (P : forall order items, Permutation items (stableSort order items))
    by (intros order items; apply jsSort_perm).
  assert (S : forall order items,
             Untyped.consistent order items ->
             stableSort order items = jsSort order items)
    by reflexivity.
  assert (E : Untyped.importHistoryFromJSON notNumeric objectNotNumeric stableSort
                (backup backupItems) (storageHolding storeItems)
              = (true,
                 storageHolding
                   [ stampedItem 9 "1700000000002_bbbbbbb" "imported, newer";
                     stampedItem 5 "1700000000005_ccccccc" "existing";
                     stampedItem 3 "1700000000003_aaaaaaa" "imported" ]))
    by (vm_compute; reflexivity).
  split; [exact P |]. split; [exact S |]. split; [exact E |].
  destruct (importHistoryFromJSON_merge notNumeric objectNotNumeric stableSort
              _ _ _ P S E)
    as (schema & version & imported & sorted & Et & _ & _ & Ei & _ & Es & Hp & _ & _
        & Hs & _).
  injection Et as <-. injection Ei as <-.
  exists sorted. split; [exact Es |]. split.
  - rewrite <- (Permutation_length Hp). reflexivity.
  - apply Hs. repeat constructor; eexists; reflexivity.
Defined.

(* ================================================================== *)
(** ** The typed import is the import of a typed text *)
(* ================================================================== *)

Lemma jsSort_map {A B : Type} (f : A -> B) (compare : A -> A -> Z)
  (compare' : B -> B -> Z) (xs : list A) :
  (forall a b, (compare' (f a) (f b) <=? 0)%Z = (compare a b <=? 0)%Z) ->
  jsSort compare' (map f xs) = map f (jsSort compare xs).
Proof.
  intros H. induction xs as [|x xs IH]; [reflexivity |].
  cbn [map jsSort fold_right]. fold (jsSort compare' (map f xs)).
  fold (jsSort compare xs). rewrite IH. clear IH.
  induction (jsSort compare xs) as [|y ys IH]; [reflexivity |].
  cbn [map insertSorted]. rewrite H. destruct (compare x y <=? 0)%Z; [reflexivity |].
  cbn [map]. now rewrite IH.
Qed.

Lemma Qeq_bool_inject_Z (a b : Z) : Qeq_bool (inject_Z a) (inject_Z b) = (a =? b)%Z.
Proof.
  unfold Qeq_bool, inject_Z. cbn [Qnum Qden]. now rewrite !Z.mul_1_r.
Qed.

Section Restriction.

Variable dataJson : QRData -> Untyped.Json.
Variable colorsJson : ColorConfig.t -> Untyped.Json.
Variable stringToNumber : string -> Untyped.Number.
Variable objectToNumber : Untyped.Json -> Outcome Untyped.Number.
Variable arraySort :
  (Untyped.Json -> Untyped.Json -> Z) -> list Untyped.Json -> list Untyped.Json.

Local Abbreviation parsed := (itemJson dataJson colorsJson).
Local Abbreviation parsedSchema := (schemaJson dataJson colorsJson).
Local Abbreviation holds := (reads dataJson colorsJson).

Lemma itemJson_numeric (item : HistoryItem.t) : numericTimestamp (parsed item).
Proof.
  now exists (inject_Z (HistoryItem.timestamp item)).
Qed.

Lemma schemaJson_members (schema : StorageSchema.t) :
  Untyped.get "version" (parsedSchema schema)
  = Returned (Some (Untyped.VNumber (inject_Z (StorageSchema.version schema))))
  /\ Untyped.get "items" (parsedSchema schema)
     = Returned (Some (Untyped.VArray (map parsed (StorageSchema.items schema)))).
Proof.
  split; reflexivity.
Qed.

Lemma loadSchema_typed (u : Untyped.Storage.t) (st : LocalStorage.t) :
  holds u st -> Untyped.loadSchema u = parsedSchema (loadSchema st).
Proof.
  intros (A & E & _). unfold Untyped.loadSchema, loadSchema,
    Untyped.isStorageAvailable, isStorageAvailable.
  rewrite A, E. destruct (LocalStorage.available st); cbn [negb]; [| reflexivity].
  destruct (LocalStorage.entry st) as [| |schema]; cbn [entryJson tryCatch];
    try reflexivity.
  rewrite (proj1 (schemaJson_members schema)). cbn [bind Untyped.strictEquals].
  rewrite Qeq_bool_inject_Z.
  now destruct (StorageSchema.version schema =? STORAGE_VERSION)%Z.
Qed.

Lemma someSameId_typed (e : HistoryItem.t) (merged : list HistoryItem.t) :
  Untyped.someSameId (parsed e) (map parsed merged)
  = Returned (existsb (fun item => HistoryItem.id item =? HistoryItem.id e) merged).
Proof.
  induction merged as [|item rest IH]; [reflexivity |].
  cbn [map Untyped.someSameId existsb].
  change (Untyped.get "id" (parsed item))
    with (Returned (A := option Untyped.Json)
            (Some (Untyped.VString (HistoryItem.id item)))).
  change (Untyped.get "id" (parsed e))
    with (Returned (A := option Untyped.Json)
            (Some (Untyped.VString (HistoryItem.id e)))).
  cbn [bind Untyped.strictEquals].
  destruct (HistoryItem.id item =? HistoryItem.id e); [reflexivity | exact IH].
Qed.

Lemma mergeItems_typed (imported existing : list HistoryItem.t) :
  Untyped.mergeItems (map parsed imported) (map parsed existing)
  = Returned (map parsed (mergeItems imported existing)).
Proof.
  unfold Untyped.mergeItems, mergeItems. revert imported.
  induction existing as [|e rest IH]; intros imported; [reflexivity |].
  cbn [map fold_left bind]. rewrite someSameId_typed. cbn [bind].
  destruct (existsb _ imported); cbn [negb]; [apply IH |].
  unfold push.
  replace (map parsed imported ++ [parsed e])%list
    with (map parsed (imported ++ [e])%list) by now rewrite map_app.
  apply IH.
Qed.

Lemma order_typed (a b : HistoryItem.t) :
  (Untyped.order stringToNumber objectToNumber (parsed a) (parsed b) <=? 0)%Z
  = (newestFirst a b <=? 0)%Z.
Proof.
  rewrite (order_numeric stringToNumber objectToNumber (parsed a) (parsed b)
             (inject_Z (HistoryItem.timestamp a))
             (inject_Z (HistoryItem.timestamp b)) eq_refl eq_refl).
  unfold newestFirst, Qminus, Qplus, Qopp, inject_Z. cbn [Qnum Qden].
  destruct (Z.leb_spec (HistoryItem.timestamp b - HistoryItem.timestamp a) 0) as [L | L].
  - apply Z.leb_le. apply Z.sgn_nonpos. lia.
  - apply Z.leb_gt.
    rewrite (Z.sgn_pos (HistoryItem.timestamp b * 1 + - HistoryItem.timestamp a * 1))
      by lia.
    lia.
Qed.

Lemma sortItems_typed (items : list HistoryItem.t) :
  (forall order elements,
      Untyped.consistent order elements ->
      arraySort order elements = jsSort order elements) ->
  Untyped.sortItems stringToNumber objectToNumber arraySort (map parsed items)
  = Returned (map parsed (jsSort newestFirst items)).
Proof.
  intros Hstable.
  assert (K : Forall numericTimestamp (map parsed items)).
  { apply Forall_forall. intros x Hx. apply in_map_iff in Hx as (i & <- & _).
    apply itemJson_numeric. }
  unfold Untyped.sortItems.
  destruct items as [|a [|b rest]]; [reflexivity | reflexivity |].
  cbn [map] in *. rewrite (readAll_numeric _ _ _ K). cbn [bind].
  rewrite Hstable by now apply order_consistent.
  f_equal. apply (jsSort_map parsed newestFirst _ (a :: b :: rest)), order_typed.
Qed.

(** On a text and a storage that follow the types, the import on parsed
    values does what the typed import does: it reports the same, and it
    leaves the storage that the typed storage stands for. *)
Lemma importHistoryFromJSON_typed (json : ImportPayload)
  (u : Untyped.Storage.t) (st : LocalStorage.t) :
  (forall order elements,
      Untyped.consistent order elements ->
      arraySort order elements = jsSort order elements) ->
  holds u st ->
  fst (Untyped.importHistoryFromJSON stringToNumber objectToNumber arraySort
         (payloadJson dataJson colorsJson json) u)
  = fst (importHistoryFromJSON json st)
  /\ holds
       (snd (Untyped.importHistoryFromJSON stringToNumber objectToNumber arraySort
               (payloadJson dataJson colorsJson json) u))
       (snd (importHistoryFromJSON json st)).
Proof.
  intros Hstable H. pose proof H as (A & E & Q).
  rewrite importHistoryFromJSON_cases. unfold Untyped.importHistoryFromJSON.
  destruct json as [| |version items]; cbn [payloadJson tryCatch fst snd];
    [now split | now split |].
  assert (Gv : Untyped.get "version"
                 (Untyped.VObject
                    (memberJson dataJson colorsJson "version" version
                     ++ memberJson dataJson colorsJson "items" items))
               = Returned (valueJson dataJson colorsJson version)).
  { unfold memberJson.
    destruct (valueJson dataJson colorsJson version),
      (valueJson dataJson colorsJson items); reflexivity. }
  assert (Gi : Untyped.get "items"
                 (Untyped.VObject
                    (memberJson dataJson colorsJson "version" version
                     ++ memberJson dataJson colorsJson "items" items))
               = Returned (valueJson dataJson colorsJson items)).
  { unfold memberJson.
    destruct (valueJson dataJson colorsJson version),
      (valueJson dataJson colorsJson items); reflexivity. }
  rewrite Gv. cbn [bind].
  assert (Tv : Untyped.truthyValue (valueJson dataJson colorsJson version)
               = toBoolean version) by now destruct version.
  rewrite Tv. destruct (toBoolean version); cbn [negb bind andb tryCatch];
    [| destruct items; now split].
  rewrite Gi. cbn [bind].
  destruct items as [| | | | | |imported]; cbn [valueJson Untyped.isArray negb
    tryCatch fst snd]; try (now split).
  cbn [bind]. rewrite (loadSchema_typed u st H).
  rewrite (proj2 (schemaJson_members (loadSchema st))). cbn [bind].
  rewrite mergeItems_typed. cbn [bind]. rewrite (sortItems_typed _ Hstable).
  cbn [bind]. rewrite firstn_map. unfold getHistory.
  change (Untyped.VObject
            [("version", Untyped.VNumber (inject_Z STORAGE_VERSION));
             ("items",
              Untyped.VArray
                (map parsed
                   (firstn MAX_ITEMS
                      (jsSort newestFirst
                         (mergeItems imported
                            (StorageSchema.items (loadSchema st)))))))])
    with (parsedSchema
            (StorageSchema.mk STORAGE_VERSION
               (firstn MAX_ITEMS
                  (jsSort newestFirst
                     (mergeItems imported (StorageSchema.items (loadSchema st))))))).
  unfold Untyped.saveSchema, Untyped.isStorageAvailable. rewrite A, Q.
  destruct (LocalStorage.available st) eqn:Av; cbn [negb andb tryCatch fst snd];
    [| now split].
  destruct (LocalStorage.accepts st _); cbn [bind tryCatch fst snd];
    [| now split].
  split; [reflexivity |]. unfold reads.
  cbn [setEntry Untyped.setEntry Untyped.Storage.available Untyped.Storage.entry
       Untyped.Storage.accepts LocalStorage.available LocalStorage.entry
       LocalStorage.accepts entryJson].
  split; [congruence |]. split; [reflexivity | exact Q].
Qed.

End Restriction.

(* ================================================================== *)
(** ** Further properties of the encoders *)
(* ================================================================== *)

Lemma unescapeVCard_escape (v : string) :
  unescapeVCardValue (escapeVCardValue v) = v.
Proof.
  induction v as [|a v IH]; [reflexivity |].
  rewrite escapeVCardValue_cons. unfold escapeVCardChar.
  destruct (Ascii.eqb a backslash) eqn:E1;
    [apply Ascii.eqb_eq in E1; subst a; cbn; now rewrite IH |].
  destruct (Ascii.eqb a ",") eqn:E2;
    [apply Ascii.eqb_eq in E2; subst a; cbn; now rewrite IH |].
  destruct (Ascii.eqb a ";") eqn:E3;
    [apply Ascii.eqb_eq in E3; subst a; cbn; now rewrite IH |].
  destruct (Ascii.eqb a LF) eqn:E4;
    [apply Ascii.eqb_eq in E4; subst a; cbn; now rewrite IH |].
  cbn [append unescapeVCardValue]. now rewrite E1, IH.
Qed.

(** X1.  [escapeVCardValue] loses nothing: two values with the same
    escaped text are the same value. *)
Theorem escapeVCardValue_injective (v w : string) :
  escapeVCardValue v = escapeVCardValue w -> v = w.
Proof.
  intros H. apply (f_equal unescapeVCardValue) in H.
  now rewrite !unescapeVCard_escape in H.
Qed.

Lemma escapeVCardValue_injective_witness :
  escapeVCardValue "a;b" = escapeVCardValue "a;b" /\ "a;b" = "a;b".
Proof.
  split; [reflexivity |].
  apply (escapeVCardValue_injective "a;b" "a;b"). reflexivity.
Defined.

Lemma contains_splitLines (s : string) :
  contains LF s = false -> splitLines s = [s].
Proof.
  induction s as [|a s IH]; [reflexivity |].
  cbn [contains]. intros H. apply orb_false_iff in H as [Ha Hs].
  specialize (IH Hs).
  destruct s as [|b s']; [reflexivity |].
  change (splitLines (String a (String b s')))
    with (if Ascii.eqb a CR && Ascii.eqb b LF then "" :: splitLines s'
          else match splitLines (String b s') with
               | [] => [String a ""]
               | p :: ps => String a p :: ps
               end).
  cbn [contains] in Hs. apply orb_false_iff in Hs as [Hb _].
  rewrite Hb, andb_false_r. now rewrite IH.
Qed.

Lemma escapeVCardValue_no_LF (v : string) :
  contains LF (escapeVCardValue v) = false.
Proof.
  induction v as [|a v IH]; [reflexivity |].
  rewrite escapeVCardValue_cons. unfold escapeVCardChar.
  destruct (Ascii.eqb a backslash) eqn:E1; [exact IH |].
  destruct (Ascii.eqb a ",") eqn:E2; [exact IH |].
  destruct (Ascii.eqb a ";") eqn:E3; [exact IH |].
  destruct (Ascii.eqb a LF) eqn:E4; [exact IH |].
  cbn [append contains]. now rewrite E4.
Qed.

(** X2.  In an escaped vCard value no comma, semicolon or line feed
    stands bare: every backslash is followed by a backslash, a comma, a
    semicolon or [n], every comma and semicolon follows a backslash that
    escapes it, and the text has no line feed at all, so that it stays
    on its line when the card is cut at every CR LF. *)
Theorem escapeVCardValue_no_bare_separator (v : string) :
  escapedText isVCardRaw isVCardEscape (escapeVCardValue v) = true
  /\ contains LF (escapeVCardValue v) = false
  /\ splitLines (escapeVCardValue v) = [escapeVCardValue v].
Proof.
  split; [| split; [apply escapeVCardValue_no_LF
                   | apply contains_splitLines, escapeVCardValue_no_LF]].
  induction v as [|a v IH]; [reflexivity |].
  rewrite escapeVCardValue_cons. unfold escapeVCardChar.
  destruct (Ascii.eqb a backslash) eqn:E1; [exact IH |].
  destruct (Ascii.eqb a ",") eqn:E2; [exact IH |].
  destruct (Ascii.eqb a ";") eqn:E3; [exact IH |].
  destruct (Ascii.eqb a LF) eqn:E4; [exact IH |].
  cbn [append escapedText]. unfold isVCardRaw. now rewrite E1, E2, E3, E4.
Qed.

Lemma token_nonempty (f : string * string) : token f <> "".
Proof.
  unfold token. destruct (fst f); discriminate.
Qed.

Lemma escapeMeCardValue_injective (v w : string) :
  escapeMeCardValue v = escapeMeCardValue w -> v = w.
Proof.
  intros H. apply (f_equal unescapeMeCardValue) in H.
  now rewrite !unescape_escape in H.
Qed.

Lemma token_injective (f g : string * string) :
  In (fst f) meCardKeys -> In (fst g) meCardKeys ->
  token f = token g -> f = g.
Proof.
  destruct f as [k v], g as [k' v']. unfold token, meCardKeys. cbn [fst snd In].
  intros Hk Hk' H.
  repeat (destruct Hk as [<- | Hk]; [| ]); try contradiction;
    repeat (destruct Hk' as [<- | Hk']; [| ]); try contradiction;
    cbn in H; try discriminate;
    injection H as H; apply escapeMeCardValue_injective in H; now subst.
Qed.

Lemma map_token_injective (fs gs : list (string * string)) :
  Forall (fun f => In (fst f) meCardKeys) fs ->
  Forall (fun g => In (fst g) meCardKeys) gs ->
  map token fs = map token gs -> fs = gs.
Proof.
  intros Hf. revert gs. induction Hf as [|f fs Hk _ IH]; intros gs Hg H.
  - destruct gs; [reflexivity | discriminate].
  - destruct Hg as [|g gs Hk' Hg]; [discriminate |].
    cbn [map] in H. injection H as H1 H2.
    f_equal; [now apply token_injective | now apply IH].
Qed.

Lemma join_tokens_injective (d1 d2 : MeCardData.t) :
  join ";" (map token (presentFields d1)) = join ";" (map token (presentFields d2)) ->
  presentFields d1 = presentFields d2.
Proof.
  intros H. apply (f_equal (splitUnescaped ";")) in H.
  rewrite !splitUnescaped_join in H;
    try (apply Forall_forall; intros t Ht; apply in_map_iff in Ht as [f [<- Hf]];
         eapply token_semicolonsEscaped; eassumption).
  apply map_token_injective;
    try (apply Forall_forall; intros f Hf; eapply presentFields_keys; eassumption).
  destruct (presentFields d1) as [|f fs], (presentFields d2) as [|g gs];
    cbn [map] in *; try reflexivity; try exact H.
  - injection H as H _. symmetry in H. now apply token_nonempty in H.
  - injection H as H _. now apply token_nonempty in H.
Qed.

Lemma fieldOf_presentFields (data : MeCardData.t) :
  let present (v : option string) :=
    if truthyOpt v then Some (orEmpty v) else None in
  fieldOf "N" (presentFields data) = present (Some (MeCardData.name data))
  /\ fieldOf "TEL" (presentFields data) = present (MeCardData.phone data)
  /\ fieldOf "EMAIL" (presentFields data) = present (MeCardData.email data)
  /\ fieldOf "URL" (presentFields data) = present (MeCardData.url data)
  /\ fieldOf "ADR" (presentFields data) = present (MeCardData.address data)
  /\ fieldOf "NOTE" (presentFields data) = present (MeCardData.note data).
Proof.
  destruct data as [n p e u a o].
  destruct n, p as [[|]|], e as [[|]|], u as [[|]|], a as [[|]|], o as [[|]|];
    cbn; repeat split; reflexivity.
Qed.

Lemma present_injective (v w : option string) :
  v <> Some "" -> w <> Some "" ->
  (if truthyOpt v then Some (orEmpty v) else None)
  = (if truthyOpt w then Some (orEmpty w) else None) ->
  v = w.
Proof.
  destruct v as [[|]|], w as [[|]|]; cbn; intros Hv Hw H;
    try congruence; try discriminate.
Qed.

Lemma encodeMeCard_normalized_injective (d1 d2 : MeCardData.t) :
  normalized d1 -> normalized d2 ->
  encodeMeCard d1 = encodeMeCard d2 -> d1 = d2.
Proof.
  intros (P1 & E1 & U1 & A1 & O1) (P2 & E2 & U2 & A2 & O2) H.
  rewrite !encodeMeCard_tokens in H.
  apply (f_equal (stripPrefix "MECARD:")) in H.
  rewrite !stripPrefix_app in H. injection H as H.
  apply (f_equal (stripSuffix ";;")) in H.
  rewrite !stripSuffix_app in H. injection H as H.
  apply join_tokens_injective in H.
  destruct (fieldOf_presentFields d1) as (N1 & T1 & M1 & R1 & D1 & G1).
  destruct (fieldOf_presentFields d2) as (N2 & T2 & M2 & R2 & D2 & G2).
  rewrite H in N1, T1, M1, R1, D1, G1.
  rewrite N2 in N1. rewrite T2 in T1. rewrite M2 in M1.
  rewrite R2 in R1. rewrite D2 in D1. rewrite G2 in G1.
  destruct d1 as [n1 p1 e1 u1 a1 o1], d2 as [n2 p2 e2 u2 a2 o2].
  cbn [MeCardData.name MeCardData.phone MeCardData.email MeCardData.url
       MeCardData.address MeCardData.note] in *.
  f_equal; try (symmetry; now apply present_injective).
  destruct n1, n2; cbn in N1; congruence.
Qed.

Lemma dropEmptyFields_normalized (data : MeCardData.t) :
  normalized (dropEmptyFields data).
Proof.
  destruct data as [n p e u a o]. unfold normalized, dropEmptyFields, dropEmpty.
  cbn [MeCardData.name MeCardData.phone MeCardData.email MeCardData.url
       MeCardData.address MeCardData.note].
  destruct p as [[|]|], e as [[|]|], u as [[|]|], a as [[|]|], o as [[|]|];
    cbn; repeat split; discriminate.
Qed.

Lemma encodeMeCard_dropEmptyFields (data : MeCardData.t) :
  encodeMeCard (dropEmptyFields data) = encodeMeCard data.
Proof.
  destruct data as [n p e u a o]. unfold encodeMeCard, dropEmptyFields, dropEmpty.
  cbn [MeCardData.name MeCardData.phone MeCardData.email MeCardData.url
       MeCardData.address MeCardData.note].
  destruct p as [[|]|], e as [[|]|], u as [[|]|], a as [[|]|], o as [[|]|];
    reflexivity.
Qed.

(** X3.  [encodeMeCard] loses nothing but the difference between an
    optional field that is empty and one that is absent: two records are
    encoded to the same text exactly when they agree once every empty
    optional field is dropped. *)
Theorem encodeMeCard_same_text (d1 d2 : MeCardData.t) :
  encodeMeCard d1 = encodeMeCard d2 <-> dropEmptyFields d1 = dropEmptyFields d2.
Proof.
  split; intros H.
  - apply encodeMeCard_normalized_injective;
      try apply dropEmptyFields_normalized.
    now rewrite !encodeMeCard_dropEmptyFields.
  - rewrite <- (encodeMeCard_dropEmptyFields d1), <- (encodeMeCard_dropEmptyFields d2).
    now rewrite H.
Qed.

Lemma encodeMeCard_same_text_witness :
  encodeMeCard (MeCardData.mk "A" (Some "") None None None None)
  = encodeMeCard (MeCardData.mk "A" None None None None None).
Proof.
  apply (proj2 (encodeMeCard_same_text
                  (MeCardData.mk "A" (Some "") None None None None)
                  (MeCardData.mk "A" None None None None None))).
  reflexivity.
Defined.

(* ================================================================== *)
(** ** Further properties of the generator and the validator *)
(* ================================================================== *)

Lemma spanNoSemicolon_app (subtype tail : string) :
  contains ";" subtype = false ->
  spanNoSemicolon (subtype ++ String ";" tail) = (subtype, String ";" tail).
Proof.
  induction subtype as [|a s IH]; [reflexivity |].
  cbn [contains]. intros H. apply orb_false_iff in H as [Ha Hs].
  cbn [append spanNoSemicolon]. rewrite Ha. now rewrite (IH Hs).
Qed.

Lemma spanNoSemicolon_split (s : string) :
  s = fst (spanNoSemicolon s) ++ snd (spanNoSemicolon s).
Proof.
  induction s as [|a s IH]; [reflexivity |].
  cbn [spanNoSemicolon]. destruct (Ascii.eqb a ";"); [reflexivity |].
  destruct (spanNoSemicolon s) as [run tail]. cbn [fst snd append] in *.
  now rewrite <- IH.
Qed.

Lemma stripPrefix_split (p s rest : string) :
  stripPrefix p s = Some rest -> s = p ++ rest.
Proof.
  revert s. induction p as [|a p IH]; intros s H.
  - cbn in H. now injection H as ->.
  - destruct s as [|b s]; [discriminate |]. cbn [stripPrefix] in H.
    destruct (Ascii.eqb a b) eqn:E; [| discriminate].
    apply Ascii.eqb_eq in E. subst b. cbn [append]. f_equal. now apply IH.
Qed.

Lemma spanNoSemicolon_run (s : string) :
  contains ";" (fst (spanNoSemicolon s)) = false.
Proof.
  induction s as [|a s IH]; [reflexivity |].
  cbn [spanNoSemicolon]. destruct (Ascii.eqb a ";") eqn:E; [reflexivity |].
  destruct (spanNoSemicolon s) as [run tail]. cbn [fst contains] in *.
  now rewrite E, IH.
Qed.

(** X4.  [stripDataUrlPrefix] removes exactly a leading
    [data:image/<subtype>;base64,] with a subtype that is not empty and
    holds no semicolon: a text of that form is cut down to what follows
    the prefix, every other text is kept as it is (in particular a text
    that does not start with [data:image/], and one whose subtype is
    empty), and what is kept is always the end of the text. *)
Theorem stripDataUrlPrefix_spec :
  (forall subtype payload : string,
      truthy subtype = true -> contains ";" subtype = false ->
      stripDataUrlPrefix ("data:image/" ++ subtype ++ ";base64," ++ payload)
      = payload)
  /\ (forall s : string,
         (forall subtype payload : string,
             truthy subtype = true -> contains ";" subtype = false ->
             s <> "data:image/" ++ subtype ++ ";base64," ++ payload) ->
         stripDataUrlPrefix s = s)
  /\ (forall s : string,
         startsWith "data:image/" s = false -> stripDataUrlPrefix s = s)
  /\ (forall s : string, exists removed, s = removed ++ stripDataUrlPrefix s).
Proof.
  split; [| split; [| split]].
  - intros subtype payload Hs Hc. unfold stripDataUrlPrefix.
    rewrite stripPrefix_app.
    change (";base64," ++ payload) with (String ";" ("base64," ++ payload)).
    rewrite (spanNoSemicolon_app _ _ Hc). rewrite Hs.
    change (String ";" ("base64," ++ payload)) with (";base64," ++ payload).
    now rewrite stripPrefix_app.
  - intros s H. unfold stripDataUrlPrefix.
    destruct (stripPrefix "data:image/" s) as [rest|] eqn:E; [| reflexivity].
    pose proof (spanNoSemicolon_split rest) as Hrest.
    pose proof (spanNoSemicolon_run rest) as Hrun.
    destruct (spanNoSemicolon rest) as [subtype tail]. cbn [fst snd] in Hrest, Hrun.
    destruct (truthy subtype) eqn:T; [| reflexivity].
    destruct (stripPrefix ";base64," tail) as [payload|] eqn:E'; [| reflexivity].
    apply stripPrefix_split in E, E'. subst s rest tail.
    now destruct (H subtype payload T Hrun).
  - intros s H. unfold stripDataUrlPrefix, startsWith in *.
    destruct (stripPrefix "data:image/" s); [discriminate | reflexivity].
  - intros s. unfold stripDataUrlPrefix.
    destruct (stripPrefix "data:image/" s) as [rest|] eqn:E;
      [| now exists ""].
    pose proof (spanNoSemicolon_split rest) as Hrest.
    destruct (spanNoSemicolon rest) as [subtype tail]. cbn [fst snd] in Hrest.
    destruct (truthy subtype); [| now exists ""].
    destruct (stripPrefix ";base64," tail) as [payload|] eqn:E';
      [| now exists ""].
    apply stripPrefix_split in E, E'. subst s rest tail.
    exists ("data:image/" ++ subtype ++ ";base64,").
    now rewrite !append_assoc.
Qed.

Lemma stripDataUrlPrefix_spec_witness :
  stripDataUrlPrefix ("data:image/" ++ "png" ++ ";base64," ++ "AAAA") = "AAAA"
  /\ stripDataUrlPrefix "data:image/;base64,AAAA" = "data:image/;base64,AAAA".
Proof.
  split; [apply (proj1 stripDataUrlPrefix_spec "png" "AAAA"); reflexivity |].
  apply (proj1 (proj2 stripDataUrlPrefix_spec) "data:image/;base64,AAAA").
  intros subtype payload T C E.
  destruct subtype as [|c subtype]; [discriminate T |].
  cbn in E, C. injection E as <- _. discriminate C.
Defined.

Section GeneratorMore.

Variable encodeURIComponent : string -> string.
Variable numberToString : JSNumber -> string.
Variable trim : string -> string.
Variable canParseURL : string -> bool.
Variable emailRegexTest : string -> bool.
Variable QRCodeStyling : Type.
Variable createQRCodeStyling :
  QRGenerationOptions.t -> option string -> QRCodeStyling.
Variable applyStrokeToLogo : string -> JSNumber -> string -> Outcome string.
Variable logoOf : QRData -> option LogoConfig.t.

Local Abbreviation payloadOf := (formatQRData encodeURIComponent numberToString).
Local Abbreviation codeOf :=
  (generateQRCode encodeURIComponent numberToString QRCodeStyling
     createQRCodeStyling applyStrokeToLogo logoOf).
Local Abbreviation verdict := (validateQRData trim canParseURL emailRegexTest).
Local Abbreviation preview :=
  (previewEffect encodeURIComponent numberToString trim canParseURL
     emailRegexTest QRCodeStyling createQRCodeStyling applyStrokeToLogo logoOf).

(** X5.  A failure of the logo processor is not a failure of
    [generateQRCode]: the code is still constructed, with the logo in its
    options and error correction level H, and without a processed
    image. *)
Theorem generateQRCode_logo_failure (data : QRData) (colors : ColorConfig.t)
  (size : Z) (payload : string) (logo : LogoConfig.t) (e : JsError) :
  payloadOf data = Returned payload ->
  logoOf data = Some logo ->
  applyStrokeToLogo (LogoConfig.image logo) (LogoConfig.strokeWidth logo)
    (LogoConfig.strokeColor logo) = Thrown e ->
  codeOf data colors size
  = Returned
      (createQRCodeStyling
         (QRGenerationOptions.mk payload colors (Some logo) size "H") None).
Proof.
  intros Hp Hl He. unfold generateQRCode. rewrite Hp. cbn [bind].
  rewrite Hl, He. reflexivity.
Qed.

(** X6.  The validator accepts a location exactly when neither coordinate
    is a number outside its range, bounds included; a coordinate that is
    NaN passes both comparisons. *)
Theorem validateQRData_location (latitude longitude : JSNumber)
  (address : option string) :
  ValidationResult.valid (verdict (LocationData latitude longitude address)) = true
  <-> withinRange 90 latitude /\ withinRange 180 longitude.
Proof.
  assert (R : forall (b : Q) (n : JSNumber),
             jsLt n (Num (- b)) || jsGt n (Num b) = false <-> withinRange b n).
  { intros b [|q]; cbn; [split; auto |].
    rewrite orb_false_iff, !negb_false_iff, !Qle_bool_iff. reflexivity. }
  unfold validateQRData.
  change (Num (-90)) with (Num (- (90))). change (Num (-180)) with (Num (- (180))).
  destruct (jsLt latitude (Num (- (90))) || jsGt latitude (Num 90)) eqn:La.
  - cbn. split; [discriminate |]. intros [H _]. apply R in H. congruence.
  - apply R in La.
    destruct (jsLt longitude (Num (- (180))) || jsGt longitude (Num 180)) eqn:Lo.
    + cbn. split; [discriminate |]. intros [_ H]. apply R in H. congruence.
    + apply R in Lo. cbn. split; [intros _; split; assumption | reflexivity].
Qed.

(** X7.  A rejection always carries a message, and the preview shows that
    message and hands over no code; an acceptance carries none.  The
    fall-back text of the preview is never shown. *)
Theorem validateQRData_message (data : QRData) (colors : ColorConfig.t) :
  (ValidationResult.valid (verdict data) = true ->
   ValidationResult.error (verdict data) = None)
  /\ (ValidationResult.valid (verdict data) = false ->
      exists message,
        ValidationResult.error (verdict data) = Some message
        /\ truthy message = true
        /\ message <> "Invalid QR data"
        /\ preview data colors = (message, None)).
Proof.
  assert (V : (ValidationResult.valid (verdict data) = true
               /\ ValidationResult.error (verdict data) = None)
              \/ (exists message,
                    verdict data = invalid message
                    /\ truthy message = true
                    /\ message <> "Invalid QR data")).
  { destruct data; cbn [validateQRData];
      repeat match goal with
             | |- context [if ?b then _ else _] => destruct b
             end;
      try (left; split; reflexivity);
      right; eexists; (split; [reflexivity |]); (split; [reflexivity |]);
      discriminate. }
  unfold previewEffect.
  destruct V as [[Hv He] | (message & Hm & Ht & Hn)].
  - rewrite Hv, He. split; [reflexivity | discriminate].
  - rewrite Hm. cbn. split; [discriminate |]. intros _.
    exists message. rewrite Ht. repeat split; assumption.
Qed.

End GeneratorMore.

Lemma generateQRCode_logo_failure_witness :
  generateQRCode (fun s => s) (fun _ => "0") _ recordOptions failingLogoProcessor
    (fun _ => Some sampleLogo) (URLData "https://example.org") black 300
  = Returned
      (QRGenerationOptions.mk "https://example.org" black (Some sampleLogo) 300 "H",
       None).
Proof.
  apply (generateQRCode_logo_failure (fun s => s) (fun _ => "0") _ recordOptions
           failingLogoProcessor (fun _ => Some sampleLogo)
           (URLData "https://example.org") black 300 "https://example.org"
           sampleLogo (Error "canvas")); reflexivity.
Defined.

Lemma validateQRData_message_witness :
  ValidationResult.valid
    (validateQRData noTrim (fun _ => true) (fun _ => true) (TextData "")) = false
  /\ previewEffect (fun s => s) (fun _ => "0") noTrim (fun _ => true) (fun _ => true)
       _ recordOptions failingLogoProcessor (fun _ => None) (TextData "") black
     = ("Text is required", None).
Proof.
  split; [reflexivity |].
  destruct (proj2 (validateQRData_message (fun s => s) (fun _ => "0") noTrim
                     (fun _ => true) (fun _ => true) _ recordOptions
                     failingLogoProcessor (fun _ => None) (TextData "") black)
                  eq_refl) as (message & E & _ & _ & P).
  injection E as <-. exact P.
Defined.

(* ================================================================== *)
(** ** The forms and the validator *)
(* ================================================================== *)

Lemma orUndefined_not_empty (s : string) : orUndefined s <> Some "".
Proof.
  destruct s; cbn; discriminate.
Qed.

Section Forms.

Variable trim : string -> string.
Variable canParseURL : string -> bool.
Variable emailRegexTest : string -> bool.
Variable parseFloat : string -> JSNumber.

Local Abbreviation accepted data :=
  (ValidationResult.valid (validateQRData trim canParseURL emailRegexTest data)).

(** [trim] leaves the empty text empty, and trimming twice is trimming
    once. *)
Hypothesis trim_empty : trim "" = "".
Hypothesis trim_trim : forall s, trim (trim s) = trim s.

Lemma truthy_trim (s : string) : truthy (trim s) = true -> blank trim s = false.
Proof.
  intros H. unfold blank. rewrite H.
  destruct s; [now rewrite trim_empty in H | reflexivity].
Qed.

(** X8.  A record that [validateMeCard] accepts passes the validator of
    the generator too, and is encoded with the name first and at least
    one more field. *)
Theorem validateMeCard_accepts (data : MeCardData.t) :
  validateMeCard trim data = true ->
  accepted (MeCard data) = true
  /\ exists field rest,
       presentFields data = ("N", MeCardData.name data) :: field :: rest.
Proof.
  unfold validateMeCard, validateQRData, blank.
  destruct data as [n p e u a o]. cbn [MeCardData.name MeCardData.phone
    MeCardData.email MeCardData.url MeCardData.address MeCardData.note].
  destruct (negb (truthy n) || negb (truthy (trim n))) eqn:B; [discriminate |].
  intros H. split; [reflexivity |].
  apply orb_false_iff in B as [B _]. apply negb_false_iff in B.
  destruct n as [|c n]; [discriminate |].
  unfold presentFields. cbn [MeCardData.name MeCardData.phone
    MeCardData.email MeCardData.url MeCardData.address MeCardData.note
    truthyOpt truthy orEmpty app].
  destruct p as [[|]|], e as [[|]|], u as [[|]|], a as [[|]|], o as [[|]|];
    cbn in H |- *; try discriminate; eexists; eexists; reflexivity.
Qed.

(** X9.  The URL, text, phone and SMS forms hand over a record only for
    an input that is not blank (and, for a URL, that parses), and every
    record they hand over passes the validator. *)
Theorem simple_forms_emit_valid (value message : string) (data : QRData) :
  (URLForm.handleUrlChange trim canParseURL value = Some data ->
   data = URLData value /\ accepted data = true)
  /\ (TextForm.handleTextChange trim value = Some data ->
      data = TextData value /\ accepted data = true)
  /\ (PhoneForm.handlePhoneChange trim value = Some data ->
      data = PhoneData value /\ accepted data = true)
  /\ (SMSForm.updateQRData trim value message = Some data ->
      data = SMSData value (orUndefined message) /\ accepted data = true).
Proof.
  unfold URLForm.handleUrlChange, TextForm.handleTextChange,
    PhoneForm.handlePhoneChange, SMSForm.updateQRData.
  destruct (truthy (trim value)) eqn:T; cbn [negb];
    [| repeat split; discriminate].
  pose proof (truthy_trim _ T) as B.
  repeat split; try (injection H as <-); try reflexivity.
  - destruct (canParseURL value); [now injection H as <- | discriminate].
  - destruct (canParseURL value) eqn:P; [| discriminate].
    injection H as <-. cbn [validateQRData]. now rewrite B, P.
  - cbn [validateQRData]. now rewrite B.
  - cbn [validateQRData]. now rewrite B.
  - cbn [validateQRData]. now rewrite B.
Qed.

(** X10.  Whichever of its three inputs is edited, the e-mail form hands
    over a record only for an address that is not empty and matches the
    pattern (and, when it is the address that is edited, is not blank);
    the record carries the address and the two texts as they are, it
    passes the validator, and an empty subject or body is left out of
    it. *)
Theorem email_form_emits_valid (email subject body value : string)
  (data : QRData) :
  (EmailForm.handleEmailChange trim emailRegexTest subject body value = Some data ->
   truthy (trim value) = true /\ emailRegexTest value = true
   /\ data = EmailData value (orUndefined subject) (orUndefined body)
   /\ accepted data = true)
  /\ (EmailForm.handleSubjectChange emailRegexTest email body value = Some data ->
      truthy email = true /\ emailRegexTest email = true
      /\ data = EmailData email (orUndefined value) (orUndefined body)
      /\ accepted data = true)
  /\ (EmailForm.handleBodyChange emailRegexTest email subject value = Some data ->
      truthy email = true /\ emailRegexTest email = true
      /\ data = EmailData email (orUndefined subject) (orUndefined value)
      /\ accepted data = true)
  /\ (forall text, orUndefined text <> Some "").
Proof.
  assert (U : forall address s b d,
             EmailForm.updateQRData emailRegexTest address s b = Some d ->
             truthy address = true /\ emailRegexTest address = true
             /\ d = EmailData address (orUndefined s) (orUndefined b)
             /\ accepted d = true).
  { intros address s b d. unfold EmailForm.updateQRData, EmailForm.validateEmail.
    destruct (truthy address) eqn:V; cbn [andb]; [| discriminate].
    destruct (emailRegexTest address) eqn:R; [| discriminate].
    intros [= <-]. repeat split.
    cbn [validateQRData]. unfold isValidEmail. now rewrite V, R. }
  split; [| split; [| split]].
  - unfold EmailForm.handleEmailChange.
    destruct (truthy (trim value)) eqn:T; cbn [negb]; [| discriminate].
    destruct (negb (EmailForm.validateEmail emailRegexTest value)); [discriminate |].
    intros H. apply U in H as (_ & R & D & A). repeat split; assumption.
  - apply U.
  - apply U.
  - apply orUndefined_not_empty.
Qed.

(** X11.  The location form hands over a record only when both inputs
    parse to numbers within the ranges; it shows no error then, the
    record passes the validator, and neither coordinate is NaN. *)
Theorem location_form_emits_valid (lat lng addr : string) (data : QRData) :
  snd (LocationForm.validateAndUpdate parseFloat lat lng addr) = Some data ->
  exists latitude longitude,
    parseFloat lat = Num latitude /\ parseFloat lng = Num longitude
    /\ data = LocationData (Num latitude) (Num longitude) (orUndefined addr)
    /\ withinRange 90 (Num latitude) /\ withinRange 180 (Num longitude)
    /\ fst (LocationForm.validateAndUpdate parseFloat lat lng addr)
       = LocationForm.mkErrors "" ""
    /\ accepted data = true.
Proof.
  assert (R : forall (b : Q) (n : JSNumber),
             jsLt n (Num (- b)) || jsGt n (Num b) = false -> withinRange b n).
  { intros b [|q]; cbn; [auto |]. rewrite orb_false_iff, !negb_false_iff.
    rewrite !Qle_bool_iff. auto. }
  unfold LocationForm.validateAndUpdate.
  destruct (negb (truthy lat) || negb (truthy lng)); [discriminate |].
  change (Num (-90)) with (Num (- (90))). change (Num (-180)) with (Num (- (180))).
  destruct (parseFloat lat) as [|la]; [discriminate |].
  destruct (parseFloat lng) as [|lo];
    [cbn [isNaN]; destruct (jsLt (Num la) (Num (- (90))) || jsGt (Num la) (Num 90));
     discriminate |].
  cbn [isNaN].
  destruct (jsLt (Num la) (Num (- (90))) || jsGt (Num la) (Num 90)) eqn:La;
    [discriminate |].
  destruct (jsLt (Num lo) (Num (- (180))) || jsGt (Num lo) (Num 180)) eqn:Lo;
    [discriminate |].
  cbn [truthy negb andb fst snd]. intros [= <-].
  exists la, lo. repeat split; try (now apply (R 90 (Num la)));
    try (now apply (R 180 (Num lo))).
  cbn [validateQRData].
  change (Num (-90)) with (Num (- (90))). change (Num (-180)) with (Num (- (180))).
  now rewrite La, Lo.
Qed.

(** X12.  The MeCard form hands over a record exactly when the trimmed
    name is not empty; the record carries the trimmed name, carries the
    trimmed text of every optional field for which that text is not
    empty and leaves out every optional field for which it is empty,
    and passes the validator. *)
Theorem mecard_form_emits_valid (name phone email url address note : string) :
  (truthy (trim name) = false ->
   MeCardForm.updateQRData trim name phone email url address note = None)
  /\ (truthy (trim name) = true ->
      exists mecard,
        let kept text := if truthy (trim text) then Some (trim text) else None in
        MeCardForm.updateQRData trim name phone email url address note
        = Some (MeCard mecard)
        /\ MeCardData.name mecard = trim name
        /\ MeCardData.phone mecard = kept phone
        /\ MeCardData.email mecard = kept email
        /\ MeCardData.url mecard = kept url
        /\ MeCardData.address mecard = kept address
        /\ MeCardData.note mecard = kept note
        /\ normalized mecard
        /\ accepted (MeCard mecard) = true).
Proof.
  unfold MeCardForm.updateQRData. split; intros T; rewrite T; cbn [negb].
  - reflexivity.
  - eexists. cbv zeta. split; [reflexivity |].
    do 6 (split; [reflexivity |]). split.
    + unfold normalized. cbn. repeat split; apply orUndefined_not_empty.
    + cbn [validateQRData MeCardData.name]. unfold blank.
      now rewrite trim_trim, T.
Qed.


End Forms.

Lemma validateMeCard_accepts_witness :
  validateMeCard noTrim sampleMeCard = true
  /\ ValidationResult.valid
       (validateQRData noTrim (fun _ => true) (fun _ => true) (MeCard sampleMeCard))
     = true.
Proof.
  split; [reflexivity |].
  apply (validateMeCard_accepts noTrim (fun _ => true) (fun _ => true)
           sampleMeCard). reflexivity.
Defined.

Lemma simple_forms_emit_valid_witness :
  URLForm.handleUrlChange noTrim (fun _ => true) "https://example.org"
  = Some (URLData "https://example.org")
  /\ ValidationResult.valid
       (validateQRData noTrim (fun _ => true) (fun _ => true)
          (URLData "https://example.org")) = true.
Proof.
  split; [reflexivity |].
  apply (proj1 (simple_forms_emit_valid noTrim (fun _ => true) (fun _ => true)
                  eq_refl "https://example.org" "" (URLData "https://example.org"))).
  reflexivity.
Defined.

Lemma email_form_emits_valid_witness :
  EmailForm.handleEmailChange noTrim (fun _ => true) "Hello" "" "a@b.co"
  = Some (EmailData "a@b.co" (Some "Hello") None)
  /\ EmailForm.handleSubjectChange (fun _ => true) "a@b.co" "" "Hello"
     = Some (EmailData "a@b.co" (Some "Hello") None)
  /\ ValidationResult.valid
       (validateQRData noTrim (fun _ => true) (fun _ => true)
          (EmailData "a@b.co" (Some "Hello") None)) = true.
Proof.
  split; [reflexivity |]. split; [reflexivity |].
  apply (proj1 (proj2 (email_form_emits_valid noTrim (fun _ => true) (fun _ => true)
                         "a@b.co" "" "" "Hello"
                         (EmailData "a@b.co" (Some "Hello") None)))).
  reflexivity.
Defined.

Lemma location_form_emits_valid_witness :
  snd (LocationForm.validateAndUpdate sampleParseFloat "48.2" "16.4" "")
  = Some (LocationData (Num (482 # 10)) (Num (164 # 10)) None)
  /\ exists latitude longitude,
       sampleParseFloat "48.2" = Num latitude
       /\ sampleParseFloat "16.4" = Num longitude.
Proof.
  split; [reflexivity |].
  destruct (location_form_emits_valid noTrim (fun _ => true) (fun _ => true)
              sampleParseFloat "48.2" "16.4" ""
              (LocationData (Num (482 # 10)) (Num (164 # 10)) None) eq_refl)
    as (latitude & longitude & Hla & Hlo & _).
  exists latitude, longitude. split; assumption.
Defined.

Lemma dropTrailing_idempotent (s : string) :
  dropTrailing (dropTrailing s) = dropTrailing s.
Proof.
  induction s as [|c s IH]; [reflexivity |].
  cbn [dropTrailing]. destruct (dropTrailing s) as [|d kept] eqn:E.
  - destruct (Ascii.eqb c " ") eqn:C; [reflexivity |].
    cbn [dropTrailing]. now rewrite C.
  - cbn [dropTrailing]. cbn [dropTrailing] in IH.
    destruct (dropTrailing kept) as [|d' kept'].
    + destruct (Ascii.eqb d " "); [discriminate IH |]. now rewrite IH.
    + now rewrite IH.
Qed.

Lemma dropLeading_head (s : string) :
  match dropLeading s with
  | String c _ => Ascii.eqb c " " = false
  | EmptyString => True
  end.
Proof.
  induction s as [|c s IH]; [exact I |].
  cbn [dropLeading]. destruct (Ascii.eqb c " ") eqn:C; [exact IH | exact C].
Qed.

Lemma trimSpaces_idempotent (s : string) : trimSpaces (trimSpaces s) = trimSpaces s.
Proof.
  unfold trimSpaces. pose proof (dropLeading_head s) as H.
  destruct (dropLeading s) as [|c rest]; [reflexivity |].
  assert (L : dropLeading (dropTrailing (String c rest)) = dropTrailing (String c rest)).
  { cbn [dropTrailing]. rewrite H.
    destruct (dropTrailing rest); cbn [dropLeading]; now rewrite H. }
  rewrite L. apply dropTrailing_idempotent.
Qed.

Lemma mecard_form_emits_valid_witness :
  truthy (trimSpaces " Doe ") = true
  /\ MeCardForm.updateQRData trimSpaces " Doe " " +1 555" "   " "" "" ""
     = Some (MeCard (MeCardData.mk "Doe" (Some "+1 555") None None None None))
  /\ exists mecard,
       MeCardForm.updateQRData trimSpaces " Doe " " +1 555" "   " "" "" ""
       = Some (MeCard mecard)
       /\ MeCardData.email mecard = None
       /\ normalized mecard.
Proof.
  split; [reflexivity |]. split; [reflexivity |].
  destruct (proj2 (mecard_form_emits_valid trimSpaces (fun _ => true) (fun _ => true)
                     trimSpaces_idempotent " Doe " " +1 555" "   " "" "" "") eq_refl)
    as (mecard & E & _ & _ & M & _ & _ & _ & N & _).
  exists mecard. split; [exact E |]. split; [exact M | exact N].
Defined.


(* ================================================================== *)
(** ** Further properties of the history store *)
(* ================================================================== *)

Lemma loadSchema_setEntry (st : LocalStorage.t) (items : list HistoryItem.t) :
  LocalStorage.available st = true ->
  loadSchema (setEntry st (Document (StorageSchema.mk STORAGE_VERSION items)))
  = StorageSchema.mk STORAGE_VERSION items.
Proof.
  intros H. now apply loadSchema_document.
Qed.

Lemma loadSchema_unavailable (st : LocalStorage.t) :
  LocalStorage.available st = false -> loadSchema st = createEmptySchema.
Proof.
  intros H. unfold loadSchema, isStorageAvailable. now rewrite H.
Qed.

Lemma filter_length_lt {A : Type} (f : A -> bool) (xs : list A) :
  (length (filter f xs) <? length xs)%nat = existsb (fun x => negb (f x)) xs.
Proof.
  assert (L : forall l : list A, (length (filter f l) <= length l)%nat).
  { induction l as [|y l IH]; cbn; [lia |]. destruct (f y); cbn; lia. }
  induction xs as [|x xs IH]; [reflexivity |].
  cbn [filter existsb]. destruct (f x); cbn [negb orb length].
  - exact IH.
  - apply Nat.ltb_lt. specialize (L xs). lia.
Qed.

Lemma find_filter_out (id : string) (items : list HistoryItem.t) :
  find (fun item => HistoryItem.id item =? id)
    (filter (fun item => negb (HistoryItem.id item =? id)) items) = None.
Proof.
  induction items as [|x xs IH]; [reflexivity |].
  cbn [filter]. destruct (HistoryItem.id x =? id) eqn:E; cbn [negb]; [exact IH |].
  cbn [find]. now rewrite E.
Qed.

Lemma existsb_find (id : string) (items : list HistoryItem.t) :
  existsb (fun x => negb (negb (HistoryItem.id x =? id))) items
  = match find (fun item => HistoryItem.id item =? id) items with
    | Some _ => true
    | None => false
    end.
Proof.
  induction items as [|x xs IH]; [reflexivity |].
  cbn [existsb find]. rewrite negb_involutive.
  destruct (HistoryItem.id x =? id); [reflexivity | exact IH].
Qed.

Section StoreMore.

Variable stringify : QRData -> string.
Variable schemaBytes : StorageSchema.t -> N.
Variable QRCodeStyling : Type.
Variable generateThumbnail : QRCodeStyling -> Z -> string.

Local Abbreviation enforce := (enforceStorageLimit schemaBytes).
Local Abbreviation saveItem :=
  (saveToHistory stringify schemaBytes QRCodeStyling generateThumbnail).
Local Abbreviation newItem := (itemOf QRCodeStyling generateThumbnail).
Local Abbreviation saveOne :=
  (save stringify schemaBytes QRCodeStyling generateThumbnail).
Local Abbreviation duplicates := (isDuplicateOf stringify).

(** What a successful call of [saveToHistory] leaves behind. *)
Lemma saveToHistory_saved (r : SaveRequest.t QRCodeStyling)
  (st st' : LocalStorage.t) (item : HistoryItem.t) :
  saveOne r st = (Some item, st') ->
  item = newItem r
  /\ LocalStorage.available st = true
  /\ existsb (duplicates (SaveRequest.data r)) (getHistory st) = false
  /\ exists k,
       (1 <= k)%nat
       /\ st' = setEntry st
                  (Document
                     (StorageSchema.mk STORAGE_VERSION
                        (item :: firstn (pred k) (getHistory st)))).
Proof.
  rewrite (saveToHistory_cases stringify schemaBytes QRCodeStyling generateThumbnail).
  cbv zeta. unfold getHistory.
  set (previous := StorageSchema.items (loadSchema st)).
  destruct (enforceStorageLimit_spec schemaBytes
              (StorageSchema.mk STORAGE_VERSION
                 (firstn MAX_ITEMS (newItem r :: previous))))
    as (k & E & Hk & Hne & _).
  rewrite E. clear E.
  cbn [StorageSchema.items StorageSchema.version] in *.
  rewrite firstn_firstn in *.
  destruct (existsb _ _); [discriminate |].
  destruct (LocalStorage.available st) eqn:A; [| discriminate].
  cbn [andb]. destruct (LocalStorage.accepts st _); [| discriminate].
  intros [= <- <-].
  assert (H1 : (1 <= k)%nat) by (apply Hne; discriminate).
  repeat split. exists (Nat.min k MAX_ITEMS).
  split; [unfold MAX_ITEMS; lia |].
  destruct (Nat.min k MAX_ITEMS) as [|m] eqn:M; [unfold MAX_ITEMS in M; lia |].
  reflexivity.
Qed.

Lemma saveToHistory_refused (r : SaveRequest.t QRCodeStyling)
  (st st' : LocalStorage.t) :
  saveOne r st = (None, st') -> st' = st.
Proof.
  rewrite (saveToHistory_cases stringify schemaBytes QRCodeStyling generateThumbnail).
  cbv zeta. destruct (existsb _ _); [now intros [= <-] |].
  destruct (_ && _); [discriminate | now intros [= <-]].
Qed.

(** X14.  After a successful [saveToHistory] the returned item is the
    first of the history, and [getHistoryItem] finds it under its id; it
    carries the record, the colours, the type of the record and the time
    stamp of the call. *)
Theorem saveToHistory_then_lookup (data : QRData) (colors : ColorConfig.t)
  (qrCode : QRCodeStyling) (tick : Tick.t) (st st' : LocalStorage.t)
  (item : HistoryItem.t) :
  saveItem data colors qrCode tick st = (Some item, st') ->
  getHistoryItem (HistoryItem.id item) st' = Some item
  /\ (exists rest, getHistory st' = item :: rest /\ incl rest (getHistory st))
  /\ HistoryItem.data item = data
  /\ HistoryItem.colors item = colors
  /\ HistoryItem.type item = typeOf data
  /\ HistoryItem.timestamp item = Tick.stampClock tick.
Proof.
  rewrite saveToHistory_as_request. intros H.
  apply saveToHistory_saved in H as (-> & A & _ & k & Hk & ->).
  unfold getHistoryItem, getHistory. rewrite (loadSchema_setEntry _ _ A).
  cbn [StorageSchema.items find]. rewrite String.eqb_refl.
  split; [reflexivity |]. split; [| repeat split].
  eexists. split; [reflexivity |]. apply firstn_incl.
Qed.

(** X15.  Saving the same record again right after a successful save is
    refused as a duplicate, whatever the colours, the code and the clock
    of the second call: it returns null and leaves the storage as it
    is. *)
Theorem saveToHistory_twice (data : QRData) (colors colors' : ColorConfig.t)
  (qrCode qrCode' : QRCodeStyling) (tick tick' : Tick.t)
  (st st' : LocalStorage.t) (item : HistoryItem.t) :
  saveItem data colors qrCode tick st = (Some item, st') ->
  saveItem data colors' qrCode' tick' st' = (None, st').
Proof.
  rewrite !saveToHistory_as_request. intros H.
  apply saveToHistory_saved in H as (-> & A & _ & k & Hk & ->).
  rewrite (saveToHistory_cases stringify schemaBytes QRCodeStyling generateThumbnail).
  cbv zeta. rewrite (loadSchema_setEntry _ _ A).
  cbn [StorageSchema.items existsb SaveRequest.data].
  unfold isDuplicateOf at 1, itemOf at 1 2.
  cbn [HistoryItem.type HistoryItem.data SaveRequest.data].
  now rewrite !String.eqb_refl.
Qed.

(** X16.  [deleteHistoryItem] returns true only when an item with the id
    was in the history; then every item with that id is gone, the other
    items keep their order, and [getHistoryItem] no longer finds the id.
    When it returns false the storage is as before, and it returns false
    for an id that [getHistoryItem] does not find. *)
Theorem deleteHistoryItem_spec (id : string) (st st' : LocalStorage.t) :
  (deleteHistoryItem id st = (true, st') ->
   getHistoryItem id st <> None
   /\ getHistory st'
      = filter (fun item => negb (HistoryItem.id item =? id)) (getHistory st)
   /\ getHistoryItem id st' = None)
  /\ (deleteHistoryItem id st = (false, st') -> st' = st)
  /\ (getHistoryItem id st = None -> deleteHistoryItem id st = (false, st)).
Proof.
  unfold deleteHistoryItem, getHistoryItem, getHistory.
  rewrite guarded_write, filter_length_lt, existsb_find, loadSchema_version.
  destruct (find _ (StorageSchema.items (loadSchema st))) as [found|] eqn:F.
  - destruct (LocalStorage.available st) eqn:A; cbn [andb].
    + destruct (LocalStorage.accepts st _).
      * split; [| split; [discriminate | discriminate]].
        intros [= <-]. rewrite (loadSchema_setEntry _ _ A).
        cbn [StorageSchema.items]. split; [discriminate |].
        split; [reflexivity | apply find_filter_out].
      * split; [discriminate |]. split; [now intros [= <-] | discriminate].
    + split; [discriminate |]. split; [now intros [= <-] | discriminate].
  - split; [discriminate |]. split; [now intros [= <-] | reflexivity].
Qed.

(** X17.  [clearHistory] returns true exactly when the storage can be
    written and takes the empty schema; the history is empty afterwards.
    When it returns false the storage is as before. *)
Theorem clearHistory_spec (st : LocalStorage.t) :
  fst (clearHistory st)
  = LocalStorage.available st
    && LocalStorage.accepts st (StorageSchema.mk STORAGE_VERSION [])
  /\ (fst (clearHistory st) = true ->
      getHistory (snd (clearHistory st)) = []
      /\ storedItems (snd (clearHistory st)) = [])
  /\ (fst (clearHistory st) = false -> snd (clearHistory st) = st).
Proof.
  unfold clearHistory. rewrite guarded_write.
  destruct (LocalStorage.available st) eqn:A; cbn [andb].
  - destruct (LocalStorage.accepts st _); cbn [fst snd].
    + split; [reflexivity |]. split; [| discriminate]. intros _.
      unfold getHistory. rewrite (loadSchema_setEntry _ _ A). now split.
    + split; [reflexivity |]. split; [discriminate | reflexivity].
  - cbn [fst snd]. split; [reflexivity |]. split; [discriminate | reflexivity].
Qed.

(** X18.  Without a usable [localStorage] the store degrades silently:
    the history reads as empty, nothing is found, and every writing
    operation reports failure and changes nothing. *)
Theorem storage_unavailable (st : LocalStorage.t) (data : QRData)
  (colors : ColorConfig.t) (qrCode : QRCodeStyling) (tick : Tick.t)
  (id : string) (json : ImportPayload) :
  LocalStorage.available st = false ->
  getHistory st = []
  /\ getHistoryItem id st = None
  /\ saveItem data colors qrCode tick st = (None, st)
  /\ deleteHistoryItem id st = (false, st)
  /\ clearHistory st = (false, st)
  /\ importHistoryFromJSON json st = (false, st).
Proof.
  intros A. pose proof (loadSchema_unavailable st A) as L.
  split; [unfold getHistory; now rewrite L |].
  split; [unfold getHistoryItem; now rewrite L |].
  split.
  { rewrite saveToHistory_as_request,
      (saveToHistory_cases stringify schemaBytes QRCodeStyling generateThumbnail).
    cbv zeta. rewrite L, A. reflexivity. }
  split.
  { unfold deleteHistoryItem. rewrite L. reflexivity. }
  split.
  { unfold clearHistory. rewrite guarded_write, A. reflexivity. }
  rewrite importHistoryFromJSON_cases. destruct json as [| |version items];
    try reflexivity.
  destruct items; try reflexivity. cbv zeta. rewrite A.
  now rewrite andb_false_r.
Qed.

(** X19.  An entry written under another schema version reads as an
    empty history, and the next successful save overwrites it: the
    storage then holds the new item alone, whatever it held before. *)
Theorem version_mismatch_resets (old : StorageSchema.t) (data : QRData)
  (colors : ColorConfig.t) (qrCode : QRCodeStyling) (tick : Tick.t)
  (st st' : LocalStorage.t) (item : HistoryItem.t) :
  LocalStorage.entry st = Document old ->
  StorageSchema.version old <> STORAGE_VERSION ->
  getHistory st = []
  /\ (saveItem data colors qrCode tick st = (Some item, st') ->
      storedItems st' = [item]).
Proof.
  intros E V.
  assert (L : getHistory st = []).
  { unfold getHistory, loadSchema. destruct (negb (isStorageAvailable st));
      [reflexivity |]. rewrite E.
    destruct (StorageSchema.version old =? STORAGE_VERSION)%Z eqn:Q;
      [apply Z.eqb_eq in Q; contradiction | reflexivity]. }
  split; [exact L |].
  rewrite saveToHistory_as_request. intros H.
  apply saveToHistory_saved in H as (-> & A & _ & k & Hk & ->).
  rewrite L. unfold storedItems. cbn. now rewrite firstn_nil.
Qed.

(** X20.  The type recorded on an item is the type of its record: if
    this holds of the history, it holds after every save, delete and
    clear, and after an import whose items have it. *)
Theorem history_types_consistent (st : LocalStorage.t) :
  typed (getHistory st) ->
  (forall data colors qrCode tick,
      typed (getHistory (snd (saveItem data colors qrCode tick st))))
  /\ (forall id, typed (getHistory (snd (deleteHistoryItem id st))))
  /\ typed (getHistory (snd (clearHistory st)))
  /\ (forall version imported,
         typed imported ->
         typed (getHistory
                  (snd (importHistoryFromJSON (Parsed version (JArray imported)) st)))).
Proof.
  intros T. unfold typed in *. rewrite Forall_forall in T.
  split; [| split; [| split]].
  - intros data colors qrCode tick. rewrite saveToHistory_as_request.
    destruct (saveOne _ st) as [[item|] st'] eqn:S; cbn [snd].
    + apply saveToHistory_saved in S as (-> & A & _ & k & Hk & ->).
      unfold getHistory. rewrite (loadSchema_setEntry _ _ A).
      cbn [StorageSchema.items]. constructor; [reflexivity |].
      apply Forall_forall. intros x Hx. apply T. eapply firstn_incl, Hx.
    + apply saveToHistory_refused in S. subst st'. now apply Forall_forall.
  - intros id. unfold deleteHistoryItem.
    rewrite guarded_write, loadSchema_version.
    destruct (_ <? _)%nat; [| now apply Forall_forall].
    destruct (LocalStorage.available st) eqn:A; cbn [andb snd];
      [| now apply Forall_forall].
    destruct (LocalStorage.accepts st _); cbn [snd]; [| now apply Forall_forall].
    unfold getHistory at 1. rewrite (loadSchema_setEntry _ _ A).
    cbn [StorageSchema.items]. apply Forall_forall. intros x Hx.
    apply filter_In in Hx as [Hx _]. now apply T.
  - unfold clearHistory. rewrite guarded_write.
    destruct (LocalStorage.available st) eqn:A; cbn [andb snd];
      [| now apply Forall_forall].
    destruct (LocalStorage.accepts st _); cbn [snd]; [| now apply Forall_forall].
    unfold getHistory. rewrite (loadSchema_setEntry _ _ A). constructor.
  - intros version imported Ti. rewrite Forall_forall in Ti.
    rewrite importHistoryFromJSON_cases. cbv zeta.
    destruct (toBoolean version); cbn [andb snd]; [| now apply Forall_forall].
    destruct (LocalStorage.available st) eqn:A; cbn [andb snd];
      [| now apply Forall_forall].
    destruct (LocalStorage.accepts st _); cbn [snd]; [| now apply Forall_forall].
    unfold getHistory at 1. rewrite (loadSchema_setEntry _ _ A).
    cbn [StorageSchema.items]. apply Forall_forall. intros x Hx.
    apply firstn_incl in Hx.
    apply (Permutation_in _ (Permutation_sym (jsSort_perm _ _))) in Hx.
    rewrite mergeItems_keepFresh in Hx. apply in_app_or in Hx as [Hx | Hx].
    + now apply Ti.
    + apply keepFresh_sound in Hx as [Hx _]. now apply T.
Qed.

End StoreMore.

Lemma insertSorted_sorted {A : Type} (compare : A -> A -> Z) (R : A -> A -> Prop)
  (x : A) (xs : list A) :
  (forall a b, (compare a b <= 0)%Z -> R a b) ->
  (forall a b, ~ (compare a b <= 0)%Z -> R b a) ->
  (forall a b c, R a b -> R b c -> R a c) ->
  StronglySorted R xs -> StronglySorted R (insertSorted compare x xs).
Proof.
  intros Hle Hgt Htrans Hs. induction Hs as [|y ys Hs IH Hy].
  - repeat constructor.
  - cbn [insertSorted]. destruct (compare x y <=? 0)%Z eqn:E.
    + apply Z.leb_le, Hle in E. constructor; [now constructor |].
      constructor; [exact E |].
      rewrite Forall_forall in *. intros z Hz. eapply Htrans; [exact E | auto].
    + assert (Ryx : R y x) by (apply Hgt; intros C; apply Z.leb_le in C; congruence).
      constructor; [exact IH |].
      rewrite Forall_forall in *. intros z Hz.
      apply (Permutation_in _ (Permutation_sym (insertSorted_perm compare x ys))) in Hz.
      destruct Hz as [<- | Hz]; auto.
Qed.

Lemma jsSort_oldest (xs : list HistoryItem.t) :
  StronglySorted olderOrEqual (jsSort oldestFirst xs).
Proof.
  induction xs as [|x xs IH]; [constructor |].
  cbn [jsSort fold_right]. apply insertSorted_sorted; [| | | exact IH];
    unfold oldestFirst, olderOrEqual; intros; lia.
Qed.

Lemma jsSort_sorted_id (xs : list HistoryItem.t) :
  StronglySorted newerOrEqual xs -> jsSort newestFirst xs = xs.
Proof.
  induction 1 as [|x xs Hs IH Hx]; [reflexivity |].
  cbn [jsSort fold_right]. fold (jsSort newestFirst xs). rewrite IH.
  destruct xs as [|y ys]; [reflexivity |].
  cbn [insertSorted]. inversion Hx as [|? ? Hxy _]; subst.
  unfold newerOrEqual in Hxy. unfold newestFirst.
  destruct (_ <=? 0)%Z eqn:E; [reflexivity |].
  apply Z.leb_gt in E. lia.
Qed.

Lemma keepFresh_seen (seen : list string) (existing : list HistoryItem.t) :
  (forall e, In e existing -> In (HistoryItem.id e) seen) ->
  keepFresh seen existing = [].
Proof.
  induction existing as [|e rest IH]; [reflexivity |]. intros H.
  cbn [keepFresh].
  destruct (existsb (String.eqb (HistoryItem.id e)) seen) eqn:E.
  - apply IH. intros x Hx. apply H. now right.
  - assert (In (HistoryItem.id e) seen) as Hin by (apply H; now left).
    apply existsb_eqb_In in Hin. congruence.
Qed.

Lemma contains_decimal (n : Z) : contains "_" (decimal n) = false.
Proof.
  assert (U : forall d, contains "_" (NilEmpty.string_of_uint d) = false).
  { induction d; cbn; auto. }
  assert (V : forall d, contains "_" (NilZero.string_of_uint d) = false).
  { intros d. destruct d; try apply U. reflexivity. }
  unfold decimal. destruct (Z.to_int n); cbn [NilZero.string_of_int contains];
    [apply V |]. cbn. apply V.
Qed.

Lemma decimal_injective (n m : Z) : decimal n = decimal m -> n = m.
Proof.
  assert (N : forall z : Z,
             NilZero.int_of_string (decimal z) = Some (Z.to_int z)).
  { intros z. unfold decimal.
    assert (E : Z.to_int z = Decimal.norm (Z.to_int z)).
    { rewrite <- DecimalZ.to_of, DecimalZ.of_to. reflexivity. }
    apply NilZero.isi; rewrite E; destruct (Z.to_int z) as [d|d];
      cbn [Decimal.norm]; try discriminate.
    - intros [= H]. now apply DecimalFacts.unorm_nonnil in H.
    - destruct (Decimal.nzhead d); discriminate.
    - destruct (Decimal.nzhead d); discriminate. }
  intros H. apply (f_equal NilZero.int_of_string) in H.
  rewrite !N in H. injection H as H. now apply DecimalZ.to_int_inj.
Qed.

Lemma cut_at_underscore (a b r r' : string) :
  contains "_" a = false -> contains "_" b = false ->
  a ++ String "_" r = b ++ String "_" r' -> a = b /\ r = r'.
Proof.
  revert b. induction a as [|x a IH]; intros [|y b] Ha Hb H; cbn in *.
  - injection H as ->. now split.
  - injection H as <- _. discriminate.
  - injection H as -> _. discriminate.
  - apply orb_false_iff in Ha as [_ Ha], Hb as [_ Hb].
    injection H as -> H. destruct (IH _ Ha Hb H) as [-> ->]. now split.
Qed.

(** X21.  Two identifiers built by [generateId] are the same only when
    both the clock reading and the random digits are: the identifier
    determines its two parts. *)
Theorem generateId_injective (now now' : Z) (random random' : string) :
  generateId now random = generateId now' random' ->
  now = now' /\ random = random'.
Proof.
  unfold generateId. intros H.
  apply cut_at_underscore in H as [Hd Hr]; try apply contains_decimal.
  split; [now apply decimal_injective | exact Hr].
Qed.

Lemma generateId_injective_witness :
  generateId 1700000000000 "k3j2h1a" = "1700000000000_k3j2h1a"
  /\ (1700000000000 = 1700000000000)%Z.
Proof.
  split; [reflexivity |].
  apply (generateId_injective 1700000000000 1700000000000 "k3j2h1a" "k3j2h1a").
  reflexivity.
Defined.

Lemma sortHistory_perm (localeCompare : string -> string -> Z)
  (sortBy : string) (st : LocalStorage.t) :
  Permutation (getHistory st) (sortHistory localeCompare sortBy st).
Proof.
  unfold sortHistory, getHistory.
  destruct (sortBy =? "newest"); [apply jsSort_perm |].
  destruct (sortBy =? "oldest"); [apply jsSort_perm |].
  destruct (sortBy =? "type"); [apply jsSort_perm | apply Permutation_refl].
Qed.

Lemma filter_sorted {A : Type} (R : A -> A -> Prop) (f : A -> bool) (xs : list A) :
  StronglySorted R xs -> StronglySorted R (filter f xs).
Proof.
  induction 1 as [|x xs Hs IH Hx]; [constructor |].
  cbn [filter]. destruct (f x); [| exact IH].
  constructor; [exact IH |]. rewrite Forall_forall in *.
  intros y Hy. apply filter_In in Hy as [Hy _]. auto.
Qed.




Lemma saveToHistory_then_lookup_witness :
  saveToHistory sampleStringify sampleBytes unit noThumbnail
    (URLData "https://example.org/0") black tt sampleTick emptyStorage
  = (Some (itemOf unit noThumbnail (urlRequest 0)),
     setEntry emptyStorage
       (Document
          (StorageSchema.mk STORAGE_VERSION [itemOf unit noThumbnail (urlRequest 0)])))
  /\ getHistoryItem "1700000000000_k3j2h1a"
       (setEntry emptyStorage
          (Document
             (StorageSchema.mk STORAGE_VERSION
                [itemOf unit noThumbnail (urlRequest 0)])))
     = Some (itemOf unit noThumbnail (urlRequest 0)).
Proof.
  assert (E : saveToHistory sampleStringify sampleBytes unit noThumbnail
                (URLData "https://example.org/0") black tt sampleTick emptyStorage
              = (Some (itemOf unit noThumbnail (urlRequest 0)),
                 setEntry emptyStorage
                   (Document
                      (StorageSchema.mk STORAGE_VERSION
                         [itemOf unit noThumbnail (urlRequest 0)]))))
    by (vm_compute; reflexivity).
  split; [exact E |].
  exact (proj1 (saveToHistory_then_lookup sampleStringify sampleBytes unit
                  noThumbnail _ _ _ _ _ _ _ E)).
Defined.

Lemma saveToHistory_twice_witness :
  saveToHistory sampleStringify sampleBytes unit noThumbnail
    (URLData "https://example.org/0") black tt laterTick
    (setEntry emptyStorage
       (Document
          (StorageSchema.mk STORAGE_VERSION [itemOf unit noThumbnail (urlRequest 0)])))
  = (None,
     setEntry emptyStorage
       (Document
          (StorageSchema.mk STORAGE_VERSION [itemOf unit noThumbnail (urlRequest 0)]))).
Proof.
  apply (saveToHistory_twice sampleStringify sampleBytes unit noThumbnail
           (URLData "https://example.org/0") black black tt tt sampleTick laterTick
           emptyStorage _ (itemOf unit noThumbnail (urlRequest 0))).
  vm_compute. reflexivity.
Defined.

Lemma deleteHistoryItem_spec_witness :
  deleteHistoryItem "1700000000000_k3j2h1a" twinStorage
  = (true, setEntry twinStorage (Document (StorageSchema.mk STORAGE_VERSION [])))
  /\ getHistory (setEntry twinStorage (Document (StorageSchema.mk STORAGE_VERSION [])))
     = filter (fun item => negb (HistoryItem.id item =? "1700000000000_k3j2h1a"))
         (getHistory twinStorage).
Proof.
  assert (E : deleteHistoryItem "1700000000000_k3j2h1a" twinStorage
              = (true,
                 setEntry twinStorage (Document (StorageSchema.mk STORAGE_VERSION []))))
    by reflexivity.
  split; [exact E |].
  exact (proj1 (proj2 (proj1 (deleteHistoryItem_spec _ _ _) E))).
Defined.

Lemma clearHistory_spec_witness :
  fst (clearHistory twinStorage) = true
  /\ getHistory (snd (clearHistory twinStorage)) = [].
Proof.
  split; [reflexivity |].
  exact (proj1 (proj1 (proj2 (clearHistory_spec twinStorage)) eq_refl)).
Defined.

Lemma storage_unavailable_witness :
  LocalStorage.available noStorage = false
  /\ saveToHistory sampleStringify sampleBytes unit noThumbnail
       (URLData "https://example.org/0") black tt sampleTick noStorage
     = (None, noStorage).
Proof.
  split; [reflexivity |].
  exact (proj1 (proj2 (proj2
           (storage_unavailable sampleStringify sampleBytes unit noThumbnail
              noStorage (URLData "https://example.org/0") black tt sampleTick
              "none" SyntaxError eq_refl)))).
Defined.

Lemma version_mismatch_resets_witness :
  storedItems staleStorage = [twin 2 "second"; twin 1 "first"]
  /\ getHistory staleStorage = []
  /\ storedItems
       (snd (saveToHistory sampleStringify sampleBytes unit noThumbnail
               (URLData "https://example.org/0") black tt sampleTick staleStorage))
     = [itemOf unit noThumbnail (urlRequest 0)].
Proof.
  assert (V : StorageSchema.version
                (StorageSchema.mk 0 [twin 2 "second"; twin 1 "first"])
              <> STORAGE_VERSION) by discriminate.
  assert (E : saveToHistory sampleStringify sampleBytes unit noThumbnail
                (URLData "https://example.org/0") black tt sampleTick staleStorage
              = (Some (itemOf unit noThumbnail (urlRequest 0)),
                 snd (saveToHistory sampleStringify sampleBytes unit noThumbnail
                        (URLData "https://example.org/0") black tt sampleTick
                        staleStorage)))
    by (vm_compute; reflexivity).
  pose proof (version_mismatch_resets sampleStringify sampleBytes unit noThumbnail
                _ (URLData "https://example.org/0") black tt sampleTick
                staleStorage
                (snd (saveToHistory sampleStringify sampleBytes unit noThumbnail
                        (URLData "https://example.org/0") black tt sampleTick
                        staleStorage))
                (itemOf unit noThumbnail (urlRequest 0)) eq_refl V) as [H1 H2].
  split; [reflexivity |]. split; [exact H1 | exact (H2 E)].
Defined.

Lemma history_types_consistent_witness :
  typed (getHistory twinStorage)
  /\ typed (getHistory (snd (deleteHistoryItem "none" twinStorage))).
Proof.
  assert (T : typed (getHistory twinStorage)) by (repeat constructor).
  split; [exact T |].
  exact (proj1 (proj2 (history_types_consistent sampleStringify sampleBytes unit
                         noThumbnail twinStorage T)) "none").
Defined.


(* ================================================================== *)
(** ** The history gallery and the auto-save of the page *)
(* ================================================================== *)

Section GalleryFacts.

Variable numberToString : JSNumber -> string.
Variable toLowerCase : string -> string.
Variable includes : string -> string -> bool.
Variable trim : string -> string.
Variable localeCompare : string -> string -> Z.

Local Abbreviation shown :=
  (HistoryGallery.applyFiltersAndSort numberToString toLowerCase includes trim
     localeCompare).
Local Abbreviation matching :=
  (HistoryGallery.matchesQuery numberToString toLowerCase includes).


End GalleryFacts.

Section AutoSaveFacts.

Variable stringify : QRData -> string.
Variable schemaBytes : StorageSchema.t -> N.
Variable QRCodeStyling : Type.
Variable generateThumbnail : QRCodeStyling -> Z -> string.
Variable updateHistoryItem :
  string -> QRData -> ColorConfig.t -> QRCodeStyling -> Z -> LocalStorage.t ->
  option HistoryItem.t * LocalStorage.t.

Local Abbreviation saveItem :=
  (saveToHistory stringify schemaBytes QRCodeStyling generateThumbnail).
Local Abbreviation fire :=
  (Home.autoSave stringify schemaBytes QRCodeStyling generateThumbnail
     updateHistoryItem).

Lemma generateId_truthy (now : Z) (random : string) :
  truthy (generateId now random) = true.
Proof.
  unfold generateId. destruct (decimal now); reflexivity.
Qed.

(** X25.  When no entry is tracked for the type of the record, the
    auto-save calls [saveToHistory]: if that saves an item, the item is
    in the history and its id is tracked for this type and no other
    tracking changes; if it saves nothing, tracker and storage stay as
    they are. *)
Theorem autoSave_first_save (qrData : QRData) (colors : ColorConfig.t)
  (qrCode : QRCodeStyling) (tick : Tick.t) (tracker : Home.Tracker)
  (st : LocalStorage.t) :
  truthyOpt (tracker (typeOf qrData)) = false ->
  match saveItem qrData colors qrCode tick st with
  | (Some item, st') =>
      fire qrData colors qrCode tick tracker st
      = (Home.setTracked (typeOf qrData) (HistoryItem.id item) tracker, st')
      /\ fst (fire qrData colors qrCode tick tracker st) (typeOf qrData)
         = Some (HistoryItem.id item)
      /\ (forall key, key <> typeOf qrData ->
            fst (fire qrData colors qrCode tick tracker st) key = tracker key)
      /\ getHistoryItem (HistoryItem.id item) st' = Some item
  | (None, _) => fire qrData colors qrCode tick tracker st = (tracker, st)
  end.
Proof.
  intros T. unfold Home.autoSave. rewrite T.
  destruct (saveItem qrData colors qrCode tick st) as [[item|] st'] eqn:S.
  - split; [reflexivity |]. cbn [fst]. unfold Home.setTracked.
    split; [now rewrite String.eqb_refl |]. split.
    + intros key N. apply String.eqb_neq in N. now rewrite N.
    + rewrite saveToHistory_as_request in S.
      apply saveToHistory_saved in S as (-> & A & _ & k & Hk & ->).
      unfold getHistoryItem. rewrite (loadSchema_setEntry _ _ A).
      cbn [StorageSchema.items find]. now rewrite String.eqb_refl.
  - rewrite saveToHistory_as_request in S. apply saveToHistory_refused in S.
    now subst st'.
Qed.

(** X26.  Once an auto-save has saved an item for a type, the next
    auto-save for a record of that type does not save again: it hands
    the id of that item to [updateHistoryItem] and keeps the tracking. *)
Theorem autoSave_then_update (first second : QRData)
  (colors colors' : ColorConfig.t) (qrCode qrCode' : QRCodeStyling)
  (tick tick' : Tick.t) (tracker : Home.Tracker) (st st' : LocalStorage.t)
  (item : HistoryItem.t) :
  truthyOpt (tracker (typeOf first)) = false ->
  saveItem first colors qrCode tick st = (Some item, st') ->
  typeOf second = typeOf first ->
  let tracked := fst (fire first colors qrCode tick tracker st) in
  fire second colors' qrCode' tick' tracked st'
  = (tracked,
     snd (updateHistoryItem (HistoryItem.id item) second colors' qrCode'
            (Tick.stampClock tick') st')).
Proof.
  intros T S E tracked.
  assert (K : tracked (typeOf second) = Some (HistoryItem.id item)).
  { subst tracked. unfold Home.autoSave. rewrite T, S. cbn [fst].
    unfold Home.setTracked. now rewrite E, String.eqb_refl. }
  assert (I : truthy (HistoryItem.id item) = true).
  { rewrite saveToHistory_as_request in S.
    apply saveToHistory_saved in S as (-> & _). apply generateId_truthy. }
  unfold Home.autoSave at 1. rewrite K. cbn [truthyOpt orEmpty]. rewrite I.
  now destruct (updateHistoryItem _ _ _ _ _ _).
Qed.


End AutoSaveFacts.

Lemma autoSave_first_save_witness :
  truthyOpt (Home.emptyTracker "url") = false
  /\ fst (Home.autoSave sampleStringify sampleBytes unit noThumbnail
            (updateHistoryItem unit noThumbnail)
            (URLData "https://example.org/0") black tt sampleTick
            Home.emptyTracker emptyStorage) "url"
     = Some "1700000000000_k3j2h1a".
Proof.
  split; [reflexivity |].
  pose proof (autoSave_first_save sampleStringify sampleBytes unit noThumbnail
                (updateHistoryItem unit noThumbnail)
                (URLData "https://example.org/0") black tt sampleTick
                Home.emptyTracker emptyStorage eq_refl) as H.
  replace (saveToHistory sampleStringify sampleBytes unit noThumbnail
             (URLData "https://example.org/0") black tt sampleTick emptyStorage)
    with (Some (itemOf unit noThumbnail (urlRequest 0)),
          setEntry emptyStorage
            (Document
               (StorageSchema.mk STORAGE_VERSION
                  [itemOf unit noThumbnail (urlRequest 0)])))
    in H by (vm_compute; reflexivity).
  exact (proj1 (proj2 H)).
Defined.

Lemma autoSave_then_update_witness :
  snd (Home.autoSave sampleStringify sampleBytes unit noThumbnail
         (updateHistoryItem unit noThumbnail)
         (URLData "https://example.org/1") black tt laterTick
         (fst (Home.autoSave sampleStringify sampleBytes unit noThumbnail
                 (updateHistoryItem unit noThumbnail)
                 (URLData "https://example.org/0") black tt sampleTick
                 Home.emptyTracker emptyStorage))
         (setEntry emptyStorage
            (Document
               (StorageSchema.mk STORAGE_VERSION
                  [itemOf unit noThumbnail (urlRequest 0)]))))
  = snd (updateHistoryItem unit noThumbnail "1700000000000_k3j2h1a"
           (URLData "https://example.org/1") black tt 1700000005000
           (setEntry emptyStorage
              (Document
                 (StorageSchema.mk STORAGE_VERSION
                    [itemOf unit noThumbnail (urlRequest 0)])))).
Proof.
  rewrite (autoSave_then_update sampleStringify sampleBytes unit noThumbnail
             (updateHistoryItem unit noThumbnail)
             (URLData "https://example.org/0") (URLData "https://example.org/1")
             black black tt tt sampleTick laterTick Home.emptyTracker emptyStorage
             (setEntry emptyStorage
                (Document
                   (StorageSchema.mk STORAGE_VERSION
                      [itemOf unit noThumbnail (urlRequest 0)])))
             (itemOf unit noThumbnail (urlRequest 0)) eq_refl).
  - reflexivity.
  - vm_compute. reflexivity.
  - reflexivity.
Defined.


(* ================================================================== *)
(** ** The lines of a vCard, the payload schemes, the eviction loop *)
(* ================================================================== *)

Lemma contains_app (c : ascii) (a b : string) :
  contains c (a ++ b) = contains c a || contains c b.
Proof.
  induction a as [|x a IH]; [reflexivity |].
  cbn [append contains]. now rewrite IH, orb_assoc.
Qed.

Lemma splitLines_line (a rest : string) :
  contains LF a = false ->
  splitLines (a ++ CRLF ++ rest) = a :: splitLines rest.
Proof.
  induction a as [|c a IH]; [reflexivity |].
  cbn [contains]. intros H. apply orb_false_iff in H as [Hc Ha].
  specialize (IH Ha).
  assert (N : exists b tail, a ++ CRLF ++ rest = String b tail /\ Ascii.eqb b LF = false).
  { destruct a as [|b a']; [now exists CR, (String LF rest) |].
    cbn [contains] in Ha. apply orb_false_iff in Ha as [Hb _].
    now exists b, (a' ++ CRLF ++ rest). }
  destruct N as (b & tail & E & Hb).
  cbn [append]. rewrite E in *.
  change (splitLines (String c (String b tail)))
    with (if Ascii.eqb c CR && Ascii.eqb b LF then "" :: splitLines tail
          else match splitLines (String b tail) with
               | [] => [String c ""]
               | p :: ps => String c p :: ps
               end).
  now rewrite Hb, andb_false_r, IH.
Qed.

Lemma splitLines_join (lines : list string) :
  lines <> [] ->
  Forall (fun line => contains LF line = false) lines ->
  splitLines (join CRLF lines) = lines.
Proof.
  induction lines as [|l ls IH]; [congruence |]. intros _ H.
  inversion H as [|? ? Hl Hls]; subst.
  destruct ls as [|l2 ls]; [now apply contains_splitLines |].
  change (join CRLF (l :: l2 :: ls)) with (l ++ CRLF ++ join CRLF (l2 :: ls)).
  rewrite (splitLines_line _ _ Hl), IH; [reflexivity | discriminate | exact Hls].
Qed.

Lemma replaceAll_empty_contains (c d : ascii) (s : string) :
  contains c s = false -> contains c (replaceAll d "" s) = false.
Proof.
  induction s as [|a s IH]; [reflexivity |].
  cbn [contains replaceAll]. intros H. apply orb_false_iff in H as [Ha Hs].
  destruct (Ascii.eqb a d); cbn [append contains]; [now apply IH |].
  now rewrite Ha, (IH Hs).
Qed.

Lemma stripDataUrlPrefix_contains (c : ascii) (s : string) :
  contains c s = false -> contains c (stripDataUrlPrefix s) = false.
Proof.
  intros H. unfold stripDataUrlPrefix.
  destruct (stripPrefix "data:image/" s) as [rest|] eqn:E; [| exact H].
  pose proof (spanNoSemicolon_split rest) as Hrest.
  destruct (spanNoSemicolon rest) as [subtype tail]. cbn [fst snd] in Hrest.
  destruct (truthy subtype); [| exact H].
  destruct (stripPrefix ";base64," tail) as [payload|] eqn:E'; [| exact H].
  apply stripPrefix_split in E, E'. subst s rest tail.
  rewrite !contains_app in H. repeat apply orb_false_iff in H as [_ H]. exact H.
Qed.

Lemma optional_line_count (v : option string) (line : string) :
  length (if truthyOpt v then [line] else []) = length (filter truthyOpt [v]).
Proof.
  cbn [filter]. now destruct (truthyOpt v).
Qed.

Lemma optional_line_plain (v : option string) (line : string) :
  contains LF line = false ->
  Forall (fun l => contains LF l = false) (if truthyOpt v then [line] else []).
Proof.
  destruct (truthyOpt v); [| constructor]. intros H. now constructor.
Qed.

Lemma escaped_line_plain (prefix v : string) :
  contains LF prefix = false ->
  contains LF (prefix ++ escapeVCardValue v) = false.
Proof.
  intros H. now rewrite contains_app, H, escapeVCardValue_no_LF.
Qed.

Lemma length_filter_app {A : Type} (f : A -> bool) (xs ys : list A) :
  length (filter f (xs ++ ys)) = (length (filter f xs) + length (filter f ys))%nat.
Proof.
  now rewrite filter_app, length_app.
Qed.

Lemma mapType_plain (type : string) :
  contains LF (mapPhoneType type) = false
  /\ contains LF (mapEmailType type) = false
  /\ contains LF (mapAddressType type) = false.
Proof.
  unfold mapPhoneType, mapEmailType, mapAddressType.
  repeat split;
    repeat match goal with
           | |- context [if ?b then _ else _] => destruct b
           end; reflexivity.
Qed.

Lemma typed_line_plain (prefix type v : string) :
  contains LF prefix = false -> contains LF type = false ->
  contains LF (prefix ++ type ++ ":" ++ escapeVCardValue v) = false.
Proof.
  intros H1 H2. now rewrite !contains_app, H1, H2, escapeVCardValue_no_LF.
Qed.

Lemma verbatim_line_plain (prefix v : string) :
  contains LF prefix = false -> contains LF v = false ->
  contains LF (prefix ++ v) = false.
Proof.
  intros H1 H2. now rewrite contains_app, H1, H2.
Qed.

Lemma socialMedia_lines (sm : option VCardSocialMedia.t) :
  Forall (fun l => contains LF l = false) (pushSocialMedia sm [])
  /\ length (pushSocialMedia sm [])
     = length
         (filter truthyOpt
            match sm with
            | Some sm =>
                [ VCardSocialMedia.linkedin sm; VCardSocialMedia.twitter sm;
                  VCardSocialMedia.facebook sm; VCardSocialMedia.instagram sm;
                  VCardSocialMedia.website sm ]
            | None => []
            end).
Proof.
  destruct sm as [sm|]; [| split; [constructor | reflexivity]].
  cbn [pushSocialMedia]. rewrite !pushWhen_app. cbn [app]. split.
  - repeat (apply Forall_app; split);
      apply optional_line_plain; now apply escaped_line_plain.
  - rewrite !length_app, !optional_line_count.
    change [ VCardSocialMedia.linkedin sm; VCardSocialMedia.twitter sm;
             VCardSocialMedia.facebook sm; VCardSocialMedia.instagram sm;
             VCardSocialMedia.website sm ]
      with ([VCardSocialMedia.linkedin sm] ++ [VCardSocialMedia.twitter sm]
            ++ [VCardSocialMedia.facebook sm] ++ [VCardSocialMedia.instagram sm]
            ++ [VCardSocialMedia.website sm])%list.
    rewrite !length_filter_app. lia.
Qed.

(** X28.  Cut at every CR LF, a vCard has the two header lines, the FN
    and N lines, one line for every optional property that is present,
    one for every phone, e-mail and address row, and the footer: no
    value adds or removes a line, provided the three values written
    without escaping (birthday, photo, logo) hold no line feed. *)
Theorem encodeVCard_line_count (data : VCardData.t) :
  existsb (contains LF) (verbatimValues data) = false ->
  exists fn optional,
    splitLines (encodeVCard data)
    = "BEGIN:VCARD" :: "VERSION:3.0" :: ("FN:" ++ escapeVCardValue fn)
      :: ("N:" ++ escapeVCardValue (structuredName data))
      :: optional ++ ["END:VCARD"]
    /\ length optional
       = (length (filter truthyOpt (optionalValues data))
          + length (VCardData.phones data) + length (VCardData.emails data)
          + length (VCardData.addresses data))%nat.
Proof.
  unfold verbatimValues. cbn [existsb]. rewrite !orb_false_iff.
  intros (Hb & Hp & Hl & _).
  unfold encodeVCard. cbv zeta.
  rewrite !pushWhen_app, pushSocialMedia_app, !fold_push.
  unfold push. cbn [app]. rewrite <- !app_assoc. cbn [app].
  rewrite !app_assoc.
  match goal with
  | |- context [(?o ++ ["END:VCARD"])%list] => set (optional := o)
  end.
  match goal with
  | |- context [("FN:" ++ escapeVCardValue ?f)] => exists f
  end.
  exists optional.
  assert (Ho : Forall (fun l => contains LF l = false) optional).
  { subst optional. repeat (apply Forall_app; split);
      try (apply socialMedia_lines);
      try (apply optional_line_plain;
           first [ now apply escaped_line_plain
                 | apply verbatim_line_plain; [reflexivity |];
                   first [ now apply replaceAll_empty_contains
                         | now apply stripDataUrlPrefix_contains ] ]);
      apply Forall_forall; intros l Hin; apply in_map_iff in Hin as [x [<- _]];
      (apply typed_line_plain; [reflexivity | apply mapType_plain]). }
  split.
  - apply splitLines_join; [discriminate |].
    repeat constructor; try (now apply escaped_line_plain).
    apply Forall_app. split; [exact Ho | repeat constructor].
  - subst optional. unfold optionalValues.
    rewrite !length_app, !length_map, length_filter_app, !optional_line_count.
    rewrite (proj2 (socialMedia_lines (VCardData.socialMedia data))).
    change [ VCardData.nickname data; VCardData.birthday data; VCardData.photo data;
             VCardData.organization data; VCardData.jobTitle data;
             VCardData.department data; VCardData.role data; VCardData.logo data;
             VCardData.workWebsite data; VCardData.notes data ]
      with ([VCardData.nickname data] ++ [VCardData.birthday data]
            ++ [VCardData.photo data] ++ [VCardData.organization data]
            ++ [VCardData.jobTitle data] ++ [VCardData.department data]
            ++ [VCardData.role data] ++ [VCardData.logo data]
            ++ [VCardData.workWebsite data] ++ [VCardData.notes data])%list.
    rewrite !length_filter_app. lia.
Qed.

Lemma encodeVCard_line_count_witness :
  existsb (contains LF) (verbatimValues busyContact) = false
  /\ length (splitLines (encodeVCard busyContact)) = 8%nat.
Proof.
  split; [reflexivity |].
  destruct (encodeVCard_line_count busyContact eq_refl) as (fn & optional & E & L).
  rewrite E. cbn [length]. rewrite length_app, L. reflexivity.
Defined.

Section Schemes.

Variable encodeURIComponent : string -> string.
Variable numberToString : JSNumber -> string.

(** X29.  The payload of a record begins with the scheme of its type:
    [mailto:], [tel:], [sms:], [geo:], the vCard header up to the FN
    property, or [MECARD:]; URL and text records are passed on as they
    are. *)
Theorem formatQRData_scheme (data : QRData) (payload : string) :
  formatQRData encodeURIComponent numberToString data = Returned payload ->
  startsWith (schemeOf data) payload = true
  /\ (forall url, data = URLData url -> payload = url)
  /\ (forall text, data = TextData text -> payload = text).
Proof.
  destruct data as [url|text|email subject body|phone|phone message
                    |latitude longitude address|vcard|mecard|type];
    cbn [formatQRData schemeOf]; intros [= <-];
    (split; [| split; intros x [= <-]; reflexivity]).
  - reflexivity.
  - reflexivity.
  - unfold formatEmailData. now destruct (0 <? _)%nat.
  - reflexivity.
  - unfold formatSMSData. now destruct (truthyOpt message).
  - reflexivity.
  - destruct (encodeVCard_lines vcard) as (fn & optional & ->). reflexivity.
  - reflexivity.
Qed.

End Schemes.

Lemma formatQRData_scheme_witness :
  formatQRData (fun s => s) (fun _ => "0") (PhoneData "+1 555") = Returned "tel:+1 555"
  /\ startsWith "tel:" "tel:+1 555" = true.
Proof.
  split; [reflexivity |].
  apply (formatQRData_scheme (fun s => s) (fun _ => "0") (PhoneData "+1 555")
           "tel:+1 555" eq_refl).
Defined.

Section Eviction.

Variable schemaBytes : StorageSchema.t -> N.

Lemma enforceStorageLimit_short (schema : StorageSchema.t) :
  (length (StorageSchema.items schema) <= 1)%nat ->
  enforceStorageLimit schemaBytes schema = schema.
Proof.
  intros H. unfold enforceStorageLimit.
  destruct (length (StorageSchema.items schema)) as [|[|n]] eqn:L;
    [reflexivity | | lia].
  cbn [enforceLoop]. rewrite L. now rewrite andb_false_r.
Qed.

(** X30.  The eviction loop is idempotent: a schema that it has
    trimmed is left as it is by a second run. *)
Theorem enforceStorageLimit_idempotent (schema : StorageSchema.t) :
  enforceStorageLimit schemaBytes (enforceStorageLimit schemaBytes schema)
  = enforceStorageLimit schemaBytes schema.
Proof.
  destruct (enforceStorageLimit_spec schemaBytes schema)
    as (k & E & Hk & _ & [Hfits | Hone]).
  - now apply enforceStorageLimit_fits.
  - apply enforceStorageLimit_short. rewrite E. cbn [StorageSchema.items].
    rewrite length_firstn. lia.
Qed.

End Eviction.

Lemma validateQRData_location_witness :
  withinRange 90 (Num (482 # 10)) /\ withinRange 180 NaN
  /\ ValidationResult.valid
       (validateQRData noTrim (fun _ => true) (fun _ => true)
          (LocationData (Num (482 # 10)) NaN None)) = true.
Proof.
  assert (W : withinRange 90 (Num (482 # 10)) /\ withinRange 180 NaN).
  { split; [| exact I]. split; unfold Qle; cbn; lia. }
  split; [exact (proj1 W) |]. split; [exact (proj2 W) |].
  exact (proj2 (validateQRData_location noTrim (fun _ => true) (fun _ => true)
                  (Num (482 # 10)) NaN None) W).
Defined.

